(** * Overlayfs inode layer (fs/overlayfs/inode.c)

    A shallow embedding of the node-identity, link-count and
    attribute/permission/xattr passthrough code of fs/overlayfs/inode.c,
    together with the properties its specification states about it.

    Conventions.  C integers are [Z]; where the code relies on a width the
    wrap-around is written out ([u32], [s32]).  A [struct inode *] of an
    underlying layer is an address ([ptr]) into a store of real inodes, so
    that pointer comparisons of the source are comparisons of addresses.
    An overlay inode is a [handle] into a store of logical nodes.  A
    pointer that may be NULL is an [option].  An [int] result is [0] on
    success and a negative errno on failure, as in the source.  Code runs
    in a state monad over the [world]; functions that inode.c calls but
    does not define are modelled from the specification or answered by an
    environment [env]. *)

From Stdlib Require Import ZArith List Bool Ascii String Lia.
From stdpp Require Import base option gmap strings.

Import ListNotations.
Local Open Scope Z_scope.
Local Open Scope bool_scope.

(** ** Kernel constants used by the file *)

Module K.

(** errno values (include/uapi/asm-generic/errno-base.h, errno.h) *)
Definition EIO : Z := 5.
Definition ECHILD : Z := 10.
Definition ENOMEM : Z := 12.
Definition EINVAL : Z := 22.
Definition ERANGE : Z := 34.
Definition ENODATA : Z := 61.
Definition ESTALE : Z := 116.

(** file type bits of [i_mode] (include/uapi/linux/stat.h) *)
Definition S_IFMT : Z := 0xF000.
Definition S_IFSOCK : Z := 0xC000.
Definition S_IFLNK : Z := 0xA000.
Definition S_IFREG : Z := 0x8000.
Definition S_IFBLK : Z := 0x6000.
Definition S_IFDIR : Z := 0x4000.
Definition S_IFCHR : Z := 0x2000.
Definition S_IFIFO : Z := 0x1000.

Definition S_ISDIR (m : Z) : bool := Z.land m S_IFMT =? S_IFDIR.
Definition S_ISCHR (m : Z) : bool := Z.land m S_IFMT =? S_IFCHR.
Definition S_ISBLK (m : Z) : bool := Z.land m S_IFMT =? S_IFBLK.
Definition S_ISFIFO (m : Z) : bool := Z.land m S_IFMT =? S_IFIFO.
Definition S_ISSOCK (m : Z) : bool := Z.land m S_IFMT =? S_IFSOCK.

(** [special_file(m)] of include/linux/fs.h *)
Definition special_file (m : Z) : bool :=
  S_ISCHR m || S_ISBLK m || S_ISFIFO m || S_ISSOCK m.

(** permission mask bits (include/linux/fs.h) *)
Definition MAY_EXEC : Z := 0x1.
Definition MAY_WRITE : Z := 0x2.
Definition MAY_READ : Z := 0x4.
Definition MAY_APPEND : Z := 0x8.
Definition MAY_NOT_BLOCK : Z := 0x80.

(** [ia_valid] bits (include/linux/fs.h) *)
Definition ATTR_MODE : Z := 0x1.
Definition ATTR_KILL_SUID : Z := 0x800.
Definition ATTR_KILL_SGID : Z := 0x1000.

(** statx request bits (include/uapi/linux/stat.h) *)
Definition STATX_NLINK : Z := 0x4.
Definition STATX_INO : Z := 0x100.

(** [XATTR_REPLACE] (include/uapi/linux/xattr.h) *)
Definition XATTR_REPLACE : Z := 0x2.

(** [enum ovl_path_type] bits and [enum ovl_flag] numbers (overlayfs.h) *)
Definition __OVL_PATH_UPPER : Z := 1.
Definition __OVL_PATH_MERGE : Z := 2.
Definition __OVL_PATH_ORIGIN : Z := 4.
Definition OVL_TYPE_UPPER (t : Z) : bool := negb (Z.land t __OVL_PATH_UPPER =? 0).
Definition OVL_TYPE_MERGE (t : Z) : bool := negb (Z.land t __OVL_PATH_MERGE =? 0).
Definition OVL_TYPE_ORIGIN (t : Z) : bool := negb (Z.land t __OVL_PATH_ORIGIN =? 0).
Definition OVL_IMPURE : Z := 0.
Definition OVL_INDEX : Z := 1.

(** 32-bit wrap-around: [unsigned int] and [int] *)
Definition u32 (z : Z) : Z := z mod 2 ^ 32.
Definition s32 (z : Z) : Z := (z + 2 ^ 31) mod 2 ^ 32 - 2 ^ 31.
Definition INT_MAX : Z := 2 ^ 31 - 1.
Definition INT_MIN : Z := - 2 ^ 31.

(** [I_NEW] and [S_NOCMTIME] (include/linux/fs.h) *)
Definition I_NEW : Z := 0x8.
Definition S_NOCMTIME : Z := 128.

(** extended attribute names (include/uapi/linux/xattr.h, overlayfs.h) *)
Definition XATTR_TRUSTED_PREFIX : string := "trusted.".
Definition OVL_XATTR_PREFIX : string := (XATTR_TRUSTED_PREFIX ++ "overlay.")%string.
Definition OVL_XATTR_NLINK : string := (OVL_XATTR_PREFIX ++ "nlink")%string.
Definition OVL_XATTR_IMPURE : string := (OVL_XATTR_PREFIX ++ "impure")%string.

End K.

Import K.

(** ** Data model *)

(** Address of a [struct inode] of an underlying (real) filesystem, and
    handle of an overlay inode (a logical node). *)
Definition ptr := Z.
Definition handle := Z.

(** C truth value of a pointer. *)
Definition nonnull {A : Type} (p : option A) : bool :=
  match p with Some _ => true | None => false end.

(** The per-kind operation tables wired by [ovl_fill_inode]. *)
Inductive inode_operations :=
| ovl_file_inode_operations
| ovl_dir_inode_operations
| ovl_symlink_inode_operations.

(** The fields of [struct inode] that the file reads or writes.  For an
    inode of an underlying layer, [i_sdev] is [i_sb->s_dev] and [i_xattrs]
    is its extended-attribute store. *)
Record inode := mkInode {
  i_ino : Z;
  i_mode : Z;
  i_nlink : Z;
  i_rdev : Z;
  i_uid : Z;
  i_gid : Z;
  i_atime : Z;
  i_mtime : Z;
  i_ctime : Z;
  i_state : Z;
  i_flags : Z;
  i_private : option ptr;
  i_op : option inode_operations;
  i_sdev : Z;
  i_xattrs : gmap string (list ascii)
}.

(** A positive dentry of an underlying layer: [d_inode(dentry)] and
    [d_is_dir(dentry)]. *)
Record dentry := mkDentry {
  d_inode : ptr;
  d_is_dir : bool
}.

(** [struct path]. *)
Record path := mkPath {
  mnt : option Z;
  p_dentry : option dentry
}.

(** [struct ovl_inode] (ovl_entry.h): the logical node. *)
Record ovl_inode := mkOvlInode {
  vfs_inode : inode;
  flags : Z;
  __upperdentry : option dentry;
  lower : option ptr
}.

(** Credentials, with the answer of
    [ns_capable_noaudit(&init_user_ns, CAP_SYS_ADMIN)] for them. *)
Record cred := mkCred {
  cr_id : Z;
  cap_sys_admin : bool
}.

(** [struct ovl_fs] (ovl_entry.h), the fields read here. *)
Record ovl_fs := mkOvlFs {
  upper_mnt : option Z;
  indexdir : option dentry;
  same_sb : option Z;
  creator_cred : cred
}.

(** The overlay [struct super_block]. *)
Record super_block := mkSb {
  s_dev : Z;
  s_export_op : option Z;
  s_fs_info : ovl_fs
}.

(** An overlay dentry: its superblock, its inode if it has one, and the
    [lowerstack] of its [struct ovl_entry]. *)
Record ovl_dentry := mkOvlDentry {
  d_sb : super_block;
  od_inode : option handle;
  lowerstack : list path
}.

(** [struct kstat]. *)
Record kstat := mkKstat {
  st_dev : Z;
  st_ino : Z;
  st_mode : Z;
  st_nlink : Z;
  st_uid : Z;
  st_gid : Z;
  st_rdev : Z;
  st_atime : Z;
  st_mtime : Z;
  st_ctime : Z
}.

(** [struct iattr]. *)
Record iattr := mkIattr {
  ia_valid : Z;
  ia_mode : Z;
  ia_uid : Z;
  ia_gid : Z;
  ia_size : Z
}.

(** Calls that leave this file, as they are recorded in the trace. *)
Inductive call :=
| c_setattr_prepare (ia_valid : Z)
| c_want_write
| c_drop_write
| c_copy_up
| c_override_creds
| c_revert_creds
| c_inode_lock (i : ptr)
| c_inode_unlock (i : ptr)
| c_notify_change (i : ptr) (ia_valid : Z)
| c_copyattr (i : ptr)
| c_generic_permission (h : handle) (mask : Z)
| c_inode_permission (i : ptr) (mask : Z)
| c_getattr (i : ptr) (request_mask : Z) (query_flags : Z)
| c_getxattr (i : ptr) (name : string) (size : Z)
| c_setxattr (i : ptr) (name : string) (value : list ascii) (xflags : Z)
| c_removexattr (i : ptr) (name : string)
| c_listxattr (i : ptr) (size : Z)
| c_iget5_locked (key : ptr)
| c_new_inode
| c_iput (h : handle)
| c_dput (i : option ptr)
| c_warn.

(** The state the code runs in: the real inodes by address, the overlay
    inodes by handle, the inode hash of the overlay superblock (the hashed
    overlay inodes, searched with the test callback), the allocation
    counters, the write-intent count of the upper mount, the credentials
    in effect, and the trace of outgoing calls, each with the credentials
    it was made under. *)
Record world := mkWorld {
  real : ptr -> inode;
  nodes : handle -> ovl_inode;
  icache : list handle;
  next_handle : handle;
  next_ino : Z;
  writers : Z;
  current_cred : cred;
  trace : list (cred * call)
}.

(** Outcome of the promotion engine. *)
Inductive promotion :=
| Promoted (upper : dentry) (real' : ptr -> inode)
| PromotionFailed (errno : positive).

(** What the collaborators of this file answer.  [fault w c] is the error
    (0 for none) with which the VFS or the underlying filesystem answers
    call [c] in state [w]; the other fields are the results that are not
    error codes. *)
Record env := mkEnv {
  fault : world -> call -> Z;
  promote : world -> ovl_dentry -> promotion;
  notify_change_real : world -> dentry -> iattr -> ptr -> inode;
  listxattr_data : world -> dentry -> Z -> Z * list ascii;
  alloc_ok : world -> bool;
  ovl_path_type : world -> ovl_dentry -> Z;
  ovl_path_lowerdata : world -> ovl_dentry -> path
}.

(** ** The monad of the embedding

    A computation reads and changes the [world] and yields a value.  It
    yields nothing ([oops]) where the C code dereferences a NULL pointer,
    and where the bound given to a loop is exhausted. *)

Definition M (A : Type) : Type := world -> option (A * world).

Definition ret {A : Type} (a : A) : M A := fun w => Some (a, w).

Definition bind {A B : Type} (m : M A) (k : A -> M B) : M B :=
  fun w => match m w with
           | Some (a, w') => k a w'
           | None => None
           end.

Notation "x <- m ;; k" := (bind m (fun x => k))
  (at level 100, m at next level, right associativity).
Notation "m ;;; k" := (bind m (fun _ => k))
  (at level 100, right associativity).

Definition oops {A : Type} : M A := fun _ => None.

Definition deref {A : Type} (p : option A) : M A :=
  match p with
  | Some a => ret a
  | None => oops
  end.

Definition get_world : M world := fun w => Some (w, w).

Definition modify (f : world -> world) : M unit := fun w => Some (tt, f w).

(** Field updates of the state. *)
Definition set_real (r : ptr -> inode) (w : world) : world :=
  mkWorld r (nodes w) (icache w) (next_handle w) (next_ino w) (writers w)
    (current_cred w) (trace w).

Definition set_nodes (n : handle -> ovl_inode) (w : world) : world :=
  mkWorld (real w) n (icache w) (next_handle w) (next_ino w) (writers w)
    (current_cred w) (trace w).

Definition set_icache (c : list handle) (w : world) : world :=
  mkWorld (real w) (nodes w) c (next_handle w) (next_ino w) (writers w)
    (current_cred w) (trace w).

Definition set_next_handle (n : handle) (w : world) : world :=
  mkWorld (real w) (nodes w) (icache w) n (next_ino w) (writers w)
    (current_cred w) (trace w).

Definition set_next_ino (n : Z) (w : world) : world :=
  mkWorld (real w) (nodes w) (icache w) (next_handle w) n (writers w)
    (current_cred w) (trace w).

Definition set_writers (n : Z) (w : world) : world :=
  mkWorld (real w) (nodes w) (icache w) (next_handle w) (next_ino w) n
    (current_cred w) (trace w).

Definition set_current_cred (c : cred) (w : world) : world :=
  mkWorld (real w) (nodes w) (icache w) (next_handle w) (next_ino w) (writers w)
    c (trace w).

Definition set_trace (t : list (cred * call)) (w : world) : world :=
  mkWorld (real w) (nodes w) (icache w) (next_handle w) (next_ino w) (writers w)
    (current_cred w) t.

(** Pointwise update of a store. *)
Definition upd {A : Type} (f : Z -> A) (k : Z) (a : A) : Z -> A :=
  fun k' => if k' =? k then a else f k'.

Definition update_node (h : handle) (f : ovl_inode -> ovl_inode) (w : world) : world :=
  set_nodes (upd (nodes w) h (f (nodes w h))) w.

Definition update_real (i : ptr) (f : inode -> inode) (w : world) : world :=
  set_real (upd (real w) i (f (real w i))) w.

(** Record a call in the trace, under the credentials in effect. *)
Definition emit (c : call) : M unit :=
  modify (fun w => set_trace (trace w ++ [(current_cred w, c)]) w).

(** Make an outgoing call whose only answer is an error code. *)
Definition extern (E : env) (c : call) : M Z :=
  w <- get_world ;;
  emit c ;;;
  ret (fault E w c).

(** Field updates of inodes. *)
Definition set_vfs_inode (i : inode) (oi : ovl_inode) : ovl_inode :=
  mkOvlInode i (flags oi) (__upperdentry oi) (lower oi).

Definition set_flags (f : Z) (oi : ovl_inode) : ovl_inode :=
  mkOvlInode (vfs_inode oi) f (__upperdentry oi) (lower oi).

Definition set_upperdentry (u : option dentry) (oi : ovl_inode) : ovl_inode :=
  mkOvlInode (vfs_inode oi) (flags oi) u (lower oi).

Definition set_lower (l : option ptr) (oi : ovl_inode) : ovl_inode :=
  mkOvlInode (vfs_inode oi) (flags oi) (__upperdentry oi) l.

Definition set_i_xattrs (x : gmap string (list ascii)) (i : inode) : inode :=
  mkInode (i_ino i) (i_mode i) (i_nlink i) (i_rdev i) (i_uid i) (i_gid i)
    (i_atime i) (i_mtime i) (i_ctime i) (i_state i) (i_flags i) (i_private i)
    (i_op i) (i_sdev i) x.

Definition set_i_nlink (n : Z) (i : inode) : inode :=
  mkInode (i_ino i) (i_mode i) n (i_rdev i) (i_uid i) (i_gid i)
    (i_atime i) (i_mtime i) (i_ctime i) (i_state i) (i_flags i) (i_private i)
    (i_op i) (i_sdev i) (i_xattrs i).

Definition set_i_state (s : Z) (i : inode) : inode :=
  mkInode (i_ino i) (i_mode i) (i_nlink i) (i_rdev i) (i_uid i) (i_gid i)
    (i_atime i) (i_mtime i) (i_ctime i) s (i_flags i) (i_private i)
    (i_op i) (i_sdev i) (i_xattrs i).

(** ** Accessors of util.c and overlayfs.h

    These helpers are declared in overlayfs.h and defined in util.c; they
    read the references a logical node holds (specification, section 3). *)

(** Modelled from the spec: [ovl_inode_upper] is not in inode.c; it is the
    inode of the node's [upper] reference, or NULL. *)
Definition ovl_inode_upper (oi : ovl_inode) : option ptr :=
  match __upperdentry oi with
  | Some u => Some (d_inode u)
  | None => None
  end.

(** Modelled from the spec: [ovl_inode_lower] is not in inode.c; it is the
    node's [lower] (origin) reference. *)
Definition ovl_inode_lower (oi : ovl_inode) : option ptr := lower oi.

(** Modelled from the spec: [ovl_i_dentry_upper] is not in inode.c; it is
    the node's [upper] reference. *)
Definition ovl_i_dentry_upper (oi : ovl_inode) : option dentry := __upperdentry oi.

(** Modelled from the spec: [ovl_dentry_upper] is not in inode.c; it is the
    [upper] reference of the dentry's logical node. *)
Definition ovl_dentry_upper (d : ovl_dentry) : M (option dentry) :=
  h <- deref (od_inode d) ;;
  w <- get_world ;;
  ret (__upperdentry (nodes w h)).

(** Modelled from the spec: [ovl_dentry_lower] is not in inode.c; it is the
    read-only object the dentry originates from, the first entry of the
    lower stack, or NULL. *)
Definition ovl_dentry_lower (d : ovl_dentry) : option dentry :=
  match lowerstack d with
  | p :: _ => p_dentry p
  | [] => None
  end.

(** Modelled from the spec: [ovl_path_lower] is not in inode.c; it is the
    path of the first entry of the lower stack, or the empty path. *)
Definition ovl_path_lower (d : ovl_dentry) : path :=
  match lowerstack d with
  | p :: _ => p
  | [] => mkPath None None
  end.

(** Modelled from the spec: [ovl_path_real] is not in inode.c; section 4.3:
    resolve to the best available physical object (writable if present,
    else read-only).  It returns the path type, which is taken from the
    environment. *)
Definition ovl_path_real (E : env) (d : ovl_dentry) : M (Z * path) :=
  w <- get_world ;;
  u <- ovl_dentry_upper d ;;
  match u with
  | Some _ => ret (ovl_path_type E w d, mkPath (upper_mnt (s_fs_info (d_sb d))) u)
  | None => ret (ovl_path_type E w d, ovl_path_lower d)
  end.

(** Modelled from the spec: [ovl_dentry_real] is not in inode.c; the
    representative object: writable if present, else read-only. *)
Definition ovl_dentry_real (d : ovl_dentry) : M (option dentry) :=
  u <- ovl_dentry_upper d ;;
  match u with
  | Some _ => ret u
  | None => ret (ovl_dentry_lower d)
  end.

(** [ovl_test_flag] and [ovl_set_flag] of util.c: one bit of
    [OVL_I(inode)->flags]. *)
Definition ovl_test_flag (flag : Z) (oi : ovl_inode) : bool :=
  Z.testbit (flags oi) flag.

Definition ovl_set_flag (flag : Z) (oi : ovl_inode) : ovl_inode :=
  set_flags (Z.lor (flags oi) (Z.shiftl 1 flag)) oi.

(** [ovl_indexdir] and [ovl_same_sb] of util.c: fields of the mount's
    [struct ovl_fs]. *)
Definition ovl_indexdir (sb : super_block) : option dentry :=
  indexdir (s_fs_info sb).

Definition ovl_same_sb (sb : super_block) : option Z :=
  same_sb (s_fs_info sb).

(** ** Collaborators

    The privilege context boundary, the promotion engine, the extended
    attribute store and the VFS entry points called by inode.c.  None of
    them is defined in inode.c. *)

(** Modelled from the spec: [ovl_override_creds] and [ovl_revert_creds]
    are not in inode.c; section 6: a scoped swap of the effective
    credentials to the mount-configured identity, restored on exit. *)
Definition ovl_override_creds (sb : super_block) : M cred :=
  w <- get_world ;;
  emit c_override_creds ;;;
  modify (set_current_cred (creator_cred (s_fs_info sb))) ;;;
  ret (current_cred w).

Definition ovl_revert_creds (old_cred : cred) : M unit :=
  emit c_revert_creds ;;;
  modify (set_current_cred old_cred).

(** Modelled from the spec: [ovl_want_write] and [ovl_drop_write] are not
    in inode.c; section 5: mount-wide write intent is a reference-counted
    gate whose acquisition can fail. *)
Definition ovl_want_write (E : env) (d : ovl_dentry) : M Z :=
  err <- extern E c_want_write ;;
  if err =? 0
  then modify (fun w => set_writers (writers w + 1) w) ;;; ret 0
  else ret err.

Definition ovl_drop_write (d : ovl_dentry) : M unit :=
  emit c_drop_write ;;;
  modify (fun w => set_writers (writers w - 1) w).

(** Modelled from the spec: [ovl_copy_up] is not in inode.c; section 6:
    [promote(node)] fails with an error or, on success, guarantees that
    the node's [upper] reference is present.  A node that already has a
    writable object needs no promotion. *)
Definition ovl_copy_up (E : env) (d : ovl_dentry) : M Z :=
  emit c_copy_up ;;;
  h <- deref (od_inode d) ;;
  w <- get_world ;;
  match __upperdentry (nodes w h) with
  | Some _ => ret 0
  | None =>
    match promote E w d with
    | Promoted u real' =>
      modify (fun w => update_node h (set_upperdentry (Some u)) (set_real real' w)) ;;;
      ret 0
    | PromotionFailed e => ret (Z.neg e)
    end
  end.

(** Modelled from the spec: [setattr_prepare] is not in inode.c; section
    4.3: the standard precondition rules, which either pass or fail with
    an error. *)
Definition setattr_prepare (E : env) (d : ovl_dentry) (attr : iattr) : M Z :=
  extern E (c_setattr_prepare (ia_valid attr)).

(** Modelled from the spec: [notify_change] is not in inode.c; section
    4.3: apply the change to the writable object, or fail. *)
Definition notify_change (E : env) (d : dentry) (attr : iattr) : M Z :=
  w <- get_world ;;
  err <- extern E (c_notify_change (d_inode d) (ia_valid attr)) ;;
  if err =? 0
  then modify (set_real (notify_change_real E w d attr)) ;;; ret 0
  else ret err.

Definition inode_lock (i : ptr) : M unit := emit (c_inode_lock i).
Definition inode_unlock (i : ptr) : M unit := emit (c_inode_unlock i).

(** [ovl_copyattr] of overlayfs.h: owner, mode and times of [from]. *)
Definition copyattr (from to : inode) : inode :=
  mkInode (i_ino to) (i_mode from) (i_nlink to) (i_rdev to) (i_uid from)
    (i_gid from) (i_atime from) (i_mtime from) (i_ctime from) (i_state to)
    (i_flags to) (i_private to) (i_op to) (i_sdev to) (i_xattrs to).

Definition ovl_copyattr (from : ptr) (to : handle) : M unit :=
  emit (c_copyattr from) ;;;
  modify (fun w =>
    update_node to (fun oi => set_vfs_inode (copyattr (real w from) (vfs_inode oi)) oi) w).

(** Modelled from the spec: [generic_permission] and [inode_permission]
    are not in inode.c; section 4.3: the standard check against the
    logical node, and the check on the underlying object. *)
Definition generic_permission (E : env) (h : handle) (mask : Z) : M Z :=
  extern E (c_generic_permission h mask).

Definition inode_permission (E : env) (i : ptr) (mask : Z) : M Z :=
  extern E (c_inode_permission i mask).

(** Modelled from the spec: [vfs_getattr] is not in inode.c; section 4.3:
    query the object for its standard metadata.  On failure the caller's
    buffer is left as it was. *)
Definition generic_fillattr (i : inode) : kstat :=
  mkKstat (i_sdev i) (i_ino i) (i_mode i) (i_nlink i) (i_uid i) (i_gid i)
    (i_rdev i) (i_atime i) (i_mtime i) (i_ctime i).

Definition vfs_getattr (E : env) (p : path) (stat : kstat)
    (request_mask query_flags : Z) : M (Z * kstat) :=
  d <- deref (p_dentry p) ;;
  err <- extern E (c_getattr (d_inode d) request_mask query_flags) ;;
  if err =? 0
  then w <- get_world ;; ret (0, generic_fillattr (real w (d_inode d)))
  else ret (err, stat).

(** Modelled from the spec: [vfs_getxattr] (and the wrapper
    [ovl_vfs_getxattr]) is not in inode.c; section 6: [get(name)] yields
    the bytes stored under [name] or an error.  With [size = 0] only the
    length is returned; a value longer than the buffer is [-ERANGE]; an
    absent attribute is [-ENODATA]. *)
Definition vfs_getxattr (E : env) (d : dentry) (name : string) (size : Z)
    : M (Z * list ascii) :=
  err <- extern E (c_getxattr (d_inode d) name size) ;;
  if err <? 0 then ret (err, []) else
  w <- get_world ;;
  match i_xattrs (real w (d_inode d)) !! name with
  | None => ret (- ENODATA, [])
  | Some v =>
    let len := Z.of_nat (length v) in
    if size =? 0 then ret (len, [])
    else if size <? len then ret (- ERANGE, [])
    else ret (len, v)
  end.

Definition ovl_vfs_getxattr := vfs_getxattr.

(** Modelled from the spec: [vfs_setxattr] (and the wrapper
    [ovl_do_setxattr]) and [vfs_removexattr] are not in inode.c; section
    6: [set(name, value, flags)] and [remove(name)] succeed or fail; a
    successful [set] stores the value, a successful [remove] deletes it,
    and removing an absent attribute is [-ENODATA]. *)
Definition vfs_setxattr (E : env) (d : dentry) (name : string)
    (value : list ascii) (size : Z) (xflags : Z) : M Z :=
  let v := firstn (Z.to_nat size) value in
  err <- extern E (c_setxattr (d_inode d) name v xflags) ;;
  if negb (err =? 0) then ret err else
  modify (update_real (d_inode d)
            (fun i => set_i_xattrs (<[name := v]> (i_xattrs i)) i)) ;;;
  ret 0.

Definition ovl_do_setxattr := vfs_setxattr.

Definition vfs_removexattr (E : env) (d : dentry) (name : string) : M Z :=
  err <- extern E (c_removexattr (d_inode d) name) ;;
  if negb (err =? 0) then ret err else
  w <- get_world ;;
  match i_xattrs (real w (d_inode d)) !! name with
  | None => ret (- ENODATA)
  | Some _ =>
    modify (update_real (d_inode d)
              (fun i => set_i_xattrs (delete name (i_xattrs i)) i)) ;;;
    ret 0
  end.

(** Modelled from the spec: [vfs_listxattr] is not in inode.c; section 6:
    [list()] yields bytes or an error.  The result and the bytes written
    to the caller's buffer are whatever the underlying filesystem
    produces. *)
Definition vfs_listxattr (E : env) (d : dentry) (size : Z) : M (Z * list ascii) :=
  w <- get_world ;;
  emit (c_listxattr (d_inode d) size) ;;;
  ret (listxattr_data E w d size).

(** [ns_capable_noaudit(&init_user_ns, CAP_SYS_ADMIN)]: asked of the
    credentials in effect. *)
Definition ns_capable_noaudit : M bool :=
  w <- get_world ;;
  ret (cap_sys_admin (current_cred w)).

(** ** inode.c: attributes and permission *)

Definition set_ia_valid (v : Z) (a : iattr) : iattr :=
  mkIattr v (ia_mode a) (ia_uid a) (ia_gid a) (ia_size a).

(** [ovl_setattr], inode.c:19.  The attribute block is changed in place by
    the source, so it is returned next to the error code. *)
Definition ovl_setattr (E : env) (d : ovl_dentry) (attr : iattr) : M (Z * iattr) :=
  err <- setattr_prepare E d attr ;;
  if negb (err =? 0) then ret (err, attr) else
  err <- ovl_want_write E d ;;
  if negb (err =? 0) then ret (err, attr) else
  err <- ovl_copy_up E d ;;
  r <- (if err =? 0 then
          upperdentry <- ovl_dentry_upper d ;;
          let attr :=
            if negb (Z.land (ia_valid attr) (Z.lor ATTR_KILL_SUID ATTR_KILL_SGID) =? 0)
            then set_ia_valid (Z.land (ia_valid attr) (Z.lnot ATTR_MODE)) attr
            else attr in
          u <- deref upperdentry ;;
          inode_lock (d_inode u) ;;;
          old_cred <- ovl_override_creds (d_sb d) ;;
          err <- notify_change E u attr ;;
          ovl_revert_creds old_cred ;;;
          (if err =? 0
           then h <- deref (od_inode d) ;; ovl_copyattr (d_inode u) h
           else ret tt) ;;;
          inode_unlock (d_inode u) ;;;
          ret (err, attr)
        else ret (err, attr)) ;;
  ovl_drop_write d ;;;
  ret r.

Definition set_st_dev (v : Z) (s : kstat) : kstat :=
  mkKstat v (st_ino s) (st_mode s) (st_nlink s) (st_uid s) (st_gid s)
    (st_rdev s) (st_atime s) (st_mtime s) (st_ctime s).

Definition set_st_ino (v : Z) (s : kstat) : kstat :=
  mkKstat (st_dev s) v (st_mode s) (st_nlink s) (st_uid s) (st_gid s)
    (st_rdev s) (st_atime s) (st_mtime s) (st_ctime s).

Definition set_st_nlink (v : Z) (s : kstat) : kstat :=
  mkKstat (st_dev s) (st_ino s) (st_mode s) v (st_uid s) (st_gid s)
    (st_rdev s) (st_atime s) (st_mtime s) (st_ctime s).

(** The contents of a [struct kstat] local before it is filled. *)
Definition kstat_uninit : kstat := mkKstat 0 0 0 0 0 0 0 0 0 0.

(** The last two rules of [ovl_getattr], inode.c:140-150. *)
Definition getattr_nlink (is_dir : bool) (type : Z) (oi : ovl_inode) (stat : kstat) : kstat :=
  let stat := if is_dir && OVL_TYPE_MERGE type then set_st_nlink 1 stat else stat in
  if negb is_dir && ovl_test_flag OVL_INDEX oi
  then set_st_nlink (i_nlink (vfs_inode oi)) stat
  else stat.

(** [ovl_getattr], inode.c:62.  The first argument says whether the build
    defines [CONFIG_KSU_SUSFS_SUS_OVERLAYFS]. *)
Definition ovl_getattr (CONFIG_KSU_SUSFS_SUS_OVERLAYFS : bool) (E : env)
    (d : ovl_dentry) (stat : kstat) (request_mask query_flags : Z) : M (Z * kstat) :=
  h <- deref (od_inode d) ;;
  w <- get_world ;;
  let oi := nodes w h in
  let is_dir := S_ISDIR (i_mode (vfs_inode oi)) in
  let lowerdata := ovl_path_lowerdata E w d in
  if CONFIG_KSU_SUSFS_SUS_OVERLAYFS
     && (nonnull (mnt lowerdata) && nonnull (p_dentry lowerdata))
  then
    old_cred <- ovl_override_creds (d_sb d) ;;
    r <- vfs_getattr E lowerdata stat request_mask query_flags ;;
    ovl_revert_creds old_cred ;;;
    ret r
  else
    tr <- ovl_path_real E d ;;
    let (type, realpath) := tr in
    old_cred <- ovl_override_creds (d_sb d) ;;
    r <- vfs_getattr E realpath stat request_mask query_flags ;;
    let (err, stat) := r in
    r <- (if negb (err =? 0) then ret (err, stat) else
          if nonnull (ovl_same_sb (d_sb d)) then
            if OVL_TYPE_ORIGIN type then
              let lowermask := Z.lor STATX_INO (if negb is_dir then STATX_NLINK else 0) in
              lr <- vfs_getattr E (ovl_path_lower d) kstat_uninit lowermask query_flags ;;
              let (err, lowerstat) := lr in
              if negb (err =? 0) then ret (err, stat) else
              (if negb (st_dev stat =? st_dev lowerstat) then emit c_warn else ret tt) ;;;
              let stat :=
                if is_dir || (st_nlink lowerstat =? 1) || ovl_test_flag OVL_INDEX oi
                then set_st_ino (st_ino lowerstat) stat
                else stat in
              ret (0, getattr_nlink is_dir type oi (set_st_dev (s_dev (d_sb d)) stat))
            else
              ret (0, getattr_nlink is_dir type oi (set_st_dev (s_dev (d_sb d)) stat))
          else if is_dir then
            ret (0, getattr_nlink is_dir type oi
                      (set_st_ino (i_ino (vfs_inode oi)) (set_st_dev (s_dev (d_sb d)) stat)))
          else
            ret (0, getattr_nlink is_dir type oi stat)) ;;
    ovl_revert_creds old_cred ;;;
    ret r.

(** [ovl_permission], inode.c:158.  [sb] is [inode->i_sb]. *)
Definition ovl_permission (E : env) (sb : super_block) (inode : handle) (mask : Z) : M Z :=
  w <- get_world ;;
  let upperinode := ovl_inode_upper (nodes w inode) in
  let realinode :=
    match upperinode with
    | Some u => Some u
    | None => ovl_inode_lower (nodes w inode)
    end in
  match realinode with
  | None =>
    (if Z.land mask MAY_NOT_BLOCK =? 0 then emit c_warn else ret tt) ;;;
    ret (- ECHILD)
  | Some ri =>
    err <- generic_permission E inode mask ;;
    if negb (err =? 0) then ret err else
    old_cred <- ovl_override_creds sb ;;
    w <- get_world ;;
    let mask :=
      if negb (nonnull upperinode)
         && negb (special_file (i_mode (real w ri)))
         && negb (Z.land mask MAY_WRITE =? 0)
      then Z.lor (Z.land mask (Z.lnot (Z.lor MAY_WRITE MAY_APPEND))) MAY_READ
      else mask in
    err <- inode_permission E ri mask ;;
    ovl_revert_creds old_cred ;;;
    ret err
  end.

(** ** inode.c: extended attributes *)

Definition NUL : ascii := "000"%char.

Definition char_code (c : ascii) : Z := Z.of_N (N_of_ascii c).

(** [strncmp] and [strlen] of the C library, on strings without their
    terminating NUL. *)
Fixpoint strncmp (a b : string) (n : nat) : Z :=
  match n with
  | O => 0
  | S n' =>
    match a, b with
    | EmptyString, EmptyString => 0
    | EmptyString, String cb _ => 0 - char_code cb
    | String ca _, EmptyString => char_code ca
    | String ca a', String cb b' =>
      if Ascii.eqb ca cb then strncmp a' b' n' else char_code ca - char_code cb
    end
  end.

Definition strlen (s : string) : nat := String.length s.

(** [ovl_is_private_xattr], inode.c:208. *)
Definition ovl_is_private_xattr (name : string) : bool :=
  strncmp name OVL_XATTR_PREFIX (strlen OVL_XATTR_PREFIX) =? 0.

(** [ovl_xattr_set], inode.c:214.  A NULL [value] asks for removal. *)
Definition ovl_xattr_set (E : env) (d : ovl_dentry) (inode : handle) (name : string)
    (value : option (list ascii)) (size : Z) (xflags : Z) : M Z :=
  w <- get_world ;;
  let upperdentry := ovl_i_dentry_upper (nodes w inode) in
  let realdentry :=
    match upperdentry with
    | Some u => Some u
    | None => ovl_dentry_lower d
    end in
  err <- ovl_want_write E d ;;
  if negb (err =? 0) then ret err else
  err <- (err <- (if negb (nonnull value) && negb (nonnull upperdentry) then
                    rd <- deref realdentry ;;
                    r <- vfs_getxattr E rd name 0 ;;
                    ret (fst r)
                  else ret err) ;;
          if negb (nonnull value) && negb (nonnull upperdentry) && (err <? 0)
          then ret err else
          cu <- (if negb (nonnull upperdentry) then
                   err <- ovl_copy_up E d ;;
                   if negb (err =? 0) then ret (err, realdentry) else
                   u <- ovl_dentry_upper d ;;
                   ret (err, u)
                 else ret (err, realdentry)) ;;
          let (err, realdentry) := cu in
          if negb (nonnull upperdentry) && negb (err =? 0) then ret err else
          old_cred <- ovl_override_creds (d_sb d) ;;
          rd <- deref realdentry ;;
          err <- match value with
                 | Some v => vfs_setxattr E rd name v size xflags
                 | None =>
                   (if negb (xflags =? XATTR_REPLACE) then emit c_warn else ret tt) ;;;
                   vfs_removexattr E rd name
                 end ;;
          ovl_revert_creds old_cred ;;;
          ret err) ;;
  ovl_drop_write d ;;;
  ret err.

(** [ovl_xattr_get], inode.c:270. *)
Definition ovl_xattr_get (E : env) (d : ovl_dentry) (inode : handle) (name : string)
    (size : Z) : M (Z * list ascii) :=
  w <- get_world ;;
  realdentry <- deref (match ovl_i_dentry_upper (nodes w inode) with
                       | Some u => Some u
                       | None => ovl_dentry_lower d
                       end) ;;
  old_cred <- ovl_override_creds (d_sb d) ;;
  res <- vfs_getxattr E realdentry name size ;;
  ovl_revert_creds old_cred ;;;
  ret res.

(** [ovl_can_list], inode.c:284. *)
Definition ovl_can_list (s : string) : M bool :=
  if negb (strncmp s XATTR_TRUSTED_PREFIX (strlen XATTR_TRUSTED_PREFIX) =? 0)
  then ret true
  else if negb (ovl_is_private_xattr s)
       then ns_capable_noaudit
       else ret false.

(** [strnlen(s, len)] on the bytes at [s]; the C string at [s]; and
    [memmove(buf + dst, buf + src, n)]. *)
Fixpoint strnlen (s : list ascii) (len : nat) : nat :=
  match len, s with
  | S len', c :: s' => if Ascii.eqb c NUL then O else S (strnlen s' len')
  | _, _ => O
  end.

Fixpoint cstring (s : list ascii) : string :=
  match s with
  | c :: s' => if Ascii.eqb c NUL then EmptyString else String c (cstring s')
  | [] => EmptyString
  end.

Definition memmove (buf : list ascii) (dst src n : nat) : list ascii :=
  firstn dst buf ++ firstn n (skipn src buf) ++ skipn (dst + n) buf.

(** The filtering loop of [ovl_listxattr], inode.c:310-324: [buf] is the
    caller's [list], [s] the offset of the cursor in it, [len] the bytes
    left, [res] the length of the list.  [fuel] bounds the number of
    iterations; a run that exhausts it yields nothing. *)
Fixpoint listxattr_filter (fuel : nat) (buf : list ascii) (s len : nat) (res : Z)
    : M (Z * list ascii) :=
  if (len =? 0)%nat then ret (res, buf) else
  match fuel with
  | O => oops
  | S fuel' =>
    let slen := S (strnlen (skipn s buf) len) in
    if (len <? slen)%nat then emit c_warn ;;; ret (- EIO, buf) else
    let len := (len - slen)%nat in
    listed <- ovl_can_list (cstring (skipn s buf)) ;;
    if negb listed
    then listxattr_filter fuel' (memmove buf s (s + slen) len) s len (res - Z.of_nat slen)
    else listxattr_filter fuel' buf (s + slen)%nat len res
  end.

(** [ovl_listxattr], inode.c:295.  Yields the result and the contents of
    the caller's buffer [list]. *)
Definition ovl_listxattr (E : env) (d : ovl_dentry) (size : Z) : M (Z * list ascii) :=
  realdentry <- ovl_dentry_real d ;;
  rd <- deref realdentry ;;
  old_cred <- ovl_override_creds (d_sb d) ;;
  r <- vfs_listxattr E rd size ;;
  ovl_revert_creds old_cred ;;;
  let (res, buf) := r in
  if (res <=? 0) || (size =? 0) then ret (res, buf) else
  listxattr_filter (Z.to_nat res) buf 0 (Z.to_nat res) res.

(** ** inode.c: the link-count record *)

Definition digit_char (d : Z) : ascii := ascii_of_N (Z.to_N (48 + d)).

(** Decimal digits of a non-negative number, most significant first. *)
Fixpoint put_dec (fuel : nat) (n : Z) (acc : list ascii) : list ascii :=
  match fuel with
  | O => acc
  | S fuel' =>
    let acc' := digit_char (n mod 10) :: acc in
    if n <? 10 then acc' else put_dec fuel' (n / 10) acc'
  end.

Definition dec_digits (n : Z) : list ascii :=
  put_dec (S (Z.to_nat (Z.log2 n))) n [].

(** The conversion [%+i] of an [int]: always a sign, then the digits. *)
Definition fmt_plus_i (v : Z) : list ascii :=
  (if v <? 0 then "-"%char else "+"%char) :: dec_digits (Z.abs v).

(** The expansion of a format with one [int] argument: ordinary
    characters are copied and [%+i] prints the argument. *)
Fixpoint format_int (format : list ascii) (v : Z) : list ascii :=
  match format with
  | [] => []
  | c :: rest =>
    match c, rest with
    | "%"%char, "+"%char :: "i"%char :: rest' => fmt_plus_i v ++ format_int rest' v
    | _, _ => c :: format_int rest v
    end
  end.

(** Modelled from the spec: [snprintf] is not in inode.c; section 4.2: the
    record is serialized as [{selector}{+delta|-delta}], by the formats
    ["U%+i"] and ["L%+i"].  The result is the length of the full output
    and the output cut to the buffer, which keeps one byte for the NUL. *)
Definition snprintf (size : Z) (format : string) (v : Z) : Z * list ascii :=
  let out := format_int (list_ascii_of_string format) v in
  (Z.of_nat (length out), firstn (Z.to_nat (size - 1)) out).

(** [ovl_set_nlink_common], inode.c:515. *)
Definition ovl_set_nlink_common (E : env) (d : ovl_dentry) (realdentry : option dentry)
    (format : string) : M Z :=
  h <- deref (od_inode d) ;;
  rd <- deref realdentry ;;
  w <- get_world ;;
  let inode := vfs_inode (nodes w h) in
  let realinode := real w (d_inode rd) in
  let (len, buf) := snprintf 13 format (s32 (i_nlink inode - i_nlink realinode)) in
  if 13 <=? len then emit c_warn ;;; ret (- EIO) else
  u <- ovl_dentry_upper d ;;
  u <- deref u ;;
  ovl_do_setxattr E u OVL_XATTR_NLINK buf len 0.

(** [ovl_set_nlink_upper], inode.c:533, and [ovl_set_nlink_lower], :538. *)
Definition ovl_set_nlink_upper (E : env) (d : ovl_dentry) : M Z :=
  u <- ovl_dentry_upper d ;;
  ovl_set_nlink_common E d u "U%+i".

Definition ovl_set_nlink_lower (E : env) (d : ovl_dentry) : M Z :=
  ovl_set_nlink_common E d (ovl_dentry_lower d) "L%+i".

Definition is_digit (c : ascii) : bool :=
  (48 <=? char_code c) && (char_code c <=? 57).

(** The steps of [kstrtoint] in lib/kstrtox.c.  [_parse_integer] yields
    the rest of the string, the value of the digits consumed as an
    [unsigned long long], their number, and whether the value overflowed;
    [_kstrtoull] wants at least one digit and nothing after the digits but
    one newline; [kstrtoull] skips a [+]; [kstrtoll] handles a [-]. *)
Fixpoint _parse_integer (s : list ascii) (res : Z) (rv : nat) (overflow : bool)
    : list ascii * Z * nat * bool :=
  match s with
  | c :: s' =>
    if is_digit c then
      let val := char_code c - 48 in
      _parse_integer s' ((res * 10 + val) mod 2 ^ 64) (S rv)
        (overflow || (2 ^ 64 - 1 <? res * 10 + val))
    else (s, res, rv, overflow)
  | [] => (s, res, rv, overflow)
  end.

Definition _kstrtoull (s : list ascii) : Z + Z :=
  match _parse_integer s 0 0 false with
  | (rest, res, rv, overflow) =>
    if overflow then inl (- ERANGE)
    else if (rv =? 0)%nat then inl (- EINVAL)
    else
      let rest := match rest with
                  | c :: rest' => if Ascii.eqb c "010"%char then rest' else rest
                  | [] => rest
                  end in
      match rest with
      | [] => inr res
      | _ :: _ => inl (- EINVAL)
      end
  end.

Definition kstrtoull (s : list ascii) : Z + Z :=
  match s with
  | "+"%char :: s' => _kstrtoull s'
  | _ => _kstrtoull s
  end.

Definition kstrtoll (s : list ascii) : Z + Z :=
  match s with
  | "-"%char :: s' =>
    match _kstrtoull s' with
    | inl rv => inl rv
    | inr tmp => if 2 ^ 63 <? tmp then inl (- ERANGE) else inr (- tmp)
    end
  | _ =>
    match kstrtoull s with
    | inl rv => inl rv
    | inr tmp => if 2 ^ 63 <=? tmp then inl (- ERANGE) else inr tmp
    end
  end.

(** Modelled from the spec: [kstrtoint] is not in inode.c; sections 4.2 and
    6: the delta is a signed decimal integer, [[+-][0-9]+].  As in
    lib/kstrtox.c, one sign is accepted, at least one digit is required,
    one newline may end the string, anything else is [-EINVAL], and a
    value that does not fit an [int] is [-ERANGE]. *)
Definition kstrtoint (s : list ascii) : Z + Z :=
  match kstrtoll s with
  | inl rv => inl rv
  | inr tmp => if tmp =? s32 tmp then inr tmp else inl (- ERANGE)
  end.

(** The bytes of a buffer up to its first NUL. *)
Fixpoint c_str (buf : list ascii) : list ascii :=
  match buf with
  | c :: buf' => if Ascii.eqb c NUL then [] else c :: c_str buf'
  | [] => []
  end.

(** The [fail] label of [ovl_get_nlink], inode.c:577. *)
Definition get_nlink_fail (fallback : Z) : M Z :=
  emit c_warn ;;;
  ret fallback.

(** [ovl_get_nlink], inode.c:543. *)
Definition ovl_get_nlink (E : env) (lowerdentry upperdentry : option dentry)
    (fallback : Z) : M Z :=
  match lowerdentry, upperdentry with
  | Some lo, Some up =>
    w <- get_world ;;
    if i_nlink (real w (d_inode lo)) =? 1 then ret fallback else
    r <- ovl_vfs_getxattr E up OVL_XATTR_NLINK (13 - 1) ;;
    let (err, data) := r in
    if err <? 0 then get_nlink_fail fallback else
    let buf := firstn (Z.to_nat err) data ++ [NUL] in
    let b0 := nth 0 buf NUL in
    let b1 := nth 1 buf NUL in
    if (negb (Ascii.eqb b0 "L"%char) && negb (Ascii.eqb b0 "U"%char))
       || (negb (Ascii.eqb b1 "+"%char) && negb (Ascii.eqb b1 "-"%char))
    then get_nlink_fail fallback else
    match kstrtoint (c_str (skipn 1 buf)) with
    | inl _ => get_nlink_fail fallback
    | inr nlink_diff =>
      w <- get_world ;;
      let base := if Ascii.eqb b0 "L"%char then lo else up in
      let nlink := s32 (i_nlink (real w (d_inode base))) in
      let nlink := s32 (nlink + nlink_diff) in
      if nlink <=? 0 then get_nlink_fail fallback else
      ret (u32 nlink)
    end
  | _, _ => ret fallback
  end.

(** ** inode.c: the node identity resolver *)

Definition set_i_private (p : option ptr) (i : inode) : inode :=
  mkInode (i_ino i) (i_mode i) (i_nlink i) (i_rdev i) (i_uid i) (i_gid i)
    (i_atime i) (i_mtime i) (i_ctime i) (i_state i) (i_flags i) p
    (i_op i) (i_sdev i) (i_xattrs i).

Definition ptr_eqb (a b : option ptr) : bool :=
  match a, b with
  | Some x, Some y => x =? y
  | None, None => true
  | _, _ => false
  end.

(** [ovl_inode_test], inode.c:594, and [ovl_inode_set], :599. *)
Definition ovl_inode_test (oi : ovl_inode) (data : ptr) : bool :=
  ptr_eqb (i_private (vfs_inode oi)) (Some data).

Definition ovl_inode_set (oi : ovl_inode) (data : ptr) : ovl_inode :=
  set_vfs_inode (set_i_private (Some data) (vfs_inode oi)) oi.

(** [ovl_verify_inode], inode.c:605. *)
Definition ovl_verify_inode (oi : ovl_inode) (lowerdentry upperdentry : option dentry)
    : bool :=
  if S_ISDIR (i_mode (vfs_inode oi))
     && (negb (nonnull lowerdentry) && nonnull (ovl_inode_lower oi))
  then false
  else if S_ISDIR (i_mode (vfs_inode oi))
          && (negb (nonnull upperdentry) && nonnull (ovl_inode_upper oi))
  then false
  else if match lowerdentry with
          | Some lo => negb (ptr_eqb (ovl_inode_lower oi) (Some (d_inode lo)))
          | None => false
          end
  then false
  else if match upperdentry with
          | Some up => negb (ptr_eqb (ovl_inode_upper oi) (Some (d_inode up)))
          | None => false
          end
  then false
  else true.

(** [ovl_hash_bylower], inode.c:640.  [h] is the store through which
    [d_inode(lower)->i_nlink] is read. *)
Definition ovl_hash_bylower (h : ptr -> inode) (sb : super_block)
    (upper lower index : option dentry) : bool :=
  let ofs := s_fs_info sb in
  match lower with
  | None => false
  | Some lo =>
    if nonnull index then true
    else if negb (nonnull (upper_mnt ofs)) then true
    else if (nonnull upper || negb (nonnull (ovl_indexdir sb)))
            && negb (d_is_dir lo) && (1 <? i_nlink (h (d_inode lo)))
    then false
    else if nonnull (s_export_op sb) && nonnull upper then false
    else true
  end.

(** A freshly allocated [struct inode]. *)
Definition inode_init : inode :=
  mkInode 0 0 1 0 0 0 0 0 0 0 0 None None 0 ∅.

Definition ovl_inode_alloc : ovl_inode := mkOvlInode inode_init 0 None None.

(** Modelled from the spec: [iget5_locked] is not in inode.c; section 3:
    look the key up in the identity cache with the test callback; if no
    node matches, allocate one, initialise it with the set callback and
    insert it, marked as new.  Allocation can fail. *)
Definition iget5_locked (E : env) (sb : super_block) (hashval : ptr) (data : ptr)
    : M (option handle) :=
  w <- get_world ;;
  emit (c_iget5_locked hashval) ;;;
  match find (fun h => ovl_inode_test (nodes w h) data) (icache w) with
  | Some h => ret (Some h)
  | None =>
    if alloc_ok E w then
      let h := next_handle w in
      let oi := ovl_inode_set ovl_inode_alloc data in
      let oi := set_vfs_inode (set_i_state I_NEW (vfs_inode oi)) oi in
      modify (fun w => set_icache (h :: icache w)
                         (set_next_handle (h + 1) (set_nodes (upd (nodes w) h oi) w))) ;;;
      ret (Some h)
    else ret None
  end.

(** Modelled from the spec: [new_inode] is not in inode.c; section 4.1: a
    freshly allocated node outside the cache. *)
Definition new_inode (E : env) (sb : super_block) : M (option handle) :=
  w <- get_world ;;
  emit c_new_inode ;;;
  if alloc_ok E w then
    let h := next_handle w in
    modify (fun w => set_next_handle (h + 1) (set_nodes (upd (nodes w) h ovl_inode_alloc) w)) ;;;
    ret (Some h)
  else ret None.

Definition iput (h : handle) : M unit := emit (c_iput h).

Definition dput (d : option dentry) : M unit :=
  emit (c_dput (match d with Some x => Some (d_inode x) | None => None end)).

Definition get_next_ino : M Z :=
  w <- get_world ;;
  modify (set_next_ino (next_ino w + 1)) ;;;
  ret (next_ino w).

Definition set_i_ino (v : Z) (i : inode) : inode :=
  mkInode v (i_mode i) (i_nlink i) (i_rdev i) (i_uid i) (i_gid i)
    (i_atime i) (i_mtime i) (i_ctime i) (i_state i) (i_flags i) (i_private i)
    (i_op i) (i_sdev i) (i_xattrs i).

Definition set_i_mode (v : Z) (i : inode) : inode :=
  mkInode (i_ino i) v (i_nlink i) (i_rdev i) (i_uid i) (i_gid i)
    (i_atime i) (i_mtime i) (i_ctime i) (i_state i) (i_flags i) (i_private i)
    (i_op i) (i_sdev i) (i_xattrs i).

Definition set_i_rdev (v : Z) (i : inode) : inode :=
  mkInode (i_ino i) (i_mode i) (i_nlink i) v (i_uid i) (i_gid i)
    (i_atime i) (i_mtime i) (i_ctime i) (i_state i) (i_flags i) (i_private i)
    (i_op i) (i_sdev i) (i_xattrs i).

Definition set_i_op (v : option inode_operations) (i : inode) : inode :=
  mkInode (i_ino i) (i_mode i) (i_nlink i) (i_rdev i) (i_uid i) (i_gid i)
    (i_atime i) (i_mtime i) (i_ctime i) (i_state i) (i_flags i) (i_private i)
    v (i_sdev i) (i_xattrs i).

Definition set_i_flags (v : Z) (i : inode) : inode :=
  mkInode (i_ino i) (i_mode i) (i_nlink i) (i_rdev i) (i_uid i) (i_gid i)
    (i_atime i) (i_mtime i) (i_ctime i) (i_state i) v (i_private i)
    (i_op i) (i_sdev i) (i_xattrs i).

(** [init_special_inode] of fs/inode.c: mode and, for devices, number. *)
Definition init_special_inode (mode rdev : Z) (i : inode) : inode :=
  let i := set_i_mode mode i in
  if S_ISCHR mode || S_ISBLK mode then set_i_rdev rdev i else i.

(** [ovl_fill_inode], inode.c:450.  The ACL cache fields, the lockdep
    annotation and the file operations are not part of the model. *)
Definition ovl_fill_inode (inode : handle) (mode rdev : Z) : M unit :=
  ino <- get_next_ino ;;
  let kind := Z.land mode S_IFMT in
  modify (update_node inode (fun oi =>
    let i := set_i_mode mode (set_i_ino ino (vfs_inode oi)) in
    let i := set_i_flags (Z.lor (i_flags i) S_NOCMTIME) i in
    let i :=
      if kind =? S_IFREG then set_i_op (Some ovl_file_inode_operations) i
      else if kind =? S_IFDIR then set_i_op (Some ovl_dir_inode_operations) i
      else if kind =? S_IFLNK then set_i_op (Some ovl_symlink_inode_operations) i
      else init_special_inode mode rdev (set_i_op (Some ovl_file_inode_operations) i) in
    set_vfs_inode i oi)).

(** Modelled from the spec: [ovl_inode_init] is not in inode.c; section
    4.1: populate the node's references and its metadata from the
    representative physical object (writable if present, else
    read-only). *)
Definition ovl_inode_init (inode : handle) (upperdentry lowerdentry : option dentry)
    : M unit :=
  modify (update_node inode (fun oi =>
    let oi := match upperdentry with
              | Some _ => set_upperdentry upperdentry oi
              | None => oi
              end in
    match lowerdentry with
    | Some lo => set_lower (Some (d_inode lo)) oi
    | None => oi
    end)) ;;;
  rd <- deref (match upperdentry with Some _ => upperdentry | None => lowerdentry end) ;;
  ovl_copyattr (d_inode rd) inode.

(** Modelled from the spec: [ovl_is_impuredir] is not in inode.c; section
    4.1: the writable object carries the impurity marker (the attribute
    [trusted.overlay.impure] of a directory, with value ["y"]). *)
Definition ovl_is_impuredir (E : env) (d : dentry) : M bool :=
  if negb (d_is_dir d) then ret false else
  r <- vfs_getxattr E d OVL_XATTR_IMPURE 1 ;;
  match r with
  | (1, ["y"%char]) => ret true
  | _ => ret false
  end.

Definition set_nlink (inode : handle) (nlink : Z) : M unit :=
  modify (update_node inode (fun oi => set_vfs_inode (set_i_nlink nlink (vfs_inode oi)) oi)).

Definition unlock_new_inode (inode : handle) : M unit :=
  modify (update_node inode (fun oi =>
    set_vfs_inode (set_i_state (Z.land (i_state (vfs_inode oi)) (Z.lnot I_NEW))
                     (vfs_inode oi)) oi)).

(** The tail of [ovl_get_inode], inode.c:722-731. *)
Definition ovl_get_inode_fill (E : env) (inode : handle) (realinode : ptr)
    (upperdentry lowerdentry : option dentry) : M (Z + handle) :=
  w <- get_world ;;
  ovl_fill_inode inode (i_mode (real w realinode)) (i_rdev (real w realinode)) ;;;
  ovl_inode_init inode upperdentry lowerdentry ;;;
  impure <- match upperdentry with
            | Some u => ovl_is_impuredir E u
            | None => ret false
            end ;;
  (if impure then modify (update_node inode (ovl_set_flag OVL_IMPURE)) else ret tt) ;;;
  w <- get_world ;;
  (if negb (Z.land (i_state (vfs_inode (nodes w inode))) I_NEW =? 0)
   then unlock_new_inode inode else ret tt) ;;;
  ret (inr inode).

(** [ovl_get_inode], inode.c:670.  The result is the node or
    [ERR_PTR(errno)]. *)
Definition ovl_get_inode (E : env) (d : ovl_dentry) (upperdentry index : option dentry)
    : M (Z + handle) :=
  let sb := d_sb d in
  let lowerdentry := ovl_dentry_lower d in
  w <- get_world ;;
  let bylower := ovl_hash_bylower (real w) sb upperdentry lowerdentry index in
  realinode <- match upperdentry with
               | Some u => ret (d_inode u)
               | None => lo <- deref lowerdentry ;; ret (d_inode lo)
               end ;;
  let is_dir := S_ISDIR (i_mode (real w realinode)) in
  if nonnull upperdentry || bylower then
    keyd <- deref (if bylower then lowerdentry else upperdentry) ;;
    let key := d_inode keyd in
    let nlink := if is_dir then 1 else i_nlink (real w realinode) in
    r <- iget5_locked E sb key key ;;
    match r with
    | None => ret (inl (- ENOMEM))
    | Some inode =>
      w <- get_world ;;
      if Z.land (i_state (vfs_inode (nodes w inode))) I_NEW =? 0 then
        if negb (ovl_verify_inode (nodes w inode) lowerdentry upperdentry) then
          iput inode ;;;
          ret (inl (- ESTALE))
        else
          dput upperdentry ;;;
          ret (inr inode)
      else
        nlink <- (if negb is_dir
                  then ovl_get_nlink E lowerdentry upperdentry nlink
                  else ret nlink) ;;
        set_nlink inode nlink ;;;
        ovl_get_inode_fill E inode realinode upperdentry lowerdentry
    end
  else
    r <- new_inode E sb ;;
    match r with
    | None => ret (inl (- ENOMEM))
    | Some inode => ovl_get_inode_fill E inode realinode upperdentry lowerdentry
    end.

(** ** inode.c: symbolic links, ACLs, open and access time *)

(** Open flags and file modes (include/uapi/asm-generic/fcntl.h,
    include/linux/fs.h), the [S_ATIME] bit of [update_time] and the
    superblock flag of ACL support. *)
Module KF.

Definition O_RDONLY : Z := 0x0.
Definition O_WRONLY : Z := 0x1.
Definition O_RDWR : Z := 0x2.
Definition O_ACCMODE : Z := 0x3.
Definition O_TRUNC : Z := 0x200.
Definition FMODE_WRITE : Z := 0x2.
Definition __FMODE_NONOTIFY : Z := 0x4000000.

Definition OPEN_FMODE (flag : Z) : Z :=
  Z.lor (Z.land (flag + 1) O_ACCMODE) (Z.land flag __FMODE_NONOTIFY).

Definition S_ATIME : Z := 0x1.
Definition MS_POSIXACL : Z := 0x10000.

End KF.

Import KF.

(** What the VFS answers to the calls of this part of the file: the link
    target and the ACL that the underlying filesystem yields in a state,
    the flags of an underlying inode's superblock, whether an overlay
    dentry has an alias in the writable layer, the alias that
    [d_find_any_alias] finds for a node, and the underlying inodes after
    [touch_atime]. *)
Record vfs := mkVfs {
  get_link_data : world -> dentry -> Z + string;
  get_acl_data : world -> ptr -> Z -> option Z;
  s_flags : ptr -> Z;
  has_upper_alias : ovl_dentry -> bool;
  find_any_alias : world -> handle -> option ovl_dentry;
  touch_atime_real : world -> dentry -> ptr -> inode
}.

(** Modelled from the spec: [vfs_get_link] is not in inode.c; section 1:
    symbolic-link target resolution is delegated to the underlying
    object.  The result is the target or [ERR_PTR(errno)]. *)
Definition vfs_get_link (V : vfs) (d : option dentry) : M (Z + string) :=
  rd <- deref d ;;
  w <- get_world ;;
  ret (get_link_data V w rd).

(** [ovl_get_link], inode.c:192.  A NULL [dentry] is the RCU walk. *)
Definition ovl_get_link (V : vfs) (dentry : option ovl_dentry) : M (Z + string) :=
  match dentry with
  | None => ret (inl (- ECHILD))
  | Some d =>
    old_cred <- ovl_override_creds (d_sb d) ;;
    rd <- ovl_dentry_real d ;;
    p <- vfs_get_link V rd ;;
    ovl_revert_creds old_cred ;;;
    ret p
  end.

(** [__ovl_xattr_get], inode.c:255: as [ovl_xattr_get], through
    [__vfs_getxattr], which skips the permission check of the underlying
    filesystem but reads the same store. *)
Definition __vfs_getxattr := vfs_getxattr.

Definition __ovl_xattr_get (E : env) (d : ovl_dentry) (inode : handle) (name : string)
    (size : Z) : M (Z * list ascii) :=
  w <- get_world ;;
  realdentry <- deref (match ovl_i_dentry_upper (nodes w inode) with
                       | Some u => Some u
                       | None => ovl_dentry_lower d
                       end) ;;
  old_cred <- ovl_override_creds (d_sb d) ;;
  res <- __vfs_getxattr E realdentry name size ;;
  ovl_revert_creds old_cred ;;;
  ret res.

(** Modelled from the spec: [ovl_inode_real] is not in inode.c; the
    representative object of a node: writable if present, else
    read-only. *)
Definition ovl_inode_real (oi : ovl_inode) : option ptr :=
  match ovl_inode_upper oi with
  | Some u => Some u
  | None => ovl_inode_lower oi
  end.

(** [IS_POSIXACL(inode)] of include/linux/fs.h. *)
Definition IS_POSIXACL (V : vfs) (i : ptr) : bool :=
  negb (Z.land (s_flags V i) MS_POSIXACL =? 0).

(** Modelled from the spec: [get_acl] is not in inode.c; section 1: ACL
    retrieval is delegated entirely to the underlying object. *)
Definition get_acl (V : vfs) (i : ptr) (type : Z) : M (option Z) :=
  w <- get_world ;;
  ret (get_acl_data V w i type).

(** [ovl_get_acl], inode.c:329.  The first argument says whether the build
    defines [CONFIG_FS_POSIX_ACL]; [sb] is [inode->i_sb]. *)
Definition ovl_get_acl (CONFIG_FS_POSIX_ACL : bool) (V : vfs) (sb : super_block)
    (inode : handle) (type : Z) : M (option Z) :=
  w <- get_world ;;
  let realinode := ovl_inode_real (nodes w inode) in
  if negb CONFIG_FS_POSIX_ACL then ret None else
  ri <- deref realinode ;;
  if negb (IS_POSIXACL V ri) then ret None else
  old_cred <- ovl_override_creds sb ;;
  acl <- get_acl V ri type ;;
  ovl_revert_creds old_cred ;;;
  ret acl.

(** [ovl_open_need_copy_up], inode.c:345. *)
Definition ovl_open_need_copy_up (V : vfs) (d : ovl_dentry) (oflags : Z) : M bool :=
  u <- ovl_dentry_upper d ;;
  if nonnull u && has_upper_alias V d then ret false else
  h <- deref (od_inode d) ;;
  w <- get_world ;;
  if special_file (i_mode (vfs_inode (nodes w h))) then ret false else
  if (Z.land (OPEN_FMODE oflags) FMODE_WRITE =? 0) && (Z.land oflags O_TRUNC =? 0)
  then ret false
  else ret true.

(** Modelled from the spec: [ovl_copy_up_flags] is not in inode.c; section
    6: [promote_with_flags(node, flags)] fails with an error or, on
    success, guarantees that the node's [upper] reference is present. *)
Definition ovl_copy_up_flags (E : env) (d : ovl_dentry) (oflags : Z) : M Z :=
  ovl_copy_up E d.

(** [ovl_open_maybe_copy_up], inode.c:360. *)
Definition ovl_open_maybe_copy_up (E : env) (V : vfs) (d : ovl_dentry) (file_flags : Z)
    : M Z :=
  need <- ovl_open_need_copy_up V d file_flags ;;
  if need then
    err <- ovl_want_write E d ;;
    if err =? 0 then
      err <- ovl_copy_up_flags E d file_flags ;;
      ovl_drop_write d ;;;
      ret err
    else ret err
  else ret 0.

(** Modelled from the spec: [ovl_path_upper] is not in inode.c; the path
    of the node's [upper] reference in the writable layer. *)
Definition ovl_path_upper (d : ovl_dentry) : M path :=
  u <- ovl_dentry_upper d ;;
  ret (mkPath (upper_mnt (s_fs_info (d_sb d))) u).

Definition set_i_atime (v : Z) (i : inode) : inode :=
  mkInode (i_ino i) (i_mode i) (i_nlink i) (i_rdev i) (i_uid i) (i_gid i)
    v (i_mtime i) (i_ctime i) (i_state i) (i_flags i) (i_private i)
    (i_op i) (i_sdev i) (i_xattrs i).

(** [touch_atime] of fs/inode.c: the underlying filesystem updates the
    access time of the object. *)
Definition touch_atime (V : vfs) (u : dentry) : M unit :=
  modify (fun w => set_real (touch_atime_real V w u) w).

(** [ovl_update_time], inode.c:375.  The reference that
    [d_find_any_alias] takes and [dput] drops is not part of the model. *)
Definition ovl_update_time (V : vfs) (inode : handle) (ts : Z) (uflags : Z) : M Z :=
  if Z.land uflags S_ATIME =? 0 then ret 0 else
  w <- get_world ;;
  match find_any_alias V w inode with
  | None => ret 0
  | Some alias =>
    upperpath <- ovl_path_upper alias ;;
    (match p_dentry upperpath with
     | Some u =>
       touch_atime V u ;;;
       w <- get_world ;;
       modify (update_node inode (fun oi =>
         set_vfs_inode (set_i_atime (i_atime (real w (d_inode u))) (vfs_inode oi)) oi))
     | None => ret tt
     end) ;;;
    ret 0
  end.

(** [ovl_new_inode], inode.c:583. *)
Definition ovl_new_inode (E : env) (sb : super_block) (mode rdev : Z) : M (option handle) :=
  r <- new_inode E sb ;;
  match r with
  | Some inode => ovl_fill_inode inode mode rdev ;;; ret (Some inode)
  | None => ret None
  end.

(** ** The specification's reading of the cache-key policy *)

(** The facts the documented policy (section 4.1, step 1) is phrased in. *)
Record facts := mkFacts {
  has_origin : bool;
  has_index : bool;
  has_upper_layer : bool;
  has_upper : bool;
  has_index_area : bool;
  origin_hardlinked : bool;
  exports : bool
}.

(** What the arguments of [ovl_hash_bylower] say about those facts: a
    read-only origin exists; an index object exists; the mount has a
    writable layer; a writable object exists; an index area is configured;
    the origin is a non-directory with link count above 1; the mount
    supports stable-handle export. *)
Definition facts_of (h : ptr -> inode) (sb : super_block)
    (upper lower index : option dentry) : facts :=
  mkFacts (nonnull lower) (nonnull index) (nonnull (upper_mnt (s_fs_info sb)))
    (nonnull upper) (nonnull (indexdir (s_fs_info sb)))
    (match lower with
     | Some lo => negb (d_is_dir lo) && (1 <? i_nlink (h (d_inode lo)))
     | None => false
     end)
    (nonnull (s_export_op sb)).

(** A precedence list: the first rule whose condition holds decides. *)
Fixpoint first_rule (rules : list (bool * bool)) (otherwise : bool) : bool :=
  match rules with
  | [] => otherwise
  | (cond, verdict) :: rest => if cond then verdict else first_rule rest otherwise
  end.

(** The policy as the specification words it: the fourth rule asks for a
    hard-linked non-directory origin, for no index area, and for a
    writable object or no configured index area. *)
Definition should_hash_by_lower_stated (f : facts) : bool :=
  first_rule
    [ (negb (has_origin f), false);
      (has_index f, true);
      (negb (has_upper_layer f), true);
      (origin_hardlinked f && negb (has_index_area f)
         && (has_upper f || negb (has_index_area f)), false);
      (exports f && has_upper f, false) ]
    true.

(** The same precedence, the fourth rule asking only for a hard-linked
    non-directory origin and for a writable object or no configured index
    area. *)
Definition should_hash_by_lower (f : facts) : bool :=
  first_rule
    [ (negb (has_origin f), false);
      (has_index f, true);
      (negb (has_upper_layer f), true);
      (origin_hardlinked f && (has_upper f || negb (has_index_area f)), false);
      (exports f && has_upper f, false) ]
    true.

(** ** The specification's reading of the link-count record *)










(** ** Notions used in the statements *)

(** The state after write intent has been acquired in [w]. *)
Definition after_want_write (w : world) : world :=
  set_writers (writers w + 1)
    (set_trace (trace w ++ [(current_cred w, c_want_write)]) w).

(** The value of a digit string read after the prefix value [r]. *)
Definition dec_value (r : Z) (ds : list ascii) : Z :=
  fold_left (fun a c => a * 10 + (char_code c - 48)) ds r.

(** The outcome of the checks that [ovl_get_nlink] makes on a stored
    link-count record, inode.c:556-573: the read failed; the selector
    letter is not ['U'] or ['L']; the sign character is not ['+'] or
    ['-']; [kstrtoint] rejects the delta; the resulting count is not
    positive; or every check passes, with the selector, the delta and the
    resulting count. *)
Inductive verdict :=
| read_failure
| bad_selector
| bad_sign
| non_integer_delta
| non_positive_count
| well_formed (selector_lower : bool) (delta : Z) (count : Z).

(** The checks of the decoder, in their order, on what the attribute
    store returned for the record ([err] bytes of [data], or a negative
    [err]), given the link counts of the read-only and of the writable
    object.  This follows the code: the record is the C string in the
    buffer, the delta is what [kstrtoint] makes of it, and the count is
    computed in [int].  The specification's reading of a record is
    [read_record]. *)
Definition judge_record (read : Z * list ascii) (lower_nlink upper_nlink : Z) : verdict :=
  let (err, data) := read in
  if err <? 0 then read_failure else
  match c_str (firstn (Z.to_nat err) data) with
  | [] => bad_selector
  | selector :: delta_text =>
    if negb (Ascii.eqb selector "L"%char || Ascii.eqb selector "U"%char)
    then bad_selector else
    match delta_text with
    | [] => bad_sign
    | sign :: _ =>
      if negb (Ascii.eqb sign "+"%char || Ascii.eqb sign "-"%char)
      then bad_sign else
      match kstrtoint delta_text with
      | inl _ => non_integer_delta
      | inr delta =>
        let base := if Ascii.eqb selector "L"%char then lower_nlink else upper_nlink in
        let count := s32 (s32 base + delta) in
        if count <=? 0 then non_positive_count
        else well_formed (Ascii.eqb selector "L"%char) delta count
      end
    end
  end.

(** The count a verdict stands for: the decoded one if the record is well
    formed, the fallback otherwise. *)
Definition verdict_count (v : verdict) (fallback : Z) : Z :=
  match v with
  | well_formed _ _ count => count
  | _ => fallback
  end.

(** The record for a delta relative to the lower or to the upper object:
    the selector letter, then the delta printed with [%+i]. *)
Definition nlink_record (selector_lower : bool) (delta : Z) : list ascii :=
  (if selector_lower then "L"%char else "U"%char) :: fmt_plus_i delta.

(** The bytes of an attribute list as [vfs_listxattr] lays it out: each
    name followed by a NUL. *)
Definition name_bytes (n : string) : list ascii :=
  list_ascii_of_string n ++ [NUL].

Definition encode_names (names : list string) : list ascii :=
  concat (map name_bytes names).

(** A name is a C string: it contains no NUL. *)
Definition nul_free (n : string) : Prop :=
  Forall (fun c => c <> NUL) (list_ascii_of_string n).

(** The listing rule of section 4.3: names outside the privileged
    namespace are listed; inside it, names of the reserved internal
    namespace never are, the others only for a caller with the
    administrative capability. *)
Definition can_list (capable : bool) (s : string) : bool :=
  if negb (String.prefix XATTR_TRUSTED_PREFIX s) then true
  else negb (String.prefix OVL_XATTR_PREFIX s) && capable.

(** The state in which the underlying object is consulted: [w] after
    [ovl_override_creds]. *)
Definition under_mounter (sb : super_block) (w : world) : world :=
  set_current_cred (creator_cred (s_fs_info sb))
    (set_trace (trace w ++ [(current_cred w, c_override_creds)]) w).

(** ** Notions used in the further statements *)

(** The operation table that [ovl_fill_inode] wires for a mode: the
    directory table for directories, the symlink table for symbolic
    links, the file table for regular and special files. *)
Definition ovl_inode_ops (mode : Z) : inode_operations :=
  let kind := Z.land mode S_IFMT in
  if kind =? S_IFDIR then ovl_dir_inode_operations
  else if kind =? S_IFLNK then ovl_symlink_inode_operations
  else ovl_file_inode_operations.

(** The key under which [ovl_get_inode] looks a node up, if it does: the
    inode of the read-only object when the policy says so, else that of
    the writable object. *)
Definition ovl_cache_key (w : world) (d : ovl_dentry) (upperdentry index : option dentry)
    : option ptr :=
  let lowerdentry := ovl_dentry_lower d in
  let bylower := ovl_hash_bylower (real w) (d_sb d) upperdentry lowerdentry index in
  if nonnull upperdentry || bylower
  then match (if bylower then lowerdentry else upperdentry) with
       | Some keyd => Some (d_inode keyd)
       | None => None
       end
  else None.

(** The cached node that the test callback accepts for a key. *)
Definition cache_lookup (w : world) (key : ptr) : option handle :=
  find (fun h => ovl_inode_test (nodes w h) key) (icache w).

(** The inode that [ovl_get_inode] takes kind and link count from. *)
Definition ovl_realinode (d : ovl_dentry) (upperdentry : option dentry) : option ptr :=
  match upperdentry with
  | Some u => Some (d_inode u)
  | None => match ovl_dentry_lower d with
            | Some lo => Some (d_inode lo)
            | None => None
            end
  end.

(** A node as [ovl_get_inode] sets it up: its key, its link count, its
    references, and the kind of the underlying inode. *)
Definition set_up (w w' : world) (h : handle) (d : ovl_dentry)
    (upperdentry : option dentry) (key : option ptr) (nlink : Z) : Prop :=
  let oi := nodes w' h in
  i_private (vfs_inode oi) = key
  /\ i_nlink (vfs_inode oi) = nlink
  /\ Z.land (i_state (vfs_inode oi)) I_NEW = 0
  /\ __upperdentry oi = upperdentry
  /\ lower oi = match ovl_dentry_lower d with
                | Some lo => Some (d_inode lo)
                | None => None
                end
  /\ i_ino (vfs_inode oi) = next_ino w
  /\ exists ri, ovl_realinode d upperdentry = Some ri
                /\ i_mode (vfs_inode oi) = i_mode (real w ri)
                /\ i_op (vfs_inode oi) = Some (ovl_inode_ops (i_mode (real w ri))).

(** A cached node is keyed by one of its own references. *)
Definition keyed (oi : ovl_inode) : Prop :=
  exists k : ptr,
    i_private (vfs_inode oi) = Some k
    /\ (ovl_inode_upper oi = Some k \/ ovl_inode_lower oi = Some k).

(** The identity cache is in order: every cached node was allocated, is
    keyed by one of its references and is no longer marked new, and no two
    cached nodes have the same key. *)
Definition cache_ok (w : world) : Prop :=
  (forall h, In h (icache w) ->
             h < next_handle w
             /\ keyed (nodes w h)
             /\ Z.land (i_state (vfs_inode (nodes w h))) I_NEW = 0)
  /\ (forall h1 h2, In h1 (icache w) -> In h2 (icache w) ->
                    i_private (vfs_inode (nodes w h1)) = i_private (vfs_inode (nodes w h2)) ->
                    h1 = h2).

(** An open asks for write access or truncation: its access mode is
    [O_WRONLY] or [O_RDWR], or [O_TRUNC] is set. *)
Definition open_for_write (oflags : Z) : bool :=
  (Z.land oflags O_ACCMODE =? O_WRONLY)
  || (Z.land oflags O_ACCMODE =? O_RDWR)
  || negb (Z.land oflags O_TRUNC =? 0).

(** ** Concrete objects used in examples *)

Definition sample_inode (ino mode nlink : Z) : inode :=
  mkInode ino mode nlink 0 0 0 0 0 0 0 0 None None 8 ∅.

Definition mounter : cred := mkCred 0 true.
Definition plain_user : cred := mkCred 1000 false.
Definition admin_user : cred := mkCred 1001 true.

(** A mount with a writable layer and an index area, all layers on one
    filesystem, no export support. *)
Definition sample_fs : ovl_fs :=
  mkOvlFs (Some 1) (Some (mkDentry 90 true)) (Some 1) mounter.

Definition sample_sb : super_block := mkSb 40 None sample_fs.

(** Real inodes: 10 is a regular file with two links, 11 a regular file
    with one link, 12 and 22 are directories, every other address a
    regular file with three links. *)
Definition sample_real : ptr -> inode :=
  fun p =>
    if p =? 10 then sample_inode 110 (Z.lor S_IFREG 0x1A4) 2
    else if p =? 11 then sample_inode 111 (Z.lor S_IFREG 0x1A4) 1
    else if p =? 12 then sample_inode 112 (Z.lor S_IFDIR 0x1ED) 2
    else if p =? 22 then sample_inode 122 (Z.lor S_IFDIR 0x1ED) 2
    else sample_inode (100 + p) (Z.lor S_IFREG 0x1A4) 3.

(** An environment in which no call fails, promotion installs the
    writable object at address 20, and the underlying list of attributes
    is empty. *)
Definition quiet_env : env :=
  mkEnv (fun _ _ => 0)
        (fun w _ => Promoted (mkDentry 20 false) (real w))
        (fun w _ _ => real w)
        (fun _ _ _ => (0, []))
        (fun _ => true)
        (fun _ _ => 0)
        (fun _ _ => mkPath None None).

(** Logical nodes: 1 is a regular file with origin 10 and no writable
    object; 2 a regular file with writable object 20 and origin 11; 3 a
    directory with writable object 22 and origin 12; every other handle a
    regular file with origin 11 and no writable object. *)
Definition sample_nodes : handle -> ovl_inode :=
  fun h =>
    if h =? 1 then mkOvlInode (sample_inode 1 (Z.lor S_IFREG 0x1A4) 2) 0 None (Some 10)
    else if h =? 2 then
      mkOvlInode (sample_inode 2 (Z.lor S_IFREG 0x1A4) 1) 0 (Some (mkDentry 20 false)) (Some 11)
    else if h =? 3 then
      mkOvlInode (sample_inode 3 (Z.lor S_IFDIR 0x1ED) 1) 0 (Some (mkDentry 22 true)) (Some 12)
    else mkOvlInode (sample_inode h (Z.lor S_IFREG 0x1A4) 1) 0 None (Some 11).

Definition sample_world : world :=
  mkWorld sample_real sample_nodes [] 100 1000 0 plain_user [].

(** Overlay dentries of the sample nodes; the lower layer is mount 2. *)
Definition sample_dentry (h : handle) (origin : ptr) (dir : bool) : ovl_dentry :=
  mkOvlDentry sample_sb (Some h) [mkPath (Some 2) (Some (mkDentry origin dir))].

Definition sample_attr : iattr := mkIattr ATTR_MODE 0x180 0 0 0.

(** An environment like [quiet_env] in which every node is of type
    upper, merge and origin, and the lower data path is the first entry of
    the lower stack. *)
Definition susfs_env : env :=
  mkEnv (fun _ _ => 0)
        (fun w _ => Promoted (mkDentry 20 false) (real w))
        (fun w _ _ => real w)
        (fun _ _ _ => (0, []))
        (fun _ => true)
        (fun _ _ => Z.lor __OVL_PATH_UPPER (Z.lor __OVL_PATH_MERGE __OVL_PATH_ORIGIN))
        (fun _ d => ovl_path_lower d).

(** A state in which two nodes are hashed under their writable objects:
    node 3, the directory with writable object 22 and origin 12, and node
    4, a regular file with writable object 21 and origin 10. *)
Definition cached_world : world :=
  mkWorld sample_real
    (upd (upd sample_nodes 3
            (mkOvlInode (set_i_private (Some 22) (sample_inode 3 (Z.lor S_IFDIR 0x1ED) 1))
               0 (Some (mkDentry 22 true)) (Some 12)))
       4 (mkOvlInode (set_i_private (Some 21) (sample_inode 4 (Z.lor S_IFREG 0x1A4) 2))
            0 (Some (mkDentry 21 false)) (Some 10)))
    [3; 4] 100 1000 0 plain_user [].

(** A state for the link-count record: node 6 is a regular file with link
    count 5, writable object 30 (three links) and origin 31 (three links);
    node 7 is a regular file with link count 5, writable object 30 and
    origin 11 (one link). *)
Definition nlink_world : world :=
  mkWorld sample_real
    (upd (upd sample_nodes 6
            (mkOvlInode (sample_inode 6 (Z.lor S_IFREG 0x1A4) 5)
               (Z.shiftl 1 OVL_INDEX) (Some (mkDentry 30 false)) (Some 31)))
       7 (mkOvlInode (sample_inode 7 (Z.lor S_IFREG 0x1A4) 5)
            (Z.shiftl 1 OVL_INDEX) (Some (mkDentry 30 false)) (Some 11)))
    [] 100 1000 0 mounter [].

(** [nlink_world] after the record ["U+2"] has been stored on the
    writable object 30, and the same state once that object's link count
    has become 4. *)
Definition record_world : world :=
  update_real 30
    (set_i_xattrs (<[OVL_XATTR_NLINK := list_ascii_of_string "U+2"]> ∅))
    nlink_world.

Definition record_world_linked : world :=
  update_real 30 (set_i_nlink 4) record_world.

(** The attribute names of the example objects, and an environment like
    [quiet_env] whose underlying filesystem lists them. *)
Definition sample_names : list string :=
  ["user.comment"; "trusted.overlay.origin"; "trusted.foo"]%string.

Definition xattr_env : env :=
  mkEnv (fun _ _ => 0)
        (fun w _ => Promoted (mkDentry 20 false) (real w))
        (fun w _ _ => real w)
        (fun _ _ _ => (Z.of_nat (length (encode_names sample_names)),
                       encode_names sample_names))
        (fun _ => true)
        (fun _ _ => 0)
        (fun _ _ => mkPath None None).

(** Answers of the VFS for the examples: every symbolic link points to
    ["target"], every object has the ACL 7 on a filesystem with ACL
    support, every overlay dentry has an alias in the writable layer, the
    alias of node [h] is the dentry of [h] over the origin 10, and
    [touch_atime] sets the access time of the object to 99. *)
Definition sample_vfs : vfs :=
  mkVfs (fun _ _ => inr "target"%string)
        (fun _ _ _ => Some 7)
        (fun _ => MS_POSIXACL)
        (fun _ => true)
        (fun _ h => Some (sample_dentry h 10 false))
        (fun w u => upd (real w) (d_inode u) (set_i_atime 99 (real w (d_inode u)))).

(** An environment like [quiet_env] in which promotion fails with
    [ENOSPC]. *)
Definition full_env : env :=
  mkEnv (fun _ _ => 0)
        (fun _ _ => PromotionFailed 28)
        (fun w _ _ => real w)
        (fun _ _ _ => (0, []))
        (fun _ => true)
        (fun _ _ => 0)
        (fun _ _ => mkPath None None).

(** An environment like [quiet_env] whose underlying filesystem lists one
    name and then two bytes without a terminator. *)
Definition broken_xattr_env : env :=
  mkEnv (fun _ _ => 0)
        (fun w _ => Promoted (mkDentry 20 false) (real w))
        (fun w _ _ => real w)
        (fun _ _ _ => (9, encode_names ["user.a"%string] ++ list_ascii_of_string "xy"))
        (fun _ => true)
        (fun _ _ => 0)
        (fun _ _ => mkPath None None).

(** A mount like [sample_fs] without an index area. *)
Definition noindex_sb : super_block :=
  mkSb 40 None (mkOvlFs (Some 1) None (Some 1) mounter).

(** An environment like [quiet_env] whose underlying filesystem applies a
    change of mode: with [ATTR_MODE], the permission bits of the object
    become those of the request. *)
Definition chmod_env : env :=
  mkEnv (fun _ _ => 0)
        (fun w _ => Promoted (mkDentry 20 false) (real w))
        (fun w u attr =>
           if Z.land (ia_valid attr) ATTR_MODE =? 0 then real w
           else upd (real w) (d_inode u)
                  (set_i_mode (Z.lor (Z.land (i_mode (real w (d_inode u))) S_IFMT)
                                 (Z.land (ia_mode attr) 0xFFF))
                     (real w (d_inode u))))
        (fun _ _ _ => (0, []))
        (fun _ => true)
        (fun _ _ => 0)
        (fun _ _ => mkPath None None).


(** * Properties *)

(** ** Cache-key policy *)

(** C1 (as amended).  [ovl_hash_bylower] decides by the documented
    precedence, with the fourth rule "a non-directory origin with link
    count above 1, and a writable object exists or no index area is
    configured": it is false without a read-only origin; else true if an
    index object exists; else true if the mount has no writable layer; else
    false by the fourth rule; else false if the mount supports export and a
    writable object exists; else true. *)
Theorem ovl_hash_bylower_precedence :
  forall (h : ptr -> inode) (sb : super_block) (upper lower index : option dentry),
    ovl_hash_bylower h sb upper lower index
    = should_hash_by_lower (facts_of h sb upper lower index).
Proof.
  intros h sb upper lower index.
  unfold ovl_hash_bylower, should_hash_by_lower, facts_of, ovl_indexdir; simpl.
  destruct lower as [lo|]; simpl; [|reflexivity].
  destruct (nonnull index); simpl; [reflexivity|].
  destruct (nonnull (upper_mnt (s_fs_info sb))); simpl; [|reflexivity].
  destruct (nonnull upper), (nonnull (indexdir (s_fs_info sb))),
    (d_is_dir lo), (1 <? i_nlink (h (d_inode lo))); simpl;
    destruct (nonnull (s_export_op sb)); reflexivity.
Qed.

(** C1, counterexample.  With a writable object, a configured index area,
    no index object and a regular-file origin with two links, the code
    answers false, while the policy as stated (which also asks for no
    index area in its fourth rule) answers true. *)
Lemma ovl_hash_bylower_not_as_stated :
  ovl_hash_bylower sample_real sample_sb
    (Some (mkDentry 20 false)) (Some (mkDentry 10 false)) None = false
  /\ should_hash_by_lower_stated
       (facts_of sample_real sample_sb
          (Some (mkDentry 20 false)) (Some (mkDentry 10 false)) None) = true.
Proof. split; reflexivity. Qed.

(** ** Proof support *)

Ltac monad_unfold :=
  unfold bind, ret, get_world, modify, emit, extern, deref, oops in *.

Tactic Notation "run" :=
  cbn -[Z.land Z.lor Z.lnot Z.testbit Z.shiftl Z.pow Z.modulo Z.div].
Tactic Notation "run" "in" hyp(H) :=
  cbn -[Z.land Z.lor Z.lnot Z.testbit Z.shiftl Z.pow Z.modulo Z.div] in H.

Lemma testbit_10 (n : Z) : Z.testbit 10 n = (n =? 1) || (n =? 3).
Proof.
  destruct (Z.ltb_spec n 0) as [Hneg|Hpos].
  - rewrite Z.testbit_neg_r by lia.
    destruct (Z.eqb_spec n 1), (Z.eqb_spec n 3); try lia; reflexivity.
  - destruct (Z.ltb_spec n 4) as [Hlt|Hge].
    + assert (Hc : n = 0 \/ n = 1 \/ n = 2 \/ n = 3) by lia.
      destruct Hc as [->|[->|[->| ->]]]; reflexivity.
    + rewrite Z.bits_above_log2 by (simpl; lia).
      destruct (Z.eqb_spec n 1), (Z.eqb_spec n 3); try lia; reflexivity.
Qed.

Lemma testbit_4 (n : Z) : Z.testbit 4 n = (n =? 2).
Proof.
  destruct (Z.ltb_spec n 0) as [Hneg|Hpos].
  - rewrite Z.testbit_neg_r by lia.
    destruct (Z.eqb_spec n 2); try lia; reflexivity.
  - change 4 with (2 ^ 2). rewrite Z.pow2_bits_eqb by lia. apply Z.eqb_sym.
Qed.

(** The bits of the mask that [ovl_permission] computes at inode.c:182-184:
    bit 1 ([MAY_WRITE]) and bit 3 ([MAY_APPEND]) are clear, bit 2
    ([MAY_READ]) is set, the others are those of [mask]. *)
Lemma downgraded_mask_bits (mask n : Z) :
  Z.testbit (Z.lor (Z.land mask (Z.lnot (Z.lor MAY_WRITE MAY_APPEND))) MAY_READ) n
  = if (n =? 1) || (n =? 3) then false
    else if n =? 2 then true
    else Z.testbit mask n.
Proof.
  change (Z.lor MAY_WRITE MAY_APPEND) with 10. change MAY_READ with 4.
  destruct (Z.ltb_spec n 0) as [Hneg|Hpos].
  - rewrite !Z.testbit_neg_r by lia.
    destruct (Z.eqb_spec n 1), (Z.eqb_spec n 3), (Z.eqb_spec n 2); try lia; reflexivity.
  - rewrite Z.lor_spec, Z.land_spec, Z.lnot_spec, testbit_10, testbit_4 by lia.
    destruct (Z.eqb_spec n 1), (Z.eqb_spec n 3), (Z.eqb_spec n 2); try lia; simpl;
      rewrite ?andb_true_r, ?orb_false_r, ?andb_false_r, ?orb_true_r; reflexivity.
Qed.

(** ** Permission check *)

(** C7.  On a node with no writable object whose read-only object is not
    a special file, a check whose mask includes write first runs
    [generic_permission] on the unmodified mask under the caller's
    credentials.  If that fails, its error is returned and nothing else is
    called.  Otherwise [inode_permission] is called on the read-only
    object, between [ovl_override_creds] and [ovl_revert_creds] and so
    under the mounter's credentials, with a mask in which write and append
    are clear, read is set and every other bit is that of the request; its
    answer is returned and the caller's credentials are restored. *)
Theorem ovl_permission_lower_write :
  forall (E : env) (sb : super_block) (inode : handle) (mask : Z) (w : world) (ri : ptr),
    ovl_inode_upper (nodes w inode) = None ->
    ovl_inode_lower (nodes w inode) = Some ri ->
    special_file (i_mode (real w ri)) = false ->
    Z.land mask MAY_WRITE <> 0 ->
    let caller := current_cred w in
    let first := (caller, c_generic_permission inode mask) in
    (fault E w (c_generic_permission inode mask) <> 0 ->
       ovl_permission E sb inode mask w
       = Some (fault E w (c_generic_permission inode mask),
               set_trace (trace w ++ [first]) w))
    /\ (fault E w (c_generic_permission inode mask) = 0 ->
        exists (delegated err : Z) (w' : world),
          ovl_permission E sb inode mask w = Some (err, w')
          /\ trace w' = trace w ++
               [ first;
                 (caller, c_override_creds);
                 (creator_cred (s_fs_info sb), c_inode_permission ri delegated);
                 (creator_cred (s_fs_info sb), c_revert_creds) ]
          /\ Z.testbit delegated 1 = false
          /\ Z.testbit delegated 3 = false
          /\ Z.testbit delegated 2 = true
          /\ (forall n, n <> 1 -> n <> 2 -> n <> 3 ->
                Z.testbit delegated n = Z.testbit mask n)
          /\ (exists w1, err = fault E w1 (c_inode_permission ri delegated)
                         /\ current_cred w1 = creator_cred (s_fs_info sb))
          /\ current_cred w' = caller
          /\ nodes w' = nodes w /\ real w' = real w).
Proof.
  intros E sb inode mask w ri Hup Hlo Hspecial Hwrite caller first.
  assert (Hm : (Z.land mask MAY_WRITE =? 0) = false) by (apply Z.eqb_neq; exact Hwrite).
  split; intros Hgen.
  - unfold ovl_permission, generic_permission. monad_unfold. simpl.
    rewrite Hup, Hlo.
    destruct (fault E w (c_generic_permission inode mask) =? 0) eqn:Hz.
    + apply Z.eqb_eq in Hz. contradiction.
    + reflexivity.
  - unfold ovl_permission, generic_permission, inode_permission,
      ovl_override_creds, ovl_revert_creds.
    monad_unfold. run. rewrite Hup, Hlo, Hgen.
    run. rewrite Hspecial, Hm. run.
    eexists _, _, _. split; [reflexivity|].
    run. rewrite <- !app_assoc.
    split; [reflexivity|].
    rewrite !downgraded_mask_bits. simpl.
    repeat split.
    + intros n H1 H2 H3. rewrite downgraded_mask_bits.
      destruct (Z.eqb_spec n 1), (Z.eqb_spec n 3), (Z.eqb_spec n 2); try lia; reflexivity.
    + eexists. split; reflexivity.
Qed.

(** An instance: a write-and-append check by an ordinary user on node 1,
    which has no writable object, is delegated to the read-only object 10
    under the mounter's credentials without the write bit and with the
    read bit. *)
Lemma ovl_permission_lower_write_witness :
  exists (delegated : Z) (w' : world),
    ovl_permission quiet_env sample_sb 1 (Z.lor MAY_WRITE MAY_APPEND) sample_world
    = Some (0, w')
    /\ trace w' =
         [ (plain_user, c_generic_permission 1 (Z.lor MAY_WRITE MAY_APPEND));
           (plain_user, c_override_creds);
           (mounter, c_inode_permission 10 delegated);
           (mounter, c_revert_creds) ]
    /\ Z.testbit delegated 1 = false
    /\ Z.testbit delegated 2 = true.
Proof.
  destruct (ovl_permission_lower_write quiet_env sample_sb 1
              (Z.lor MAY_WRITE MAY_APPEND) sample_world 10
              eq_refl eq_refl eq_refl ltac:(discriminate)) as [_ H].
  destruct (H eq_refl)
    as (delegated & err & w' & Hrun & Htr & Hw & _ & Hr & _ & (w1 & Herr & _) & _).
  exists delegated, w'. rewrite Hrun, Herr. repeat split; assumption.
Defined.
(** ** Set attributes *)

(** C6.  [ovl_setattr] on a node without a writable object always
    returns.  The first call it makes is the precondition validation
    [setattr_prepare], so write intent and promotion come after it; if the
    validation fails, its error is returned, nothing else is called and the
    node still has no writable object.  Whenever the call returns 0, the
    node has a writable object afterwards, that object is as
    [notify_change] left it, and the mode, owner, group and the three
    times cached in the logical node are that object's, while the node's
    number, link count and key are as before. *)
Theorem ovl_setattr_validates_then_promotes :
  forall (E : env) (d : ovl_dentry) (attr : iattr) (w : world) (h : handle),
    od_inode d = Some h ->
    __upperdentry (nodes w h) = None ->
    let validation := (current_cred w, c_setattr_prepare (ia_valid attr)) in
    let pre := fault E w (c_setattr_prepare (ia_valid attr)) in
    (exists err attr' w',
        ovl_setattr E d attr w = Some ((err, attr'), w')
        /\ (exists rest, trace w' = trace w ++ validation :: rest)
        /\ (pre <> 0 ->
              err = pre /\ w' = set_trace (trace w ++ [validation]) w
              /\ __upperdentry (nodes w' h) = None)
        /\ (err = 0 ->
              exists u,
                __upperdentry (nodes w' h) = Some u
                /\ (exists w2, real w' = notify_change_real E w2 u attr')
                /\ let cached := vfs_inode (nodes w' h) in
                   let object := real w' (d_inode u) in
                   let before := vfs_inode (nodes w h) in
                   i_mode cached = i_mode object
                   /\ i_uid cached = i_uid object
                   /\ i_gid cached = i_gid object
                   /\ i_atime cached = i_atime object
                   /\ i_mtime cached = i_mtime object
                   /\ i_ctime cached = i_ctime object
                   /\ i_ino cached = i_ino before
                   /\ i_nlink cached = i_nlink before
                   /\ i_private cached = i_private before)).
Proof.
  intros E d attr w h Hd Hup validation pre.
  unfold ovl_setattr, setattr_prepare.
  monad_unfold. run.
  fold pre.
  destruct (pre =? 0) eqn:Hpre; run.
  2:{ apply Z.eqb_neq in Hpre.
      eexists _, _, _. split; [reflexivity|].
      split; [exists []; reflexivity|].
      split; [intros _; repeat split; exact Hup|].
      intros H0. contradiction. }
  apply Z.eqb_eq in Hpre.
  unfold ovl_want_write. monad_unfold. run.
  match goal with |- context [fault E ?w1 c_want_write] =>
    destruct (fault E w1 c_want_write =? 0) eqn:Hww end; run; rewrite ?Hww; run.
  2:{ apply Z.eqb_neq in Hww.
      eexists _, _, _. split; [reflexivity|]. run.
      split; [eexists; rewrite <- app_assoc; reflexivity|].
      split; [intros Hne; contradiction|].
      intros H0. contradiction. }
  unfold ovl_copy_up. monad_unfold. run. rewrite Hd. run. rewrite Hup.
  match goal with |- context [promote E ?w1 d] =>
    destruct (promote E w1 d) as [u real'|e] eqn:Hpr end; run.
  2:{ unfold ovl_drop_write. monad_unfold. run.
      eexists _, _, _. split; [reflexivity|]. run.
      split; [eexists; rewrite <- !app_assoc; reflexivity|].
      split; [intros Hne; contradiction|].
      intros H0. discriminate. }
  unfold ovl_dentry_upper, inode_lock, inode_unlock, ovl_override_creds,
    notify_change, ovl_revert_creds, ovl_copyattr, ovl_drop_write.
  monad_unfold. run. rewrite Hd. run.
  unfold upd at 1. rewrite Z.eqb_refl. run.
  match goal with |- context [fault E ?w1 (c_notify_change ?i ?v)] =>
    destruct (fault E w1 (c_notify_change i v) =? 0) eqn:Hnc end; run; rewrite ?Hnc; run.
  - eexists _, _, _. split; [reflexivity|]. run.
    split; [eexists; rewrite <- !app_assoc; reflexivity|].
    split; [intros Hne; contradiction|].
    intros _. exists u.
    unfold upd. rewrite !Z.eqb_refl. run.
    split; [reflexivity|]. split; [eexists; reflexivity|].
    repeat split.
  - apply Z.eqb_neq in Hnc.
    eexists _, _, _. split; [reflexivity|]. run.
    split; [eexists; rewrite <- !app_assoc; reflexivity|].
    split; [intros Hne; contradiction|].
    intros H0. contradiction.
Qed.

(** An instance: a change of mode to 0600 on node 1, which has no
    writable object and the mode 0644, succeeds; afterwards the node has
    the writable object 20 and its cached mode is 0600. *)
Lemma ovl_setattr_validates_then_promotes_witness :
  exists (attr' : iattr) (w' : world),
    ovl_setattr chmod_env (sample_dentry 1 10 false) sample_attr sample_world
    = Some ((0, attr'), w')
    /\ __upperdentry (nodes w' 1) = Some (mkDentry 20 false)
    /\ i_mode (vfs_inode (nodes sample_world 1)) = Z.lor S_IFREG 0x1A4
    /\ i_mode (real w' 20) = Z.lor S_IFREG 0x180
    /\ i_mode (vfs_inode (nodes w' 1)) = Z.lor S_IFREG 0x180.
Proof.
  destruct (ovl_setattr_validates_then_promotes chmod_env (sample_dentry 1 10 false)
              sample_attr sample_world 1 eq_refl eq_refl)
    as (err & attr' & w' & Hrun & _ & _ & Hok).
  assert (Herr : err = 0).
  { vm_compute in Hrun. injection Hrun as H1 _ _. symmetry. exact H1. }
  subst err. exists attr', w'. split; [exact Hrun|].
  destruct (Hok eq_refl) as (u & Hu & _ & Hmode & _).
  assert (Hobj : __upperdentry (nodes w' 1) = Some (mkDentry 20 false)
                 /\ i_mode (real w' 20) = Z.lor S_IFREG 0x180).
  { vm_compute in Hrun. injection Hrun as _ <-. split; reflexivity. }
  destruct Hobj as (Hu' & Hreal).
  rewrite Hu in Hu'. injection Hu' as ->.
  split; [exact Hu|]. split; [reflexivity|]. split; [exact Hreal|].
  rewrite Hmode. exact Hreal.
Defined.

(** ** Setting and removing extended attributes *)

(** C9 (as amended).  A removal (a call without a value) on a node with
    no writable object, once write intent is acquired, always returns, and
    its first call after acquiring write intent is the existence check
    [vfs_getxattr(lower, name, NULL, 0)] on the read-only object, so any
    promotion comes after it.  If the check fails, its error is returned,
    write intent is dropped, no promotion is triggered and the node still
    has no writable object. *)
Theorem ovl_xattr_set_remove_checks_first :
  forall (E : env) (d : ovl_dentry) (inode : handle) (name : string)
         (size xflags : Z) (w : world) (lo : dentry),
    od_inode d = Some inode ->
    ovl_i_dentry_upper (nodes w inode) = None ->
    ovl_dentry_lower d = Some lo ->
    fault E w c_want_write = 0 ->
    let caller := current_cred w in
    exists (pre : Z) (data : list ascii) (w1 : world) (err : Z) (w' : world),
      vfs_getxattr E lo name 0 (after_want_write w) = Some ((pre, data), w1)
      /\ ovl_xattr_set E d inode name None size xflags w = Some (err, w')
      /\ (exists rest,
             trace w' = trace w ++
               (caller, c_want_write) :: (caller, c_getxattr (d_inode lo) name 0) :: rest)
      /\ (pre < 0 ->
            err = pre
            /\ trace w' = trace w ++
                 [ (caller, c_want_write);
                   (caller, c_getxattr (d_inode lo) name 0);
                   (caller, c_drop_write) ]
            /\ nodes w' = nodes w
            /\ real w' = real w
            /\ writers w' = writers w).
Proof.
  intros E d inode name size xflags w lo Hd Hup Hlo Hww caller.
  unfold ovl_i_dentry_upper in Hup.
  assert (Hpre : exists pre data w1,
             vfs_getxattr E lo name 0 (after_want_write w) = Some ((pre, data), w1)
             /\ trace w1 = trace w ++
                  [(caller, c_want_write); (caller, c_getxattr (d_inode lo) name 0)]
             /\ nodes w1 = nodes w /\ real w1 = real w
             /\ writers w1 = writers w + 1
             /\ current_cred w1 = caller
             /\ w1 = set_trace (trace w1) (after_want_write w)).
  { unfold vfs_getxattr, after_want_write. monad_unfold. run.
    match goal with |- context [fault E ?w0 ?c <? 0] =>
      destruct (fault E w0 c <? 0) eqn:Hf end; run.
    - eexists _, _, _. split; [reflexivity|]. run. rewrite <- app_assoc.
      repeat split.
    - destruct (i_xattrs (real w (d_inode lo)) !! name) as [v|]; run.
      + eexists _, _, _. split; [reflexivity|]. run. rewrite <- app_assoc.
        repeat split.
      + eexists _, _, _. split; [reflexivity|]. run. rewrite <- app_assoc.
        repeat split. }
  destruct Hpre as (pre & data & w1 & Hget & Htr1 & Hn1 & Hr1 & Hw1 & Hc1 & Hshape).
  exists pre, data, w1.
  unfold ovl_xattr_set, ovl_want_write, ovl_i_dentry_upper.
  monad_unfold. cbn -[vfs_getxattr]. rewrite Hup, Hlo, Hww. cbn -[vfs_getxattr].
  fold (after_want_write w). rewrite Hget. run.
  destruct (pre <? 0) eqn:Hneg; run.
  - unfold ovl_drop_write. monad_unfold. run.
    eexists _, _. split; [reflexivity|]. split; [reflexivity|]. run.
    rewrite Htr1, Hc1, Hn1, Hr1, Hw1, <- app_assoc. run.
    split; [eexists; reflexivity|].
    intros _. repeat split. lia.
  - assert (Hnn : ~ pre < 0) by (apply Z.ltb_ge in Hneg; lia).
    unfold ovl_copy_up. monad_unfold. run. rewrite Hd. run.
    rewrite Hn1, Hup.
    match goal with |- context [promote E ?w0 d] =>
      destruct (promote E w0 d) as [u real'|e] eqn:Hpr end; run.
    + unfold ovl_dentry_upper, ovl_override_creds, ovl_revert_creds,
        vfs_removexattr, ovl_drop_write.
      monad_unfold. run. rewrite Hd. run.
      unfold upd at 1. rewrite Z.eqb_refl. run.
      destruct (xflags =? XATTR_REPLACE); run;
        match goal with |- context [fault E ?w0 (c_removexattr ?i ?n) =? 0] =>
          destruct (fault E w0 (c_removexattr i n) =? 0) eqn:Hrm end; run; rewrite ?Hrm; run;
        try match goal with |- context [i_xattrs ?x !! name] =>
          destruct (i_xattrs x !! name) end; run;
        (eexists _, _; split; [reflexivity|]; split; [reflexivity|]; run;
         rewrite Htr1, <- !app_assoc; run;
         split; [eexists; reflexivity | intros Hlt; contradiction]).
    + unfold ovl_drop_write. monad_unfold. run.
      eexists _, _. split; [reflexivity|]. split; [reflexivity|]. run.
      rewrite Htr1, <- !app_assoc. run.
      split; [eexists; reflexivity | intros Hlt; contradiction].
Qed.

(** An instance: removing [user.foo], which the read-only object of node
    1 does not carry, fails with [-ENODATA] after the existence check
    alone; no node changes. *)
Lemma ovl_xattr_set_remove_checks_first_witness :
  exists (w' : world),
    ovl_xattr_set quiet_env (sample_dentry 1 10 false) 1 "user.foo" None 0
      XATTR_REPLACE sample_world = Some (- ENODATA, w')
    /\ trace w' =
         [ (plain_user, c_want_write);
           (plain_user, c_getxattr 10 "user.foo" 0);
           (plain_user, c_drop_write) ]
    /\ nodes w' = nodes sample_world.
Proof.
  destruct (ovl_xattr_set_remove_checks_first quiet_env (sample_dentry 1 10 false) 1
              "user.foo" 0 XATTR_REPLACE sample_world (mkDentry 10 false)
              eq_refl eq_refl eq_refl eq_refl)
    as (pre & data & w1 & err & w' & Hget & Hrun & _ & Hfail).
  assert (Hpre : pre = - ENODATA).
  { vm_compute in Hget. injection Hget as H1 _ _. symmetry. exact H1. }
  subst pre.
  destruct (Hfail ltac:(reflexivity)) as (Herr & Htr & Hn & _).
  exists w'. rewrite Hrun, Herr. repeat split; assumption.
Defined.

(** C9, counterexample.  Setting an attribute that is absent from the
    read-only object, with a value, on a node with no writable object:
    no existence check is made, promotion is triggered and a writable
    object is created. *)
Lemma ovl_xattr_set_value_not_checked :
  i_xattrs (real sample_world 10) !! "user.foo"%string = None
  /\ ovl_i_dentry_upper (nodes sample_world 1) = None
  /\ exists (w' : world),
       ovl_xattr_set quiet_env (sample_dentry 1 10 false) 1 "user.foo"
         (Some ["v"%char]) 1 0 sample_world = Some (0, w')
       /\ trace w' =
            [ (plain_user, c_want_write);
              (plain_user, c_copy_up);
              (plain_user, c_override_creds);
              (mounter, c_setxattr 20 "user.foo" ["v"%char] 0);
              (mounter, c_revert_creds);
              (plain_user, c_drop_write) ]
       /\ ovl_i_dentry_upper (nodes w' 1) = Some (mkDentry 20 false).
Proof.
  split; [reflexivity|]. split; [reflexivity|].
  eexists. split; [vm_compute; reflexivity|]. split; reflexivity.
Qed.

(** ** Get attributes *)

Lemma getattr_nlink_dev (is_dir : bool) (type : Z) (oi : ovl_inode) (stat : kstat) :
  st_dev (getattr_nlink is_dir type oi stat) = st_dev stat.
Proof.
  unfold getattr_nlink.
  destruct (is_dir && OVL_TYPE_MERGE type), (negb is_dir && ovl_test_flag OVL_INDEX oi);
    reflexivity.
Qed.

Lemma getattr_nlink_ino (is_dir : bool) (type : Z) (oi : ovl_inode) (stat : kstat) :
  st_ino (getattr_nlink is_dir type oi stat) = st_ino stat.
Proof.
  unfold getattr_nlink.
  destruct (is_dir && OVL_TYPE_MERGE type), (negb is_dir && ovl_test_flag OVL_INDEX oi);
    reflexivity.
Qed.

(** One successful [ovl_getattr] that does not take the
    [CONFIG_KSU_SUSFS_SUS_OVERLAYFS] branch, on a same-storage mount, for a
    node with a tracked origin whose link count is 1: the device is the
    mount's own and the node number is the origin's. *)
Lemma ovl_getattr_origin_single :
  forall (cfg : bool) (E : env) (d : ovl_dentry) (stat : kstat)
         (request_mask query_flags : Z) (w : world) (lo : dentry)
         (st : kstat) (w' : world),
    cfg && (nonnull (mnt (ovl_path_lowerdata E w d))
            && nonnull (p_dentry (ovl_path_lowerdata E w d))) = false ->
    nonnull (ovl_same_sb (d_sb d)) = true ->
    OVL_TYPE_ORIGIN (ovl_path_type E w d) = true ->
    ovl_dentry_lower d = Some lo ->
    i_nlink (real w (d_inode lo)) = 1 ->
    ovl_getattr cfg E d stat request_mask query_flags w = Some ((0, st), w') ->
    st_dev st = s_dev (d_sb d) /\ st_ino st = i_ino (real w (d_inode lo)).
Proof.
  intros cfg E d stat rm qf w lo st w' Hcfg Hsame Horigin Hlo Hnlink Hrun.
  assert (Hpl : p_dentry (ovl_path_lower d) = Some lo).
  { unfold ovl_dentry_lower in Hlo. unfold ovl_path_lower.
    destruct (lowerstack d); [discriminate | exact Hlo]. }
  unfold ovl_getattr, ovl_path_real, ovl_dentry_upper, ovl_override_creds,
    ovl_revert_creds, vfs_getattr in Hrun.
  monad_unfold.
  destruct (od_inode d) as [h|]; [|discriminate].
  run in Hrun. rewrite Hcfg in Hrun. run in Hrun.
  destruct (__upperdentry (nodes w h)) as [u|]; run in Hrun.
  - match type of Hrun with context [fault E ?w0 ?c =? 0] =>
      destruct (fault E w0 c =? 0) eqn:Hf1 end; run in Hrun; rewrite ?Hf1 in Hrun;
      run in Hrun.
    + rewrite Hsame, Horigin, Hpl in Hrun. run in Hrun.
      match type of Hrun with context [fault E ?w0 (c_getattr (d_inode lo) ?a ?b) =? 0] =>
        destruct (fault E w0 (c_getattr (d_inode lo) a b) =? 0) eqn:Hf2 end;
        run in Hrun; rewrite ?Hf2 in Hrun; run in Hrun.
      * match type of Hrun with context [negb (?a =? ?b)] =>
          destruct (a =? b) end; run in Hrun;
          rewrite Hnlink in Hrun; rewrite orb_true_r in Hrun; run in Hrun;
          injection Hrun as Hst _; subst st;
          rewrite getattr_nlink_dev, getattr_nlink_ino; split; reflexivity.
      * apply Z.eqb_neq in Hf2. injection Hrun as He _ _. contradiction.
    + apply Z.eqb_neq in Hf1. injection Hrun as He _ _. contradiction.
  - rewrite Hpl in Hrun. run in Hrun.
    match type of Hrun with context [fault E ?w0 ?c =? 0] =>
      destruct (fault E w0 c =? 0) eqn:Hf1 end; run in Hrun; rewrite ?Hf1 in Hrun;
      run in Hrun.
    + rewrite Hsame, Horigin, ?Hpl in Hrun. run in Hrun.
      match type of Hrun with
      context [fault E ?w0 (c_getattr (d_inode lo) (Z.lor ?a ?b) ?c) =? 0] =>
        destruct (fault E w0 (c_getattr (d_inode lo) (Z.lor a b) c) =? 0) eqn:Hf2 end;
        run in Hrun; rewrite ?Hf2 in Hrun; run in Hrun.
      * match type of Hrun with context [negb (?a =? ?b)] =>
          destruct (a =? b) end; run in Hrun;
          rewrite Hnlink in Hrun; rewrite orb_true_r in Hrun; run in Hrun;
          injection Hrun as Hst _; subst st;
          rewrite getattr_nlink_dev, getattr_nlink_ino; split; reflexivity.
      * apply Z.eqb_neq in Hf2. injection Hrun as He _ _. contradiction.
    + apply Z.eqb_neq in Hf1. injection Hrun as He _ _. contradiction.
Qed.

(** C5 (as amended).  Take two nodes of one mount whose layers are all on
    the same storage, each with a tracked origin whose link count is 1,
    and two successful [ovl_getattr] calls, in a build without
    [CONFIG_KSU_SUSFS_SUS_OVERLAYFS] or on nodes whose lower data path does
    not resolve.  Both report the mount's own device id, and each reports
    its origin's node number; so when the two nodes share the origin (and
    the origin's node number is the same at both calls), the
    (device, node-number) pairs are identical. *)
Theorem ovl_getattr_stable_identity :
  forall (cfg : bool) (E : env) (d1 d2 : ovl_dentry) (stat1 stat2 : kstat)
         (mask1 mask2 flags1 flags2 : Z) (w1 w2 : world) (lo1 lo2 : dentry)
         (st1 st2 : kstat) (w1' w2' : world),
    d_sb d1 = d_sb d2 ->
    nonnull (ovl_same_sb (d_sb d1)) = true ->
    cfg && (nonnull (mnt (ovl_path_lowerdata E w1 d1))
            && nonnull (p_dentry (ovl_path_lowerdata E w1 d1))) = false ->
    cfg && (nonnull (mnt (ovl_path_lowerdata E w2 d2))
            && nonnull (p_dentry (ovl_path_lowerdata E w2 d2))) = false ->
    OVL_TYPE_ORIGIN (ovl_path_type E w1 d1) = true ->
    OVL_TYPE_ORIGIN (ovl_path_type E w2 d2) = true ->
    ovl_dentry_lower d1 = Some lo1 ->
    ovl_dentry_lower d2 = Some lo2 ->
    i_nlink (real w1 (d_inode lo1)) = 1 ->
    i_nlink (real w2 (d_inode lo2)) = 1 ->
    ovl_getattr cfg E d1 stat1 mask1 flags1 w1 = Some ((0, st1), w1') ->
    ovl_getattr cfg E d2 stat2 mask2 flags2 w2 = Some ((0, st2), w2') ->
    st_dev st1 = s_dev (d_sb d1)
    /\ st_dev st2 = s_dev (d_sb d1)
    /\ st_ino st1 = i_ino (real w1 (d_inode lo1))
    /\ st_ino st2 = i_ino (real w2 (d_inode lo2))
    /\ (d_inode lo1 = d_inode lo2 ->
        i_ino (real w1 (d_inode lo1)) = i_ino (real w2 (d_inode lo1)) ->
        (st_dev st1, st_ino st1) = (st_dev st2, st_ino st2)).
Proof.
  intros cfg E d1 d2 stat1 stat2 mask1 mask2 flags1 flags2 w1 w2 lo1 lo2
    st1 st2 w1' w2' Hsb Hsame Hc1 Hc2 Ho1 Ho2 Hl1 Hl2 Hn1 Hn2 Hr1 Hr2.
  assert (Hsame2 : nonnull (ovl_same_sb (d_sb d2)) = true) by (rewrite <- Hsb; exact Hsame).
  destruct (ovl_getattr_origin_single cfg E d1 stat1 mask1 flags1 w1 lo1 st1 w1'
              Hc1 Hsame Ho1 Hl1 Hn1 Hr1) as [Hd1 Hi1].
  destruct (ovl_getattr_origin_single cfg E d2 stat2 mask2 flags2 w2 lo2 st2 w2'
              Hc2 Hsame2 Ho2 Hl2 Hn2 Hr2) as [Hd2 Hi2].
  rewrite <- Hsb in Hd2.
  repeat split; try assumption.
  intros Heq Hino. rewrite Hd1, Hd2, Hi1, Hi2, <- Heq, Hino. reflexivity.
Qed.

(** An instance: node 2, promoted, and node 5, not promoted, share the
    single-link origin 11; both report device 40, the mount's own, and
    node number 111, the origin's. *)
Lemma ovl_getattr_stable_identity_witness :
  exists (st1 st2 : kstat) (w1' w2' : world),
    ovl_getattr false susfs_env (sample_dentry 2 11 false) kstat_uninit 0x7ff 0
      sample_world = Some ((0, st1), w1')
    /\ ovl_getattr false susfs_env (sample_dentry 5 11 false) kstat_uninit 0x7ff 0
         sample_world = Some ((0, st2), w2')
    /\ (st_dev st1, st_ino st1) = (40, 111)
    /\ (st_dev st2, st_ino st2) = (40, 111).
Proof.
  eexists _, _, _, _.
  split; [vm_compute; reflexivity|]. split; [vm_compute; reflexivity|].
  edestruct (ovl_getattr_stable_identity false susfs_env
               (sample_dentry 2 11 false) (sample_dentry 5 11 false)
               kstat_uninit kstat_uninit 0x7ff 0x7ff 0 0 sample_world sample_world
               (mkDentry 11 false) (mkDentry 11 false))
    as (Hd1 & Hd2 & Hi1 & Hi2 & _);
    [reflexivity | reflexivity | reflexivity | reflexivity | reflexivity | reflexivity
    | reflexivity | reflexivity | reflexivity | reflexivity
    | vm_compute; reflexivity | vm_compute; reflexivity | ].
  split; f_equal; assumption.
Defined.

(** C5, counterexample.  In a build with [CONFIG_KSU_SUSFS_SUS_OVERLAYFS],
    on a same-storage mount, a node with a tracked origin of link count 1
    whose lower data path resolves: a successful [ovl_getattr] reports the
    device of the underlying filesystem (8), not the mount's own (40). *)
Lemma ovl_getattr_susfs_reports_underlying_dev :
  nonnull (ovl_same_sb (d_sb (sample_dentry 2 11 false))) = true
  /\ OVL_TYPE_ORIGIN (ovl_path_type susfs_env sample_world (sample_dentry 2 11 false)) = true
  /\ i_nlink (real sample_world 11) = 1
  /\ s_dev (d_sb (sample_dentry 2 11 false)) = 40
  /\ exists (st : kstat) (w' : world),
       ovl_getattr true susfs_env (sample_dentry 2 11 false) kstat_uninit 0x7ff 0
         sample_world = Some ((0, st), w')
       /\ st_dev st = 8.
Proof.
  repeat (split; [reflexivity|]).
  eexists _, _. split; [vm_compute; reflexivity | reflexivity].
Qed.

(** C10.  In a build with [CONFIG_KSU_SUSFS_SUS_OVERLAYFS], when the
    node's lower data path has a mount and a dentry, [ovl_getattr] makes
    one query, [vfs_getattr] on that path under the mounter's credentials,
    and returns its error and attributes as they are: on success the
    device, node number and link count are those of the lower object, so
    no device or node-number rewriting and no link-count rule applies.
    When the path does not resolve, the call is the one of a build without
    the option. *)
Theorem ovl_getattr_susfs_verbatim :
  forall (E : env) (d : ovl_dentry) (stat : kstat) (request_mask query_flags : Z)
         (w : world) (h : handle),
    od_inode d = Some h ->
    (forall (m : Z) (ld : dentry),
        ovl_path_lowerdata E w d = mkPath (Some m) (Some ld) ->
        exists (err : Z) (st : kstat) (w' : world),
          ovl_getattr true E d stat request_mask query_flags w = Some ((err, st), w')
          /\ trace w' = trace w ++
               [ (current_cred w, c_override_creds);
                 (creator_cred (s_fs_info (d_sb d)),
                  c_getattr (d_inode ld) request_mask query_flags);
                 (creator_cred (s_fs_info (d_sb d)), c_revert_creds) ]
          /\ (err = 0 -> st = generic_fillattr (real w (d_inode ld)))
          /\ (err <> 0 -> st = stat)
          /\ current_cred w' = current_cred w)
    /\ (nonnull (mnt (ovl_path_lowerdata E w d))
        && nonnull (p_dentry (ovl_path_lowerdata E w d)) = false ->
        ovl_getattr true E d stat request_mask query_flags w
        = ovl_getattr false E d stat request_mask query_flags w).
Proof.
  intros E d stat rm qf w h Hd. split.
  - intros m ld Hld.
    unfold ovl_getattr, ovl_override_creds, ovl_revert_creds, vfs_getattr.
    monad_unfold. rewrite Hd. run. rewrite Hld. run.
    match goal with |- context [fault E ?w0 ?c =? 0] =>
      destruct (fault E w0 c =? 0) eqn:Hf end; run.
    + eexists _, _, _. split; [reflexivity|]. run. rewrite <- !app_assoc.
      repeat split. intros Hne. contradiction.
    + apply Z.eqb_neq in Hf.
      eexists _, _, _. split; [reflexivity|]. run. rewrite <- !app_assoc.
      repeat split. intros He. contradiction.
  - intros Hnone. unfold ovl_getattr. monad_unfold. rewrite Hd. run.
    rewrite Hnone. reflexivity.
Qed.

(** An instance: with the option on, the merged directory node 3 is
    reported as its lower object 12 is: on the underlying device 8 and
    with link count 2. *)
Lemma ovl_getattr_susfs_verbatim_witness :
  exists (st : kstat) (w' : world),
    ovl_getattr true susfs_env (sample_dentry 3 12 true) kstat_uninit 0x7ff 0
      sample_world = Some ((0, st), w')
    /\ st = generic_fillattr (real sample_world 12)
    /\ st_dev st = 8 /\ st_nlink st = 2.
Proof.
  destruct (ovl_getattr_susfs_verbatim susfs_env (sample_dentry 3 12 true) kstat_uninit
              0x7ff 0 sample_world 3 eq_refl) as [H _].
  destruct (H 2 (mkDentry 12 true) eq_refl) as (err & st & w' & Hrun & _ & Hok & _).
  assert (Herr : err = 0).
  { vm_compute in Hrun. injection Hrun as H1 _ _. symmetry. exact H1. }
  subst err. exists st, w'. split; [exact Hrun|].
  rewrite (Hok eq_refl). repeat split.
Defined.

(** The same query in a build without the option: the merged directory is
    reported on the mount's own device, with the origin's node number and
    link count 1. *)
Example ovl_getattr_merged_dir_projected :
  exists (st : kstat) (w' : world),
    ovl_getattr false susfs_env (sample_dentry 3 12 true) kstat_uninit 0x7ff 0
      sample_world = Some ((0, st), w')
    /\ st_dev st = 40 /\ st_ino st = 112 /\ st_nlink st = 1.
Proof. eexists _, _. split; [vm_compute; reflexivity|]. repeat split. Qed.

(** ** Node identity resolver: verification of a cached node *)

(** Two resolutions of the same read-only object yield the same node, and
    the second one allocates nothing. *)
Example ovl_get_inode_twice :
  exists h w1 w2,
    ovl_get_inode quiet_env (sample_dentry 1 10 false) None None sample_world
    = Some (inr h, w1)
    /\ ovl_get_inode quiet_env (sample_dentry 1 10 false) None None w1
       = Some (inr h, w2)
    /\ icache w1 = [h] /\ icache w2 = [h]
    /\ i_nlink (vfs_inode (nodes w2 h)) = 2.
Proof.
  eexists _, _, _. split; [vm_compute; reflexivity|].
  split; [vm_compute; reflexivity|].
  repeat split; vm_compute; reflexivity.
Qed.

Lemma ptr_eqb_eq (a b : option ptr) : ptr_eqb a b = true <-> a = b.
Proof.
  destruct a as [x|], b as [y|]; simpl; split; intros H; try discriminate;
    try reflexivity.
  - apply Z.eqb_eq in H. subst. reflexivity.
  - injection H as ->. apply Z.eqb_refl.
Qed.

Lemma ptr_eqb_neq (a b : option ptr) : ptr_eqb a b = false <-> a <> b.
Proof.
  split.
  - intros H Heq. apply ptr_eqb_eq in Heq. congruence.
  - intros H. destruct (ptr_eqb a b) eqn:He; [|reflexivity].
    apply ptr_eqb_eq in He. contradiction.
Qed.

Lemma nonnull_false {A : Type} (p : option A) : nonnull p = false <-> p = None.
Proof. destruct p; simpl; split; intros H; congruence. Qed.

Lemma nonnull_true {A : Type} (p : option A) : nonnull p = true <-> p <> None.
Proof. destruct p; simpl; split; intros H; congruence. Qed.

(** [ovl_verify_inode] rejects exactly in the four situations of
    inode.c:608-632. *)
Lemma ovl_verify_inode_false_iff (oi : ovl_inode) (lowerdentry upperdentry : option dentry) :
  ovl_verify_inode oi lowerdentry upperdentry = false
  <-> ((exists lo, lowerdentry = Some lo /\ ovl_inode_lower oi <> Some (d_inode lo))
       \/ (exists up, upperdentry = Some up /\ ovl_inode_upper oi <> Some (d_inode up))
       \/ (S_ISDIR (i_mode (vfs_inode oi)) = true
           /\ ((lowerdentry = None /\ ovl_inode_lower oi <> None)
               \/ (upperdentry = None /\ ovl_inode_upper oi <> None)))).
Proof.
  unfold ovl_verify_inode.
  destruct (S_ISDIR (i_mode (vfs_inode oi))) eqn:Hdir,
    lowerdentry as [lo|], upperdentry as [up|]; simpl;
    repeat match goal with
           | |- context [ptr_eqb ?a ?b] => destruct (ptr_eqb a b) eqn:?; simpl
           | |- context [nonnull ?a] => destruct (nonnull a) eqn:?; simpl
           end;
    repeat match goal with
           | H : ptr_eqb _ _ = true |- _ => rewrite ptr_eqb_eq in H
           | H : ptr_eqb _ _ = false |- _ => rewrite ptr_eqb_neq in H
           | H : nonnull _ = true |- _ => rewrite nonnull_true in H
           | H : nonnull _ = false |- _ => rewrite nonnull_false in H
           end;
    (split;
     [ intros Hv; try discriminate Hv;
       first
         [ left; eexists; split; [reflexivity | assumption]
         | right; left; eexists; split; [reflexivity | assumption]
         | right; right; split; [reflexivity|];
           first [ left; split; [reflexivity | assumption]
                 | right; split; [reflexivity | assumption] ] ]
     | intros [(l & Hs & Hn)|[(u & Hs & Hn)|(Hd & [[Hx Hn]|[Hx Hn]])]];
       try reflexivity; congruence ]).
Qed.

(** C2 (as amended).  A resolution that finds an existing cached node
    (the cache lookup under the selected key hits a node that is not new)
    always returns: the node if [ovl_verify_inode] accepts it, and
    [ERR_PTR(-ESTALE)] otherwise, leaving the nodes and the cache as they
    were.  Verification fails exactly when a supplied read-only object
    differs from the node's origin reference, a supplied writable object
    differs from the node's upper reference, or the node is a directory
    that holds a lower (resp. upper) reference while the lookup supplies
    none.  For a node that is not a directory, an absent argument never
    invalidates the node: a failure is always due to a supplied object
    that differs. *)
Theorem ovl_get_inode_existing :
  forall (E : env) (d : ovl_dentry) (upperdentry index : option dentry) (w : world)
         (keyd : dentry) (node : handle),
    let lowerdentry := ovl_dentry_lower d in
    let bylower := ovl_hash_bylower (real w) (d_sb d) upperdentry lowerdentry index in
    let oi := nodes w node in
    nonnull upperdentry || bylower = true ->
    (if bylower then lowerdentry else upperdentry) = Some keyd ->
    find (fun h => ovl_inode_test (nodes w h) (d_inode keyd)) (icache w) = Some node ->
    Z.land (i_state (vfs_inode oi)) I_NEW = 0 ->
    (exists (r : Z + handle) (w' : world),
        ovl_get_inode E d upperdentry index w = Some (r, w')
        /\ (ovl_verify_inode oi lowerdentry upperdentry = true -> r = inr node)
        /\ (ovl_verify_inode oi lowerdentry upperdentry = false -> r = inl (- ESTALE))
        /\ (r = inr node \/ r = inl (- ESTALE))
        /\ nodes w' = nodes w /\ icache w' = icache w)
    /\ (ovl_verify_inode oi lowerdentry upperdentry = false
        <-> ((exists lo, lowerdentry = Some lo /\ ovl_inode_lower oi <> Some (d_inode lo))
             \/ (exists up, upperdentry = Some up
                            /\ ovl_inode_upper oi <> Some (d_inode up))
             \/ (S_ISDIR (i_mode (vfs_inode oi)) = true
                 /\ ((lowerdentry = None /\ ovl_inode_lower oi <> None)
                     \/ (upperdentry = None /\ ovl_inode_upper oi <> None)))))
    /\ (S_ISDIR (i_mode (vfs_inode oi)) = false ->
        ovl_verify_inode oi lowerdentry upperdentry = false ->
        (exists lo, lowerdentry = Some lo /\ ovl_inode_lower oi <> Some (d_inode lo))
        \/ (exists up, upperdentry = Some up /\ ovl_inode_upper oi <> Some (d_inode up))).
Proof.
  intros E d upperdentry index w keyd node lowerdentry bylower oi Hbranch Hkey Hfind Hnew.
  split; [|split].
  - assert (Hreal : exists ri,
               match upperdentry with
               | Some u => ret (d_inode u)
               | None => lo <- deref lowerdentry ;; ret (d_inode lo)
               end w = Some (ri, w)).
    { destruct upperdentry as [u|]; [eexists; reflexivity|].
      simpl in Hbranch. rewrite Hbranch in Hkey. rewrite Hkey.
      eexists. reflexivity. }
    destruct Hreal as (ri & Hreal).
    unfold ovl_get_inode, iget5_locked, iput, dput.
    fold lowerdentry. monad_unfold. run. fold bylower.
    monad_unfold. rewrite Hreal, Hbranch, Hkey. run. rewrite Hfind. run.
    fold oi. apply Z.eqb_eq in Hnew. rewrite Hnew.
    destruct (ovl_verify_inode oi lowerdentry upperdentry) eqn:Hv; run.
    + eexists _, _. split; [reflexivity|]. repeat split; try discriminate.
      left. reflexivity.
    + eexists _, _. split; [reflexivity|]. repeat split; try discriminate.
      right. reflexivity.
  - apply ovl_verify_inode_false_iff.
  - intros Hnd Hv. apply ovl_verify_inode_false_iff in Hv.
    destruct Hv as [H|[H|[Hdir _]]]; [left; exact H | right; exact H | congruence].
Qed.

(** An instance: a lookup with the writable object 21 and the origin 10
    finds node 4, hashed under 21, verifies it and returns it. *)
Lemma ovl_get_inode_existing_witness :
  exists (w' : world),
    ovl_get_inode quiet_env
      (mkOvlDentry sample_sb None [mkPath (Some 2) (Some (mkDentry 10 false))])
      (Some (mkDentry 21 false)) None cached_world = Some (inr 4, w')
    /\ nodes w' = nodes cached_world.
Proof.
  destruct (ovl_get_inode_existing quiet_env
              (mkOvlDentry sample_sb None [mkPath (Some 2) (Some (mkDentry 10 false))])
              (Some (mkDentry 21 false)) None cached_world (mkDentry 21 false) 4
              eq_refl eq_refl eq_refl eq_refl)
    as [(r & w' & Hrun & Hok & _ & _ & Hn & _) _].
  exists w'. rewrite Hrun, (Hok eq_refl). split; [reflexivity | exact Hn].
Defined.

(** C2, counterexample.  Node 3 is a cached directory that holds the
    lower reference 12 and the upper reference 22.  A lookup that
    supplies the matching writable object and no read-only object is
    rejected with [-ESTALE]: the absent argument for the slot the node
    already fills invalidates it. *)
Lemma ovl_get_inode_dir_absent_lower_is_stale :
  S_ISDIR (i_mode (vfs_inode (nodes cached_world 3))) = true
  /\ ovl_inode_lower (nodes cached_world 3) = Some 12
  /\ ovl_inode_upper (nodes cached_world 3) = Some 22
  /\ ovl_verify_inode (nodes cached_world 3) None (Some (mkDentry 22 true)) = false
  /\ exists (w' : world),
       ovl_get_inode quiet_env (mkOvlDentry sample_sb None [])
         (Some (mkDentry 22 true)) None cached_world = Some (inl (- ESTALE), w').
Proof.
  repeat (split; [reflexivity|]).
  eexists. vm_compute. reflexivity.
Qed.

(** ** Link-count record: printing and parsing decimals *)

(** The formats of the record, and the parser on well-formed and
    malformed deltas. *)
Example snprintf_upper_delta :
  snprintf 13 "U%+i" 2 = (3, list_ascii_of_string "U+2").
Proof. reflexivity. Qed.

Example snprintf_lower_delta :
  snprintf 13 "L%+i" (-12) = (4, list_ascii_of_string "L-12").
Proof. reflexivity. Qed.

Example snprintf_truncates :
  snprintf 13 "U%+i" INT_MIN = (12, list_ascii_of_string "U-2147483648").
Proof. vm_compute. reflexivity. Qed.

Example kstrtoint_signed :
  kstrtoint (list_ascii_of_string "-12") = inr (-12)
  /\ kstrtoint (list_ascii_of_string "+2") = inr 2
  /\ kstrtoint (list_ascii_of_string "7") = inr 7.
Proof. repeat split; vm_compute; reflexivity. Qed.

Example kstrtoint_rejects :
  kstrtoint (list_ascii_of_string "+") = inl (- EINVAL)
  /\ kstrtoint (list_ascii_of_string "+-2") = inl (- EINVAL)
  /\ kstrtoint (list_ascii_of_string "2x") = inl (- EINVAL)
  /\ kstrtoint (list_ascii_of_string "2147483648") = inl (- ERANGE)
  /\ kstrtoint (list_ascii_of_string "-2147483648") = inr INT_MIN.
Proof. repeat split; vm_compute; reflexivity. Qed.

Lemma digit_char_spec (d : Z) :
  0 <= d <= 9 ->
  is_digit (digit_char d) = true
  /\ char_code (digit_char d) - 48 = d
  /\ digit_char d <> NUL.
Proof.
  intros Hd.
  assert (Hc : d = 0 \/ d = 1 \/ d = 2 \/ d = 3 \/ d = 4 \/ d = 5 \/ d = 6 \/ d = 7
               \/ d = 8 \/ d = 9) by lia.
  destruct Hc as [->|[->|[->|[->|[->|[->|[->|[->|[->| ->]]]]]]]]];
    (split; [reflexivity | split; [reflexivity | discriminate]]).
Qed.

Lemma dec_value_app (r : Z) (ds1 ds2 : list ascii) :
  dec_value r (ds1 ++ ds2) = dec_value (dec_value r ds1) ds2.
Proof. unfold dec_value. apply fold_left_app. Qed.

(** [put_dec] prepends to [acc] a non-empty string of digits whose value
    is [n], provided the fuel covers the bits of [n]. *)
Lemma put_dec_spec (fuel : nat) :
  forall (n : Z) (acc : list ascii),
    (0 < fuel)%nat ->
    0 <= n < 2 ^ Z.of_nat fuel ->
    exists ds,
      put_dec fuel n acc = ds ++ acc
      /\ ds <> []
      /\ Forall (fun c => is_digit c = true /\ c <> NUL) ds
      /\ (forall r, dec_value r ds = r * 10 ^ Z.of_nat (length ds) + n)
      /\ (forall k, 0 < k -> n < 10 ^ k -> Z.of_nat (length ds) <= k).
Proof.
  induction fuel as [|fuel IH]; intros n acc Hfuel Hn; [lia|].
  simpl put_dec.
  assert (Hmod : 0 <= n mod 10 <= 9) by (pose proof (Z.mod_pos_bound n 10); lia).
  destruct (digit_char_spec (n mod 10) Hmod) as (Hdig & Hval & Hnul).
  destruct (Z.ltb_spec n 10) as [Hlt|Hge].
  - exists [digit_char (n mod 10)]. repeat split.
    + discriminate.
    + constructor; [split; assumption | constructor].
    + intros r. unfold dec_value. simpl. rewrite Hval.
      rewrite Z.mod_small by lia. lia.
    + intros k Hk _. simpl. lia.
  - assert (Hdiv : 1 <= n / 10) by (apply Z.div_le_lower_bound; lia).
    assert (Hpow : 2 ^ Z.of_nat (S fuel) = 2 * 2 ^ Z.of_nat fuel).
    { rewrite Nat2Z.inj_succ, Z.pow_succ_r by lia. reflexivity. }
    assert (Hdivlt : n / 10 < 2 ^ Z.of_nat fuel).
    { apply Z.div_lt_upper_bound; lia. }
    assert (Hf : (0 < fuel)%nat).
    { destruct fuel; [simpl in Hdivlt; lia | lia]. }
    destruct (IH (n / 10) (digit_char (n mod 10) :: acc) Hf ltac:(lia))
      as (ds & Heq & Hne & Hall & Hv & Hlen).
    exists (ds ++ [digit_char (n mod 10)]). repeat split.
    + rewrite Heq, <- app_assoc. reflexivity.
    + destruct ds; discriminate.
    + apply Forall_app. split; [exact Hall|].
      constructor; [split; assumption | constructor].
    + intros r. rewrite dec_value_app, Hv. unfold dec_value at 1. simpl.
      rewrite Hval, length_app, Nat2Z.inj_add. simpl length.
      rewrite Z.pow_add_r by lia. change (10 ^ Z.of_nat 1) with 10.
      pose proof (Z.div_mod n 10 ltac:(lia)). lia.
    + intros k Hk Hnk. rewrite length_app, Nat2Z.inj_add. simpl length.
      assert (Hk1 : 1 < k).
      { destruct (Z.eq_dec k 1) as [->|]; [change (10 ^ 1) with 10 in Hnk; lia | lia]. }
      assert (Hlen' : Z.of_nat (length ds) <= k - 1).
      { apply Hlen; [lia|].
        apply Z.div_lt_upper_bound; [lia|].
        replace k with (Z.succ (k - 1)) in Hnk by lia.
        rewrite Z.pow_succ_r in Hnk by lia. exact Hnk. }
      lia.
Qed.

Lemma dec_digits_spec (n : Z) :
  0 <= n ->
  dec_digits n <> []
  /\ Forall (fun c => is_digit c = true /\ c <> NUL) (dec_digits n)
  /\ dec_value 0 (dec_digits n) = n
  /\ (forall k, 0 < k -> n < 10 ^ k -> Z.of_nat (length (dec_digits n)) <= k).
Proof.
  intros Hn. unfold dec_digits.
  assert (Hb : 0 <= n < 2 ^ Z.of_nat (S (Z.to_nat (Z.log2 n)))).
  { rewrite Nat2Z.inj_succ, Z2Nat.id by apply Z.log2_nonneg.
    destruct (Z.eq_dec n 0) as [->|Hnz]; [simpl; lia|].
    pose proof (Z.log2_spec n ltac:(lia)). lia. }
  destruct (put_dec_spec (S (Z.to_nat (Z.log2 n))) n [] ltac:(lia) Hb)
    as (ds & Heq & Hne & Hall & Hv & Hlen).
  rewrite app_nil_r in Heq. rewrite Heq.
  repeat split; try assumption.
  rewrite Hv. lia.
Qed.

(** Parsing a run of digits whose value fits an [unsigned long long]. *)
Lemma _parse_integer_digits (ds : list ascii) :
  forall (rest : list ascii) (res : Z) (rv : nat),
    Forall (fun c => is_digit c = true /\ c <> NUL) ds ->
    0 <= res ->
    dec_value res ds < 2 ^ 64 ->
    _parse_integer (ds ++ rest) res rv false
    = _parse_integer rest (dec_value res ds) (rv + length ds) false.
Proof.
  induction ds as [|c ds IH]; intros rest res rv Hall Hres Hfit.
  - simpl. rewrite Nat.add_0_r. reflexivity.
  - inversion Hall as [|? ? [Hc _] Hall']; subst.
    simpl app. simpl _parse_integer. rewrite Hc.
    assert (Hcode : 0 <= char_code c - 48 <= 9).
    { unfold is_digit in Hc. apply andb_true_iff in Hc as [H1 H2].
      apply Z.leb_le in H1, H2. lia. }
    assert (Hmono : forall l r, 0 <= r ->
               Forall (fun c => is_digit c = true /\ c <> NUL) l -> r <= dec_value r l).
    { clear. induction l as [|x l IHl]; intros r Hr Hl; [unfold dec_value; simpl; lia|].
      inversion Hl as [|? ? [Hx _] Hl']; subst.
      unfold is_digit in Hx. apply andb_true_iff in Hx as [H1 H2].
      apply Z.leb_le in H1, H2.
      unfold dec_value. simpl. fold (dec_value (r * 10 + (char_code x - 48)) l).
      specialize (IHl (r * 10 + (char_code x - 48)) ltac:(lia) Hl'). lia. }
    unfold dec_value in Hfit. simpl in Hfit.
    fold (dec_value (res * 10 + (char_code c - 48)) ds) in Hfit.
    pose proof (Hmono ds (res * 10 + (char_code c - 48)) ltac:(lia) Hall') as Hle.
    rewrite Z.mod_small by lia.
    destruct (Z.ltb_spec (2 ^ 64 - 1) (res * 10 + (char_code c - 48))) as [Hov|_]; [lia|].
    simpl orb. rewrite IH by (try assumption; lia).
    unfold dec_value at 2. simpl fold_left.
    fold (dec_value (res * 10 + (char_code c - 48)) ds).
    f_equal. simpl length. lia.
Qed.

Lemma _kstrtoull_digits (n : Z) :
  0 <= n < 2 ^ 64 ->
  _kstrtoull (dec_digits n) = inr n.
Proof.
  intros Hn.
  destruct (dec_digits_spec n ltac:(lia)) as (Hne & Hall & Hv & _).
  unfold _kstrtoull.
  rewrite <- (app_nil_r (dec_digits n)).
  rewrite _parse_integer_digits by (try assumption; rewrite ?Hv; lia).
  simpl _parse_integer. rewrite Hv.
  destruct (dec_digits n) as [|c l]; [contradiction|]. reflexivity.
Qed.

Lemma s32_range (z : Z) : - 2 ^ 31 <= s32 z < 2 ^ 31.
Proof. unfold s32. pose proof (Z.mod_pos_bound (z + 2 ^ 31) (2 ^ 32)). lia. Qed.

Lemma s32_small (z : Z) : - 2 ^ 31 <= z < 2 ^ 31 -> s32 z = z.
Proof. intros H. unfold s32. rewrite Z.mod_small by lia. lia. Qed.

Lemma s32_add_l (a b : Z) : s32 (s32 a + b) = s32 (a + b).
Proof.
  unfold s32.
  replace (((a + 2 ^ 31) mod 2 ^ 32 - 2 ^ 31) + b + 2 ^ 31)
    with ((a + 2 ^ 31) mod 2 ^ 32 + b) by lia.
  rewrite Zplus_mod_idemp_l. f_equal. f_equal. lia.
Qed.

Lemma s32_add_r (a b : Z) : s32 (a + s32 b) = s32 (a + b).
Proof. rewrite Z.add_comm, s32_add_l. f_equal. lia. Qed.

(** [kstrtoint] reads back what [%+i] prints. *)
Lemma kstrtoint_fmt_plus_i (v : Z) :
  INT_MIN <= v <= INT_MAX ->
  kstrtoint (fmt_plus_i v) = inr v.
Proof.
  unfold INT_MIN, INT_MAX. intros Hv.
  unfold kstrtoint, kstrtoll, kstrtoull, fmt_plus_i.
  destruct (Z.ltb_spec v 0) as [Hneg|Hpos].
  - rewrite _kstrtoull_digits by lia.
    destruct (Z.ltb_spec (2 ^ 63) (Z.abs v)); [lia|].
    replace (- Z.abs v) with v by lia.
    rewrite s32_small by lia. rewrite Z.eqb_refl. reflexivity.
  - rewrite _kstrtoull_digits by lia.
    destruct (Z.leb_spec (2 ^ 63) (Z.abs v)); [lia|].
    replace (Z.abs v) with v by lia.
    rewrite s32_small by lia. rewrite Z.eqb_refl. reflexivity.
Qed.

(** ** Link-count record: decoding *)

(** The record ["U+2"] decoded once the writable object has four links. *)
Example ovl_get_nlink_after_link :
  exists w',
    ovl_get_nlink quiet_env (Some (mkDentry 31 false)) (Some (mkDentry 30 false)) 3
      record_world_linked = Some (6, w').
Proof. eexists. vm_compute. reflexivity. Qed.

Lemma c_str_app_nul (l : list ascii) : c_str (l ++ [NUL]) = c_str l.
Proof.
  induction l as [|c l IH]; simpl; [reflexivity|].
  destruct (Ascii.eqb c NUL); [reflexivity | rewrite IH; reflexivity].
Qed.

Lemma c_str_no_nul (l : list ascii) :
  Forall (fun c => c <> NUL) l -> c_str l = l.
Proof.
  induction 1 as [|c l Hc _ IH]; simpl; [reflexivity|].
  destruct (Ascii.eqb_spec c NUL); [contradiction | rewrite IH; reflexivity].
Qed.

Lemma u32_small (z : Z) : 0 <= z < 2 ^ 32 -> u32 z = z.
Proof. intros H. unfold u32. apply Z.mod_small. exact H. Qed.

(** The checks of inode.c:560-573 on the buffer agree with the verdict on
    the record. *)
Lemma get_nlink_checks (l : list ascii) (lower_nlink upper_nlink fallback : Z) (err : Z)
    (data : list ascii) :
  0 <= err ->
  l = firstn (Z.to_nat err) data ->
  let buf := l ++ [NUL] in
  let b0 := nth 0 buf NUL in
  let b1 := nth 1 buf NUL in
  (if (negb (Ascii.eqb b0 "L"%char) && negb (Ascii.eqb b0 "U"%char))
      || (negb (Ascii.eqb b1 "+"%char) && negb (Ascii.eqb b1 "-"%char))
   then fallback
   else match kstrtoint (c_str (skipn 1 buf)) with
        | inl _ => fallback
        | inr nlink_diff =>
          let nlink :=
            s32 (s32 (if Ascii.eqb b0 "L"%char then lower_nlink else upper_nlink)
                 + nlink_diff) in
          if nlink <=? 0 then fallback else u32 nlink
        end)
  = verdict_count (judge_record (err, data) lower_nlink upper_nlink) fallback.
Proof.
  intros Herr Hl buf b0 b1. unfold judge_record.
  destruct (Z.ltb_spec err 0) as [Hneg|_]; [lia|].
  rewrite <- Hl. subst buf b0 b1.
  destruct l as [|c l']; [reflexivity|].
  cbn [app nth skipn]. cbn [c_str].
  destruct (Ascii.eqb_spec c NUL) as [->|Hc]; [reflexivity|].
  destruct (Ascii.eqb c "L"%char || Ascii.eqb c "U"%char) eqn:Hsel.
  2:{ apply orb_false_iff in Hsel as [-> ->]. reflexivity. }
  assert (Hnot : negb (Ascii.eqb c "L"%char) && negb (Ascii.eqb c "U"%char) = false).
  { rewrite <- negb_orb, Hsel. reflexivity. }
  rewrite Hnot. simpl orb. simpl negb.
  rewrite skipn_O, c_str_app_nul.
  destruct l' as [|s l'']; [reflexivity|].
  cbn [app nth c_str].
  destruct (Ascii.eqb_spec s NUL) as [->|Hs]; [reflexivity|].
  destruct (Ascii.eqb s "+"%char || Ascii.eqb s "-"%char) eqn:Hsign.
  2:{ apply orb_false_iff in Hsign as [-> ->]. reflexivity. }
  assert (Hnots : negb (Ascii.eqb s "+"%char) && negb (Ascii.eqb s "-"%char) = false).
  { rewrite <- negb_orb, Hsign. reflexivity. }
  rewrite Hnots. simpl negb.
  destruct (kstrtoint (s :: c_str l'')) as [e|delta]; [reflexivity|].
  set (count := s32 (s32 (if Ascii.eqb c "L"%char then lower_nlink else upper_nlink) + delta)).
  destruct (Z.leb_spec count 0) as [Hle|Hgt]; [reflexivity|].
  simpl verdict_count. apply u32_small.
  pose proof (s32_range (s32 (if Ascii.eqb c "L"%char then lower_nlink else upper_nlink)
                         + delta)).
  fold count in H. lia.
Qed.

(** What [ovl_get_nlink] returns once both objects are present and the
    read-only object's link count is not 1: the count of the verdict on
    the record it reads from the writable object. *)
Lemma ovl_get_nlink_judged (E : env) (lo up : dentry) (fallback : Z) (w : world) :
  i_nlink (real w (d_inode lo)) <> 1 ->
  exists (read : Z * list ascii) (w1 w' : world),
    ovl_vfs_getxattr E up OVL_XATTR_NLINK 12 w = Some (read, w1)
    /\ real w1 = real w
    /\ ovl_get_nlink E (Some lo) (Some up) fallback w
       = Some (verdict_count
                 (judge_record read (i_nlink (real w (d_inode lo)))
                    (i_nlink (real w (d_inode up)))) fallback, w')
    /\ real w' = real w /\ nodes w' = nodes w.
Proof.
  intros Hn1. apply Z.eqb_neq in Hn1.
  assert (Hread : exists read w1,
             ovl_vfs_getxattr E up OVL_XATTR_NLINK 12 w = Some (read, w1)
             /\ real w1 = real w /\ nodes w1 = nodes w
             /\ (0 <= fst read -> snd read = firstn (Z.to_nat (fst read)) (snd read))).
  { unfold ovl_vfs_getxattr, vfs_getxattr. monad_unfold. run.
    destruct (fault E w (c_getxattr (d_inode up) OVL_XATTR_NLINK 12) <? 0) eqn:Hf; run.
    - apply Z.ltb_lt in Hf. eexists _, _. split; [reflexivity|].
      split; [reflexivity|]. split; [reflexivity|].
      cbn [fst snd]. intros Hge. lia.
    - destruct (i_xattrs (real w (d_inode up)) !! OVL_XATTR_NLINK) as [v|]; run.
      + destruct (12 <? Z.of_nat (length v)) eqn:Hlen; run.
        * eexists _, _. split; [reflexivity|].
          split; [reflexivity|]. split; [reflexivity|].
          cbn [fst snd]. unfold ERANGE. intros Hge. lia.
        * eexists _, _. split; [reflexivity|].
          split; [reflexivity|]. split; [reflexivity|].
          cbn [fst snd]. intros _. rewrite Nat2Z.id, firstn_all. reflexivity.
      + eexists _, _. split; [reflexivity|].
        split; [reflexivity|]. split; [reflexivity|].
        cbn [fst snd]. unfold ENODATA. intros Hge. lia. }
  destruct Hread as ([err data] & w1 & Hget & Hr1 & Hnd1 & Hfirst).
  exists (err, data), w1.
  enough (exists w' : world,
             ovl_get_nlink E (Some lo) (Some up) fallback w
             = Some (verdict_count
                       (judge_record (err, data) (i_nlink (real w (d_inode lo)))
                          (i_nlink (real w (d_inode up)))) fallback, w')
             /\ real w' = real w /\ nodes w' = nodes w) as (w' & H1 & H2 & H3)
    by (exists w'; repeat split; assumption).
  unfold ovl_get_nlink, get_nlink_fail. monad_unfold.
  cbn -[ovl_vfs_getxattr judge_record kstrtoint c_str nth skipn firstn
        Z.land Z.lor Z.lnot Z.testbit Z.shiftl Z.pow Z.modulo Z.div].
  rewrite Hn1.
  change (13 - 1) with 12. rewrite Hget.
  cbn -[ovl_vfs_getxattr judge_record kstrtoint c_str nth skipn firstn
        Z.land Z.lor Z.lnot Z.testbit Z.shiftl Z.pow Z.modulo Z.div].
  pose proof (get_nlink_checks (firstn (Z.to_nat err) data)
                (i_nlink (real w (d_inode lo))) (i_nlink (real w (d_inode up)))
                fallback err data) as Hchk.
  assert (Hfin : forall (v : Z) (w2 : world),
             real w2 = real w -> nodes w2 = nodes w ->
             v = verdict_count
                   (judge_record (err, data) (i_nlink (real w (d_inode lo)))
                      (i_nlink (real w (d_inode up)))) fallback ->
             exists w' : world,
               Some (v, w2)
               = Some (verdict_count
                         (judge_record (err, data) (i_nlink (real w (d_inode lo)))
                            (i_nlink (real w (d_inode up)))) fallback, w')
               /\ real w' = real w /\ nodes w' = nodes w).
  { intros v w2 Hr2 Hn2 ->. exists w2. repeat split; assumption. }
  destruct (Z.ltb_spec err 0) as [Hneg|Hpos].
  - apply Hfin; [exact Hr1 | exact Hnd1 |].
    unfold judge_record. destruct (Z.ltb_spec err 0); [reflexivity | lia].
  - specialize (Hchk Hpos eq_refl). cbv zeta in Hchk.
    destruct ((negb (Ascii.eqb (nth 0 (firstn (Z.to_nat err) data ++ [NUL]) NUL) "L"%char)
               && negb (Ascii.eqb (nth 0 (firstn (Z.to_nat err) data ++ [NUL]) NUL) "U"%char))
              || (negb (Ascii.eqb (nth 1 (firstn (Z.to_nat err) data ++ [NUL]) NUL) "+"%char)
                  && negb (Ascii.eqb (nth 1 (firstn (Z.to_nat err) data ++ [NUL]) NUL) "-"%char))).
    + apply Hfin; [exact Hr1 | exact Hnd1 | exact Hchk].
    + destruct (kstrtoint (c_str (skipn 1 (firstn (Z.to_nat err) data ++ [NUL]))))
        as [e|nlink_diff].
      * apply Hfin; [exact Hr1 | exact Hnd1 | exact Hchk].
      * run. rewrite Hr1.
        destruct (Ascii.eqb (nth 0 (firstn (Z.to_nat err) data ++ [NUL]) NUL) "L"%char);
          match goal with |- context [?c <=? 0] => destruct (c <=? 0) end;
          (apply Hfin; [exact Hr1 | exact Hnd1 | exact Hchk]).
Qed.

Lemma kstrtoint_range (s : list ascii) (v : Z) :
  kstrtoint s = inr v -> INT_MIN <= v <= INT_MAX.
Proof.
  unfold kstrtoint. destruct (kstrtoll s) as [e|tmp]; [discriminate|].
  destruct (Z.eqb_spec tmp (s32 tmp)) as [Heq|]; [|discriminate].
  intros H. injection H as <-. pose proof (s32_range tmp).
  unfold INT_MIN, INT_MAX. lia.
Qed.

(** What a well-formed verdict says about its count. *)
Lemma judge_record_well_formed (read : Z * list ascii) (lower_nlink upper_nlink : Z)
    (selector_lower : bool) (delta count : Z) :
  judge_record read lower_nlink upper_nlink = well_formed selector_lower delta count ->
  let base := if selector_lower then lower_nlink else upper_nlink in
  0 < count
  /\ count = s32 (base + delta)
  /\ INT_MIN <= delta <= INT_MAX
  /\ (0 <= base <= INT_MAX -> count = base + delta).
Proof.
  unfold judge_record. destruct read as [err data].
  destruct (err <? 0); [discriminate|].
  destruct (c_str (firstn (Z.to_nat err) data)) as [|selector delta_text]; [discriminate|].
  destruct (negb (Ascii.eqb selector "L"%char || Ascii.eqb selector "U"%char));
    [discriminate|].
  destruct delta_text as [|sign rest]; [discriminate|].
  destruct (negb (Ascii.eqb sign "+"%char || Ascii.eqb sign "-"%char)); [discriminate|].
  destruct (kstrtoint (sign :: rest)) as [e|dl] eqn:Hk; [discriminate|].
  apply kstrtoint_range in Hk.
  match goal with |- context [?c <=? 0] => destruct (Z.leb_spec c 0) as [Hle|Hgt] end;
    [discriminate|].
  intros H. injection H as <- <- <-. cbv zeta.
  set (base := if Ascii.eqb selector "L"%char then lower_nlink else upper_nlink) in *.
  rewrite s32_add_l in *.
  repeat split; try lia.
  intros Hb. unfold INT_MIN, INT_MAX in *.
  pose proof (s32_range (base + dl)) as Hr.
  destruct (Z.lt_ge_cases (base + dl) (2 ^ 31)) as [Hsmall|Hbig].
  - apply s32_small. lia.
  - exfalso. unfold s32 in Hgt.
    replace (base + dl + 2 ^ 31) with ((base + dl - 2 ^ 31) + 1 * 2 ^ 32) in Hgt by lia.
    rewrite Z.mod_add in Hgt by lia.
    rewrite Z.mod_small in Hgt by lia. lia.
Qed.





























(** ** Link-count record: encoding and round trip *)

Lemma fmt_plus_i_spec (v : Z) :
  INT_MIN <= v <= INT_MAX ->
  exists sign ds,
    fmt_plus_i v = sign :: ds
    /\ (Ascii.eqb sign "+"%char || Ascii.eqb sign "-"%char) = true
    /\ Forall (fun c => c <> NUL) (sign :: ds)
    /\ Z.of_nat (length (sign :: ds)) <= 11.
Proof.
  unfold INT_MIN, INT_MAX. intros Hv.
  destruct (dec_digits_spec (Z.abs v) ltac:(lia)) as (_ & Hall & _ & Hlen).
  specialize (Hlen 10 ltac:(lia) ltac:(change (10 ^ 10) with 10000000000; lia)).
  exists (if v <? 0 then "-"%char else "+"%char), (dec_digits (Z.abs v)).
  split; [reflexivity|]. split; [destruct (v <? 0); reflexivity|].
  split.
  - constructor; [destruct (v <? 0); discriminate|].
    eapply Forall_impl; [exact Hall|]. intros c [_ Hc]. exact Hc.
  - simpl length. lia.
Qed.

Lemma format_int_nlink (selector_lower : bool) (v : Z) :
  format_int (list_ascii_of_string (if selector_lower then "L%+i" else "U%+i")) v
  = nlink_record selector_lower v.
Proof.
  destruct selector_lower; unfold nlink_record; simpl; rewrite app_nil_r; reflexivity.
Qed.

(** A successful [ovl_set_nlink_common] has stored the record for the
    delta between the node's link count and the base object's, and has
    changed nothing else that decoding reads. *)
Lemma ovl_set_nlink_common_stores (E : env) (d : ovl_dentry) (rd : dentry)
    (selector_lower : bool) (w w1 : world) (h : handle) (up : dentry) :
  od_inode d = Some h ->
  __upperdentry (nodes w h) = Some up ->
  ovl_set_nlink_common E d (Some rd) (if selector_lower then "L%+i" else "U%+i") w
  = Some (0, w1) ->
  let delta := s32 (i_nlink (vfs_inode (nodes w h)) - i_nlink (real w (d_inode rd))) in
  i_xattrs (real w1 (d_inode up)) !! OVL_XATTR_NLINK = Some (nlink_record selector_lower delta)
  /\ (forall p, i_nlink (real w1 p) = i_nlink (real w p))
  /\ nodes w1 = nodes w.
Proof.
  intros Hd Hup Hrun delta.
  unfold ovl_set_nlink_common, ovl_dentry_upper, ovl_do_setxattr, vfs_setxattr, snprintf
    in Hrun.
  monad_unfold. rewrite Hd in Hrun.
  cbn -[format_int list_ascii_of_string Z.of_nat Z.to_nat firstn length
        Z.land Z.lor Z.lnot Z.testbit Z.shiftl Z.pow Z.modulo Z.div] in Hrun.
  rewrite format_int_nlink in Hrun. fold delta in Hrun.
  destruct (fmt_plus_i_spec delta) as (sign & ds & Hfmt & _ & _ & Hlen).
  { pose proof (s32_range (i_nlink (vfs_inode (nodes w h)) - i_nlink (real w (d_inode rd)))).
    fold delta in H. unfold INT_MIN, INT_MAX. lia. }
  assert (Hreclen : Z.of_nat (length (nlink_record selector_lower delta)) <= 12).
  { unfold nlink_record. rewrite Hfmt. simpl length in *. lia. }
  destruct (Z.leb_spec 13 (Z.of_nat (length (nlink_record selector_lower delta))))
    as [Hbig|_]; [lia|].
  rewrite Hup in Hrun.
  cbn -[format_int list_ascii_of_string Z.of_nat Z.to_nat firstn length nlink_record
        Z.land Z.lor Z.lnot Z.testbit Z.shiftl Z.pow Z.modulo Z.div] in Hrun.
  assert (Hcut : firstn (Z.to_nat (Z.of_nat (length (nlink_record selector_lower delta))))
                   (firstn (Z.to_nat (13 - 1)) (nlink_record selector_lower delta))
                 = nlink_record selector_lower delta).
  { rewrite Nat2Z.id. rewrite firstn_firstn.
    apply firstn_all2. lia. }
  rewrite Hcut in Hrun.
  match type of Hrun with context [fault E ?w0 ?c =? 0] =>
    destruct (fault E w0 c =? 0) eqn:Hf end;
    cbn -[nlink_record Z.land Z.lor Z.lnot Z.testbit Z.shiftl Z.pow Z.modulo Z.div] in Hrun.
  - injection Hrun as <-.
    cbn -[nlink_record]. unfold upd. rewrite Z.eqb_refl.
    cbn -[nlink_record].
    split; [apply lookup_insert_eq|].
    split; [|reflexivity].
    intros p. destruct (p =? d_inode up) eqn:Hp; [|reflexivity].
    apply Z.eqb_eq in Hp. subst p. reflexivity.
  - apply Z.eqb_neq in Hf. injection Hrun as He _. contradiction.
Qed.

Lemma judge_record_encoded (selector_lower : bool) (delta lower_nlink upper_nlink : Z) :
  INT_MIN <= delta <= INT_MAX ->
  let record := nlink_record selector_lower delta in
  let count := s32 ((if selector_lower then lower_nlink else upper_nlink) + delta) in
  Z.of_nat (length record) <= 12
  /\ judge_record (Z.of_nat (length record), record) lower_nlink upper_nlink
     = if count <=? 0 then non_positive_count
       else well_formed selector_lower delta count.
Proof.
  intros Hd record count.
  destruct (fmt_plus_i_spec delta Hd) as (sign & ds & Hfmt & Hsign & Hnn & Hlen).
  assert (Hrec : record = (if selector_lower then "L"%char else "U"%char) :: sign :: ds).
  { subst record. unfold nlink_record. rewrite Hfmt. reflexivity. }
  split; [rewrite Hrec; simpl length in *; lia|].
  unfold judge_record.
  destruct (Z.ltb_spec (Z.of_nat (length record)) 0) as [Hneg|_]; [lia|].
  rewrite Nat2Z.id, firstn_all.
  rewrite c_str_no_nul.
  2:{ rewrite Hrec. constructor; [destruct selector_lower; discriminate | exact Hnn]. }
  rewrite Hrec.
  assert (Hsel : negb (Ascii.eqb (if selector_lower then "L"%char else "U"%char) "L"%char
                       || Ascii.eqb (if selector_lower then "L"%char else "U"%char) "U"%char)
                 = false) by (destruct selector_lower; reflexivity).
  rewrite Hsel, Hsign. simpl negb. cbv iota.
  rewrite <- Hfmt, (kstrtoint_fmt_plus_i delta Hd).
  assert (HL : Ascii.eqb (if selector_lower then "L"%char else "U"%char) "L"%char
               = selector_lower) by (destruct selector_lower; reflexivity).
  rewrite HL. cbv zeta. rewrite s32_add_l. fold count. reflexivity.
Qed.

(** C3 (as amended).  Round trip of the link-count record.  Let a node
    with a writable object and a read-only origin be encoded, against the
    upper or the lower object as base ([ovl_set_nlink_upper] or
    [ovl_set_nlink_lower] returning 0).  Decode in any later state in which
    the writable object still carries the record as written and the base
    object's link count is unmodified.  If the read succeeds, the
    read-only object's link count is not 1 and the node's link count is
    between 1 and [INT_MAX], [ovl_get_nlink] returns the node's link count
    exactly.  In particular, the record for base count 3 and node count 5
    with selector upper is ["U+2"], and decoding it when the upper
    object's count has become 4 returns 6. *)
Theorem ovl_nlink_round_trip :
  (forall (E : env) (d : ovl_dentry) (selector_lower : bool) (w w1 w2 : world)
          (h : handle) (up lo : dentry) (fallback : Z),
      od_inode d = Some h ->
      __upperdentry (nodes w h) = Some up ->
      ovl_dentry_lower d = Some lo ->
      (if selector_lower then ovl_set_nlink_lower E d else ovl_set_nlink_upper E d) w
      = Some (0, w1) ->
      let base := if selector_lower then lo else up in
      i_xattrs (real w2 (d_inode up)) !! OVL_XATTR_NLINK
      = i_xattrs (real w1 (d_inode up)) !! OVL_XATTR_NLINK ->
      i_nlink (real w2 (d_inode base)) = i_nlink (real w (d_inode base)) ->
      ~ fault E w2 (c_getxattr (d_inode up) OVL_XATTR_NLINK 12) < 0 ->
      i_nlink (real w2 (d_inode lo)) <> 1 ->
      0 < i_nlink (vfs_inode (nodes w h)) <= INT_MAX ->
      exists w3,
        ovl_get_nlink E (Some lo) (Some up) fallback w2
        = Some (i_nlink (vfs_inode (nodes w h)), w3))
  /\ (exists w1,
        i_nlink (vfs_inode (nodes nlink_world 6)) = 5
        /\ i_nlink (real nlink_world 30) = 3
        /\ ovl_set_nlink_upper quiet_env (sample_dentry 6 31 false) nlink_world
           = Some (0, w1)
        /\ i_xattrs (real w1 30) !! OVL_XATTR_NLINK = Some (list_ascii_of_string "U+2")
        /\ exists w3,
             ovl_get_nlink quiet_env (Some (mkDentry 31 false)) (Some (mkDentry 30 false)) 3
               (update_real 30 (set_i_nlink 4) w1) = Some (6, w3)).
Proof.
  split.
  - intros E d selector_lower w w1 w2 h up lo fallback Hd Hup Hlo Henc base
      Hrecord Hbase Hread Hguard Hcount.
    set (N := i_nlink (vfs_inode (nodes w h))) in *.
    set (B := i_nlink (real w (d_inode base))) in *.
    (* the record stored by the encoder *)
    assert (Hstored : i_xattrs (real w1 (d_inode up)) !! OVL_XATTR_NLINK
                      = Some (nlink_record selector_lower (s32 (N - B)))).
    { destruct selector_lower.
      - unfold ovl_set_nlink_lower in Henc. rewrite Hlo in Henc.
        exact (proj1 (ovl_set_nlink_common_stores E d lo true w w1 h up Hd Hup Henc)).
      - unfold ovl_set_nlink_upper, ovl_dentry_upper in Henc. monad_unfold.
        rewrite Hd in Henc. cbn -[ovl_set_nlink_common] in Henc. rewrite Hup in Henc.
        exact (proj1 (ovl_set_nlink_common_stores E d up false w w1 h up Hd Hup Henc)). }
    rewrite <- Hrecord in Hstored.
    assert (Hdelta : INT_MIN <= s32 (N - B) <= INT_MAX).
    { pose proof (s32_range (N - B)). unfold INT_MIN, INT_MAX. lia. }
    destruct (judge_record_encoded selector_lower (s32 (N - B))
                (i_nlink (real w2 (d_inode lo))) (i_nlink (real w2 (d_inode up))) Hdelta)
      as [Hlen Hjudge].
    (* the decoder reads it back *)
    destruct (ovl_get_nlink_judged E lo up fallback w2 Hguard)
      as (read & wr & w3 & Hget & _ & Hrun & _ & _).
    assert (Hreadv : read = (Z.of_nat (length (nlink_record selector_lower (s32 (N - B)))),
                             nlink_record selector_lower (s32 (N - B)))).
    { unfold ovl_vfs_getxattr, vfs_getxattr in Hget. monad_unfold.
      cbn -[nlink_record Z.of_nat length
            Z.land Z.lor Z.lnot Z.testbit Z.shiftl Z.pow Z.modulo Z.div] in Hget.
      destruct (Z.ltb_spec (fault E w2 (c_getxattr (d_inode up) OVL_XATTR_NLINK 12)) 0)
        as [Hneg|_]; [contradiction|].
      cbn -[nlink_record Z.of_nat length
            Z.land Z.lor Z.lnot Z.testbit Z.shiftl Z.pow Z.modulo Z.div] in Hget.
      rewrite Hstored in Hget.
      destruct (Z.ltb_spec 12 (Z.of_nat (length (nlink_record selector_lower (s32 (N - B))))))
        as [Hbig|_]; [lia|].
      injection Hget as <- _. reflexivity. }
    exists w3. rewrite Hrun, Hreadv, Hjudge.
    assert (Hsum : s32 ((if selector_lower
                         then i_nlink (real w2 (d_inode lo))
                         else i_nlink (real w2 (d_inode up))) + s32 (N - B)) = N).
    { replace (if selector_lower
               then i_nlink (real w2 (d_inode lo))
               else i_nlink (real w2 (d_inode up)))
        with (i_nlink (real w2 (d_inode base)))
        by (subst base; destruct selector_lower; reflexivity).
      rewrite Hbase. fold B. rewrite s32_add_r.
      replace (B + (N - B)) with N by lia.
      apply s32_small. unfold INT_MAX in Hcount. lia. }
    rewrite Hsum.
    destruct (Z.leb_spec N 0) as [Hle|_]; [lia|]. reflexivity.
  - eexists. split; [reflexivity|]. split; [reflexivity|].
    split; [vm_compute; reflexivity|].
    split; [vm_compute; reflexivity|].
    eexists. vm_compute. reflexivity.
Qed.

(** An instance: node 6 has link count 5; the record written against
    its origin 31 decodes to 5. *)
Lemma ovl_nlink_round_trip_witness :
  exists (w1 w3 : world),
    ovl_set_nlink_lower quiet_env (sample_dentry 6 31 false) nlink_world = Some (0, w1)
    /\ ovl_get_nlink quiet_env (Some (mkDentry 31 false)) (Some (mkDentry 30 false)) 3 w1
       = Some (5, w3).
Proof.
  destruct (ovl_set_nlink_lower quiet_env (sample_dentry 6 31 false) nlink_world)
    as [[err w1]|] eqn:Henc; [|vm_compute in Henc; discriminate].
  assert (Herr : err = 0) by (vm_compute in Henc; injection Henc as <- _; reflexivity).
  subst err.
  destruct (proj1 ovl_nlink_round_trip quiet_env (sample_dentry 6 31 false) true
              nlink_world w1 w1 6 (mkDentry 30 false) (mkDentry 31 false) 3
              eq_refl eq_refl eq_refl Henc eq_refl) as (w3 & Hdec).
  - vm_compute in Henc. injection Henc as <-. reflexivity.
  - intros H. vm_compute in H. discriminate.
  - vm_compute in Henc. injection Henc as <-. vm_compute. discriminate.
  - vm_compute. split; [reflexivity | discriminate].
  - exists w1, w3. split; [reflexivity | exact Hdec].
Defined.

(** C3, counterexample.  Node 7 has link count 5, its writable object 30
    has three links and its origin 11 has one.  Encoding against the upper
    object succeeds and stores ["U+2"], but decoding against the
    unmodified objects returns the fallback 3, not 5: with an origin link
    count of 1 the record is not consulted. *)
Lemma ovl_nlink_round_trip_origin_single_link :
  i_nlink (vfs_inode (nodes nlink_world 7)) = 5
  /\ exists w1,
       ovl_set_nlink_upper quiet_env (sample_dentry 7 11 false) nlink_world = Some (0, w1)
       /\ i_xattrs (real w1 30) !! OVL_XATTR_NLINK = Some (list_ascii_of_string "U+2")
       /\ ovl_get_nlink quiet_env (Some (mkDentry 11 false)) (Some (mkDentry 30 false)) 3 w1
          = Some (3, w1).
Proof.
  split; [reflexivity|].
  eexists. split; [vm_compute; reflexivity|].
  split; vm_compute; reflexivity.
Qed.

(** ** Listing extended attributes *)

Lemma char_code_inj (a b : ascii) : char_code a = char_code b -> a = b.
Proof.
  unfold char_code. intros H. apply N2Z.inj in H.
  rewrite <- (ascii_N_embedding a), <- (ascii_N_embedding b), H. reflexivity.
Qed.

(** [strncmp] against a NUL-free prefix, over its whole length, is the
    prefix test. *)
Lemma strncmp_prefix (p : string) :
  nul_free p ->
  forall s, (strncmp s p (strlen p) =? 0) = String.prefix p s.
Proof.
  unfold nul_free, strlen.
  induction p as [|c p IH]; intros Hp s; simpl.
  - destruct s; reflexivity.
  - inversion Hp as [|? ? Hc Hp']; subst.
    destruct s as [|a s]; simpl.
    + apply Z.eqb_neq. intros H.
      apply Hc. apply char_code_inj. change (char_code NUL) with 0. lia.
    + destruct (Ascii.eqb_spec a c) as [->|Hne].
      * destruct (ascii_dec c c) as [_|Hn]; [|contradiction]. apply IH. exact Hp'.
      * destruct (ascii_dec c a) as [Heq|_]; [symmetry in Heq; contradiction|].
        apply Z.eqb_neq. intros H. apply Hne. apply char_code_inj. lia.
Qed.

Lemma nul_free_trusted : nul_free XATTR_TRUSTED_PREFIX.
Proof. unfold nul_free. simpl. repeat constructor; discriminate. Qed.

Lemma nul_free_overlay : nul_free OVL_XATTR_PREFIX.
Proof. unfold nul_free. simpl. repeat constructor; discriminate. Qed.

(** [ovl_can_list] asks the capability of the credentials in effect and
    follows the listing rule. *)
Lemma ovl_can_list_spec (s : string) (w : world) :
  ovl_can_list s w = Some (can_list (cap_sys_admin (current_cred w)) s, w).
Proof.
  unfold ovl_can_list, can_list, ovl_is_private_xattr, ns_capable_noaudit.
  rewrite (strncmp_prefix _ nul_free_trusted), (strncmp_prefix _ nul_free_overlay).
  destruct (String.prefix XATTR_TRUSTED_PREFIX s); simpl; [|reflexivity].
  destruct (String.prefix OVL_XATTR_PREFIX s); reflexivity.
Qed.

Lemma firstn_length_app {A : Type} (a b : list A) : firstn (length a) (a ++ b) = a.
Proof. induction a as [|x a IH]; simpl; [destruct b; reflexivity | rewrite IH; reflexivity]. Qed.

Lemma skipn_length_app {A : Type} (a b : list A) (n : nat) :
  skipn (length a + n) (a ++ b) = skipn n b.
Proof. induction a as [|x a IH]; simpl; [reflexivity | exact IH]. Qed.

Lemma skipn_length_app0 {A : Type} (a b : list A) : skipn (length a) (a ++ b) = b.
Proof. induction a as [|x a IH]; simpl; [reflexivity | exact IH]. Qed.

Lemma length_name_bytes (n : string) : length (name_bytes n) = S (String.length n).
Proof.
  unfold name_bytes. rewrite length_app. simpl.
  induction n as [|c n IH]; simpl; [reflexivity|]. simpl in IH. lia.
Qed.

Lemma strnlen_name (n : string) (rest : list ascii) (len : nat) :
  nul_free n ->
  (String.length n < len)%nat ->
  strnlen (name_bytes n ++ rest) len = String.length n.
Proof.
  unfold nul_free, name_bytes. revert len.
  induction n as [|c n IH]; intros len Hn Hlen; simpl.
  - destruct len; [simpl in Hlen; lia | reflexivity].
  - inversion Hn as [|? ? Hc Hn']; subst.
    destruct len as [|len]; [lia|]. simpl.
    destruct (Ascii.eqb_spec c NUL); [contradiction|].
    f_equal. apply IH; [exact Hn' | simpl in Hlen; lia].
Qed.

Lemma cstring_name (n : string) (rest : list ascii) :
  nul_free n -> cstring (name_bytes n ++ rest) = n.
Proof.
  unfold nul_free, name_bytes.
  induction n as [|c n IH]; intros Hn; simpl; [reflexivity|].
  inversion Hn as [|? ? Hc Hn']; subst.
  destruct (Ascii.eqb_spec c NUL); [contradiction|].
  f_equal. apply IH. exact Hn'.
Qed.

(** The loop of [ovl_listxattr] on a well-formed list: the names that may
    not be listed are squeezed out and the result shrinks by their
    bytes. *)
Lemma listxattr_filter_spec (names : list string) :
  forall (fuel : nat) (kept junk : list ascii) (res : Z) (w : world),
    Forall nul_free names ->
    (length (encode_names names) <= fuel)%nat ->
    let listed := List.filter (fun n => can_list (cap_sys_admin (current_cred w)) n) names in
    exists junk',
      listxattr_filter fuel (kept ++ encode_names names ++ junk) (length kept)
        (length (encode_names names)) res w
      = Some ((res - Z.of_nat (length (encode_names names))
               + Z.of_nat (length (encode_names listed)),
               kept ++ encode_names listed ++ junk'), w).
Proof.
  induction names as [|n names IH]; intros fuel kept junk res w Hall Hfuel listed.
  - exists junk. destruct fuel; simpl; unfold ret; repeat f_equal; lia.
  - inversion Hall as [|? ? Hn Hall']; subst.
    assert (Henc : encode_names (n :: names) = name_bytes n ++ encode_names names)
      by reflexivity.
    assert (Hlen : length (encode_names (n :: names))
                   = S (String.length n + length (encode_names names))).
    { rewrite Henc, length_app, length_name_bytes. lia. }
    rewrite Hlen in Hfuel |- *.
    destruct fuel as [|fuel]; [lia|].
    cbn [listxattr_filter Nat.eqb].
    replace (kept ++ encode_names (n :: names) ++ junk)
      with (kept ++ name_bytes n ++ (encode_names names ++ junk))
      by (rewrite Henc, <- !app_assoc; reflexivity).
    rewrite !skipn_length_app0.
    rewrite strnlen_name by (try assumption; lia).
    rewrite cstring_name by assumption.
    destruct (Nat.ltb_spec (S (String.length n + length (encode_names names)))
                (S (String.length n))) as [Hbad|_]; [lia|].
    unfold bind at 1. rewrite ovl_can_list_spec.
    replace (S (String.length n + length (encode_names names)) - S (String.length n))%nat
      with (length (encode_names names)) by lia.
    subst listed. cbn [List.filter].
    destruct (can_list (cap_sys_admin (current_cred w)) n) eqn:Hcan; cbn [negb].
    + (* listed: the cursor moves past the name *)
      replace (length kept + S (String.length n))%nat
        with (length (kept ++ name_bytes n))
        by (rewrite length_app, length_name_bytes; reflexivity).
      replace (kept ++ name_bytes n ++ encode_names names ++ junk)
        with ((kept ++ name_bytes n) ++ encode_names names ++ junk)
        by (rewrite <- !app_assoc; reflexivity).
      destruct (IH fuel (kept ++ name_bytes n) junk res w Hall' ltac:(lia)) as (junk' & Hrun).
      exists junk'. rewrite Hrun. f_equal. f_equal.
      f_equal.
      * change (encode_names
                  (n :: List.filter
                          (fun n0 => can_list (cap_sys_admin (current_cred w)) n0) names))
          with (name_bytes n
                ++ encode_names
                     (List.filter
                        (fun n0 => can_list (cap_sys_admin (current_cred w)) n0) names)).
        rewrite length_app, length_name_bytes. lia.
      * change (encode_names
                  (n :: List.filter
                          (fun n0 => can_list (cap_sys_admin (current_cred w)) n0) names))
          with (name_bytes n
                ++ encode_names
                     (List.filter
                        (fun n0 => can_list (cap_sys_admin (current_cred w)) n0) names)).
        rewrite <- !app_assoc. reflexivity.
    + (* not listed: the rest of the list is moved over the name *)
      unfold memmove.
      rewrite firstn_length_app.
      replace (kept ++ name_bytes n ++ encode_names names ++ junk)
        with ((kept ++ name_bytes n) ++ encode_names names ++ junk)
        by (rewrite <- !app_assoc; reflexivity).
      replace (length kept + S (String.length n))%nat
        with (length (kept ++ name_bytes n))
        by (rewrite length_app, length_name_bytes; lia).
      rewrite skipn_length_app0, firstn_length_app.
      destruct (IH fuel kept
                  (skipn (length kept + length (encode_names names))
                     ((kept ++ name_bytes n) ++ encode_names names ++ junk))
                  (res - Z.of_nat (S (String.length n))) w Hall' ltac:(lia))
        as (junk' & Hrun).
      exists junk'. rewrite Hrun. f_equal. f_equal. f_equal. lia.
Qed.

Lemma prefix_append (a b s : string) :
  String.prefix (a ++ b)%string s = true -> String.prefix a s = true.
Proof.
  revert s. induction a as [|c a IH]; intros s H.
  - destruct s; reflexivity.
  - change (String c a ++ b)%string with (String c (a ++ b)%string) in H.
    destruct s as [|x s]; [discriminate H|].
    cbn [String.prefix] in *.
    destruct (ascii_dec c x); [apply IH; exact H | discriminate H].
Qed.

Lemma can_list_internal (capable : bool) (s : string) :
  String.prefix OVL_XATTR_PREFIX s = true -> can_list capable s = false.
Proof.
  intros H. unfold can_list.
  rewrite (prefix_append XATTR_TRUSTED_PREFIX "overlay." s H), H. reflexivity.
Qed.

Lemma can_list_privileged (capable : bool) (s : string) :
  String.prefix XATTR_TRUSTED_PREFIX s = true ->
  String.prefix OVL_XATTR_PREFIX s = false ->
  can_list capable s = capable.
Proof. intros H1 H2. unfold can_list. rewrite H1, H2. reflexivity. Qed.

Lemma can_list_other (capable : bool) (s : string) :
  String.prefix XATTR_TRUSTED_PREFIX s = false -> can_list capable s = true.
Proof. intros H. unfold can_list. rewrite H. reflexivity. Qed.

(** The listing rule on the sample names, without and with the
    administrative capability. *)
Example ovl_can_list_sample :
  map (can_list false) sample_names = [true; false; false]
  /\ map (can_list true) sample_names = [true; false; true].
Proof. split; reflexivity. Qed.

(** The filtering loop needs no more iterations than there are bytes
    left, whatever the underlying filesystem put into the buffer: every
    iteration consumes at least one. *)
Lemma listxattr_filter_total (fuel : nat) :
  forall (buf : list ascii) (s len : nat) (res : Z) (w : world),
    (len <= fuel)%nat ->
    exists r w', listxattr_filter fuel buf s len res w = Some (r, w').
Proof.
  induction fuel as [|fuel IH]; intros buf s len res w Hlen.
  - assert (len = 0)%nat as -> by lia. simpl. monad_unfold. eauto.
  - cbn [listxattr_filter].
    destruct (Nat.eqb_spec len 0) as [->|Hpos]; [monad_unfold; eauto|].
    destruct (Nat.ltb_spec len (S (strnlen (skipn s buf) len))) as [Hbad|Hok].
    + monad_unfold. eauto.
    + unfold ovl_can_list, ns_capable_noaudit. monad_unfold.
      destruct (negb (strncmp _ XATTR_TRUSTED_PREFIX _ =? 0)); cbn [negb].
      * apply IH. lia.
      * destruct (negb (ovl_is_private_xattr _)); cbn [negb].
        -- destruct (cap_sys_admin (current_cred w)); cbn [negb]; apply IH; lia.
        -- apply IH. lia.
Qed.

(** [ovl_listxattr] returns on every answer of the underlying filesystem,
    well-formed or not, once the representative object is there. *)
Lemma ovl_listxattr_returns (E : env) (d : ovl_dentry) (size : Z) (w : world) (rd : dentry) :
  ovl_dentry_real d w = Some (Some rd, w) ->
  exists r w', ovl_listxattr E d size w = Some (r, w').
Proof.
  intros Hreal.
  unfold ovl_listxattr, ovl_override_creds, ovl_revert_creds, vfs_listxattr.
  monad_unfold. rewrite Hreal.
  cbn -[listxattr_filter listxattr_data Z.to_nat].
  destruct (listxattr_data E _ rd size) as [res buf].
  destruct ((res <=? 0) || (size =? 0)); [eauto|].
  apply listxattr_filter_total. lia.
Qed.

(** C8.  Let the representative object carry a well-formed list of
    attribute names, among them one of the reserved internal namespace
    ([trusted.overlay.]) and one of the privileged namespace ([trusted.],
    not internal), and let the caller supply a buffer.  [ovl_listxattr]
    succeeds and returns the encoding of the names that pass the listing
    rule for the caller's own capability: the internal name is never among
    them; the privileged one is among them exactly when the caller has the
    administrative capability; every name outside the privileged
    namespace is retained; nothing is added. *)
Theorem ovl_listxattr_hides_namespaces :
  forall (E : env) (d : ovl_dentry) (size : Z) (w : world) (rd : dentry)
         (names : list string) (junk : list ascii) (internal privileged : string),
    ovl_dentry_real d w = Some (Some rd, w) ->
    Forall nul_free names ->
    listxattr_data E (under_mounter (d_sb d) w) rd size
    = (Z.of_nat (length (encode_names names)), encode_names names ++ junk) ->
    size <> 0 ->
    In internal names ->
    String.prefix OVL_XATTR_PREFIX internal = true ->
    In privileged names ->
    String.prefix XATTR_TRUSTED_PREFIX privileged = true ->
    String.prefix OVL_XATTR_PREFIX privileged = false ->
    let capable := cap_sys_admin (current_cred w) in
    exists (res : Z) (buf : list ascii) (w' : world) (returned : list string),
      ovl_listxattr E d size w = Some ((res, buf), w')
      /\ 0 <= res
      /\ firstn (Z.to_nat res) buf = encode_names returned
      /\ returned = List.filter (can_list capable) names
      /\ ~ In internal returned
      /\ (capable = false -> ~ In privileged returned)
      /\ (capable = true -> In privileged returned)
      /\ (forall n, In n names -> String.prefix XATTR_TRUSTED_PREFIX n = false ->
                    In n returned)
      /\ (forall n, In n returned -> In n names)
      /\ current_cred w' = current_cred w.
Proof.
  intros E d size w rd names junk internal privileged Hreal Hall Hdata Hsize
    Hint Hipre Hpriv Hppre Hpnot capable.
  assert (Hpos : 0 < Z.of_nat (length (encode_names names))).
  { destruct names as [|n names]; [contradiction|].
    change (encode_names (n :: names)) with (name_bytes n ++ encode_names names).
    rewrite length_app, length_name_bytes. lia. }
  unfold ovl_listxattr, ovl_override_creds, ovl_revert_creds, vfs_listxattr.
  monad_unfold. rewrite Hreal.
  cbn -[listxattr_filter listxattr_data encode_names Z.of_nat Z.to_nat length].
  fold (under_mounter (d_sb d) w). rewrite Hdata.
  destruct (Z.leb_spec (Z.of_nat (length (encode_names names))) 0) as [Hle|_]; [lia|].
  destruct (Z.eqb_spec size 0) as [Hz|_]; [contradiction|].
  cbn [orb]. rewrite Nat2Z.id.
  match goal with |- context [listxattr_filter _ _ _ _ _ ?w0] =>
    destruct (listxattr_filter_spec names (length (encode_names names)) [] junk
                (Z.of_nat (length (encode_names names))) w0 Hall (le_n _))
      as (junk' & Hrun);
    assert (Hcred : current_cred w0 = current_cred w) by reflexivity
  end.
  cbn [app length] in Hrun. rewrite Hrun, Hcred. fold capable.
  eexists _, _, _, (List.filter (can_list capable) names).
  split; [reflexivity|].
  split; [lia|].
  split.
  { replace (Z.of_nat (length (encode_names names)) - Z.of_nat (length (encode_names names))
             + Z.of_nat (length (encode_names (List.filter (fun n => can_list capable n) names))))
      with (Z.of_nat (length (encode_names (List.filter (fun n => can_list capable n) names))))
      by lia.
    rewrite Nat2Z.id. apply firstn_length_app. }
  split; [reflexivity|].
  split.
  { rewrite filter_In. intros [_ Hc]. rewrite can_list_internal in Hc by assumption.
    discriminate. }
  split.
  { intros Hcap. rewrite filter_In. intros [_ Hc].
    rewrite can_list_privileged in Hc by assumption. congruence. }
  split.
  { intros Hcap. apply filter_In. split; [assumption|].
    rewrite can_list_privileged by assumption. exact Hcap. }
  split.
  { intros n Hn Hpre. apply filter_In. split; [assumption|].
    apply can_list_other. exact Hpre. }
  split.
  { intros n Hn. apply filter_In in Hn. exact (proj1 Hn). }
  reflexivity.
Qed.

(** An instance: of [user.comment], [trusted.overlay.origin] and
    [trusted.foo], an ordinary user is shown [user.comment] alone. *)
Lemma ovl_listxattr_hides_namespaces_witness :
  exists (res : Z) (buf : list ascii) (w' : world),
    ovl_listxattr xattr_env (sample_dentry 1 10 false) 64 sample_world
    = Some ((res, buf), w')
    /\ firstn (Z.to_nat res) buf = encode_names ["user.comment"%string].
Proof.
  assert (Hall : Forall nul_free sample_names).
  { unfold sample_names, nul_free. repeat (constructor; try discriminate). }
  destruct (ovl_listxattr_hides_namespaces xattr_env (sample_dentry 1 10 false) 64
              sample_world (mkDentry 10 false) sample_names []
              "trusted.overlay.origin" "trusted.foo"
              eq_refl Hall ltac:(rewrite app_nil_r; reflexivity) ltac:(discriminate)
              ltac:(right; left; reflexivity) eq_refl
              ltac:(right; right; left; reflexivity) eq_refl eq_refl)
    as (res & buf & w' & returned & Hrun & _ & Hbuf & Hret & _).
  exists res, buf, w'. split; [exact Hrun|].
  rewrite Hbuf, Hret. reflexivity.
Defined.

(** A caller with the administrative capability sees the privileged name
    of the sample list, and not the internal one. *)
Example ovl_listxattr_admin :
  exists res buf w',
    ovl_listxattr xattr_env (sample_dentry 1 10 false) 64
      (set_current_cred admin_user sample_world) = Some ((res, buf), w')
    /\ firstn (Z.to_nat res) buf = encode_names ["user.comment"; "trusted.foo"]%string.
Proof. eexists _, _, _. split; vm_compute; reflexivity. Qed.

(** * Further properties of inode.c *)

(** The first atom of a boolean test. *)
Ltac bool_core x :=
  lazymatch x with
  | negb ?y => bool_core y
  | ?a && _ => bool_core a
  | ?a || _ => bool_core a
  | _ => constr:(x)
  end.

(** One step of a case analysis on the run [H]: a test that was decided
    before is replaced by its outcome; otherwise the first test or match
    whose subject is not itself a test is decided. *)
Ltac split_run H :=
  first
  [ match goal with
    | Hb : ?t = true |- _ => rewrite Hb in H; run in H
    | Hb : ?t = false |- _ => rewrite Hb in H; run in H
    end
  | match type of H with
    | context [match ?x with _ => _ end] =>
      lazymatch x with
      | context [match _ with _ => _ end] => fail
      | _ =>
        let y := bool_core x in
        let Hx := fresh "Hx" in
        destruct y eqn:Hx; run in H; try discriminate H; try discriminate Hx;
        try match goal with
            | Hc : _ = true |- _ => run in Hc; discriminate Hc
            | Hc : _ = false |- _ => run in Hc; discriminate Hc
            end
      end
    end ].

(** An error code that passed the test for 0 is 0. *)
Ltac zero_or_not :=
  match goal with
  | Hq : (?a =? 0) = true, Hn : ?a <> 0 |- _ =>
    exfalso; apply Z.eqb_eq in Hq; exact (Hn Hq)
  end.

(** An error code that failed the test for 0 is not 0. *)
Ltac failed_is_not_zero :=
  match goal with
  | He : ?a = 0, Hx : (?a =? 0) = false |- _ => rewrite He in Hx; discriminate Hx
  | He : ?a = 0, Hx : negb (?a =? 0) = true |- _ => rewrite He in Hx; discriminate Hx
  | He : ?a = 0, Hx : (?a <? 0) = true |- _ => rewrite He in Hx; discriminate Hx
  end.

Ltac finish_run H :=
  repeat split_run H;
  try (injection H as <- <-); run.

Lemma upd_eq {A : Type} (f : Z -> A) (k : Z) (a : A) : upd f k a k = a.
Proof. unfold upd. rewrite Z.eqb_refl. reflexivity. Qed.

Lemma upd_neq {A : Type} (f : Z -> A) (k k' : Z) (a : A) :
  k' <> k -> upd f k a k' = f k'.
Proof. intros H. unfold upd. apply Z.eqb_neq in H. rewrite H. reflexivity. Qed.

(** ** Credentials and write intent *)

(** The filtering loop changes nothing but the trace. *)
Lemma listxattr_filter_frame (fuel : nat) :
  forall (buf : list ascii) (s len : nat) (res : Z) (w w' : world) (r : Z * list ascii),
    listxattr_filter fuel buf s len res w = Some (r, w') ->
    current_cred w' = current_cred w /\ nodes w' = nodes w /\ real w' = real w
    /\ writers w' = writers w /\ icache w' = icache w.
Proof.
  induction fuel as [|fuel IH]; intros buf s len res w w' r H.
  - cbn [listxattr_filter] in H. monad_unfold.
    destruct (len =? 0)%nat; [|discriminate H].
    injection H as _ <-. repeat split.
  - cbn [listxattr_filter] in H.
    destruct (len =? 0)%nat.
    { monad_unfold. injection H as _ <-. repeat split. }
    destruct (len <? S (strnlen (skipn s buf) len))%nat.
    { monad_unfold. injection H as _ <-. repeat split. }
    unfold bind at 1 in H. rewrite ovl_can_list_spec in H.
    destruct (negb _); apply IH in H; exact H.
Qed.

(** X1.  Every operation that swaps to the mounter's credentials has the
    caller's credentials in effect again when it returns, on every path:
    [ovl_setattr], [ovl_getattr], [ovl_permission], [ovl_xattr_set],
    [ovl_xattr_get], [__ovl_xattr_get], [ovl_listxattr], [ovl_get_link] and
    [ovl_get_acl]. *)
Theorem ovl_credentials_restored :
  (forall E d attr w r w',
      ovl_setattr E d attr w = Some (r, w') -> current_cred w' = current_cred w)
  /\ (forall cfg E d stat request_mask query_flags w r w',
         ovl_getattr cfg E d stat request_mask query_flags w = Some (r, w') ->
         current_cred w' = current_cred w)
  /\ (forall E sb inode mask w r w',
         ovl_permission E sb inode mask w = Some (r, w') ->
         current_cred w' = current_cred w)
  /\ (forall E d inode name value size xflags w r w',
         ovl_xattr_set E d inode name value size xflags w = Some (r, w') ->
         current_cred w' = current_cred w)
  /\ (forall E d inode name size w r w',
         ovl_xattr_get E d inode name size w = Some (r, w') ->
         current_cred w' = current_cred w)
  /\ (forall E d inode name size w r w',
         __ovl_xattr_get E d inode name size w = Some (r, w') ->
         current_cred w' = current_cred w)
  /\ (forall E d size w r w',
         ovl_listxattr E d size w = Some (r, w') ->
         current_cred w' = current_cred w)
  /\ (forall V dentry w r w',
         ovl_get_link V dentry w = Some (r, w') ->
         current_cred w' = current_cred w)
  /\ (forall cfg V sb inode type w r w',
         ovl_get_acl cfg V sb inode type w = Some (r, w') ->
         current_cred w' = current_cred w).
Proof.
  repeat apply conj.
  - intros E d attr w r w' H.
    unfold ovl_setattr, setattr_prepare, ovl_want_write, ovl_copy_up, ovl_dentry_upper,
      inode_lock, inode_unlock, ovl_override_creds, ovl_revert_creds, notify_change,
      ovl_copyattr, ovl_drop_write in H.
    monad_unfold. run in H. finish_run H; reflexivity.
  - intros cfg E d stat rm qf w r w' H.
    unfold ovl_getattr, ovl_path_real, ovl_dentry_upper, vfs_getattr,
      ovl_override_creds, ovl_revert_creds in H.
    monad_unfold. run in H. finish_run H; reflexivity.
  - intros E sb inode mask w r w' H.
    unfold ovl_permission, generic_permission, inode_permission,
      ovl_override_creds, ovl_revert_creds in H.
    monad_unfold. run in H. finish_run H; reflexivity.
  - intros E d inode name value size xflags w r w' H.
    unfold ovl_xattr_set, ovl_want_write, ovl_copy_up, ovl_dentry_upper, vfs_getxattr,
      vfs_setxattr, vfs_removexattr, ovl_override_creds, ovl_revert_creds,
      ovl_drop_write in H.
    monad_unfold. run in H. finish_run H; reflexivity.
  - intros E d inode name size w r w' H.
    unfold ovl_xattr_get, vfs_getxattr, ovl_override_creds, ovl_revert_creds in H.
    monad_unfold. run in H. finish_run H; reflexivity.
  - intros E d inode name size w r w' H.
    unfold __ovl_xattr_get, __vfs_getxattr, vfs_getxattr, ovl_override_creds,
      ovl_revert_creds in H.
    monad_unfold. run in H. finish_run H; reflexivity.
  - intros E d size w r w' H.
    unfold ovl_listxattr, ovl_dentry_real, ovl_dentry_upper, vfs_listxattr,
      ovl_override_creds, ovl_revert_creds in H.
    monad_unfold.
    cbn -[listxattr_filter listxattr_data Z.to_nat] in H.
    destruct (od_inode d) as [h|]; [|discriminate H].
    cbn -[listxattr_filter listxattr_data Z.to_nat] in H.
    destruct (__upperdentry (nodes w h)) as [u|];
      cbn -[listxattr_filter listxattr_data Z.to_nat] in H.
    + destruct (listxattr_data E _ u size) as [res buf].
      destruct ((res <=? 0) || (size =? 0)).
      * injection H as _ <-. reflexivity.
      * apply listxattr_filter_frame in H. exact (proj1 H).
    + destruct (ovl_dentry_lower d) as [lo|]; [|discriminate H].
      cbn -[listxattr_filter listxattr_data Z.to_nat] in H.
      destruct (listxattr_data E _ lo size) as [res buf].
      destruct ((res <=? 0) || (size =? 0)).
      * injection H as _ <-. reflexivity.
      * apply listxattr_filter_frame in H. exact (proj1 H).
  - intros V dentry w r w' H.
    unfold ovl_get_link, vfs_get_link, ovl_dentry_real, ovl_dentry_upper,
      ovl_override_creds, ovl_revert_creds in H.
    monad_unfold. destruct dentry as [d|]; run in H; finish_run H; reflexivity.
  - intros cfg V sb inode type w r w' H.
    unfold ovl_get_acl, get_acl, ovl_override_creds, ovl_revert_creds in H.
    monad_unfold. run in H. finish_run H; reflexivity.
Qed.

(** An instance: a permission check by an ordinary user leaves that user's
    credentials in effect. *)
Lemma ovl_credentials_restored_witness :
  exists (r : Z) (w' : world),
    ovl_permission quiet_env sample_sb 1 MAY_WRITE sample_world = Some (r, w')
    /\ current_cred w' = plain_user.
Proof.
  destruct (ovl_permission quiet_env sample_sb 1 MAY_WRITE sample_world)
    as [[r w']|] eqn:Hrun; [|vm_compute in Hrun; discriminate Hrun].
  exists r, w'. split; [reflexivity|].
  destruct ovl_credentials_restored as (_ & _ & Hp & _).
  exact (Hp _ _ _ _ _ _ _ Hrun).
Defined.

(** X2.  [ovl_setattr], [ovl_xattr_set] and [ovl_open_maybe_copy_up] drop
    every write intent they acquire: whatever they return, the count of
    write intents on the upper mount is the one they started with. *)
Theorem ovl_write_intent_balanced :
  (forall E d attr w r w',
      ovl_setattr E d attr w = Some (r, w') -> writers w' = writers w)
  /\ (forall E d inode name value size xflags w r w',
         ovl_xattr_set E d inode name value size xflags w = Some (r, w') ->
         writers w' = writers w)
  /\ (forall E V d file_flags w r w',
         ovl_open_maybe_copy_up E V d file_flags w = Some (r, w') ->
         writers w' = writers w).
Proof.
  repeat apply conj.
  - intros E d attr w r w' H.
    unfold ovl_setattr, setattr_prepare, ovl_want_write, ovl_copy_up, ovl_dentry_upper,
      inode_lock, inode_unlock, ovl_override_creds, ovl_revert_creds, notify_change,
      ovl_copyattr, ovl_drop_write in H.
    monad_unfold. run in H. finish_run H; lia.
  - intros E d inode name value size xflags w r w' H.
    unfold ovl_xattr_set, ovl_want_write, ovl_copy_up, ovl_dentry_upper, vfs_getxattr,
      vfs_setxattr, vfs_removexattr, ovl_override_creds, ovl_revert_creds,
      ovl_drop_write in H.
    monad_unfold. run in H. finish_run H; lia.
  - intros E V d file_flags w r w' H.
    unfold ovl_open_maybe_copy_up, ovl_open_need_copy_up, ovl_copy_up_flags,
      ovl_want_write, ovl_copy_up, ovl_dentry_upper, ovl_drop_write in H.
    monad_unfold. run in H. finish_run H; lia.
Qed.

(** An instance: setting an attribute on node 2 leaves the count of write
    intents at 0. *)
Lemma ovl_write_intent_balanced_witness :
  exists (r : Z) (w' : world),
    ovl_xattr_set quiet_env (sample_dentry 2 11 false) 2 "user.foo"
      (Some (list_ascii_of_string "bar")) 3 0 sample_world = Some (r, w')
    /\ writers w' = 0.
Proof.
  destruct (ovl_xattr_set quiet_env (sample_dentry 2 11 false) 2 "user.foo"
              (Some (list_ascii_of_string "bar")) 3 0 sample_world)
    as [[r w']|] eqn:Hrun; [|vm_compute in Hrun; discriminate Hrun].
  exists r, w'. split; [reflexivity|].
  destruct ovl_write_intent_balanced as (_ & Hx & _).
  exact (Hx _ _ _ _ _ _ _ _ _ _ Hrun).
Defined.

(** ** Set attributes: the kill bits and failures *)

(** X3.  When the caller asks for [ATTR_KILL_SUID] or [ATTR_KILL_SGID],
    [ovl_setattr] clears [ATTR_MODE] before it hands the change on: every
    [notify_change] it makes is made under the mounter's credentials, on the
    node's writable object, with the [ia_valid] that the caller gets back,
    which is the one passed in without [ATTR_MODE] in that case and the one
    passed in otherwise. *)
Theorem ovl_setattr_kill_bits :
  forall (E : env) (d : ovl_dentry) (attr attr' : iattr) (w w' : world) (err : Z),
    ovl_setattr E d attr w = Some ((err, attr'), w') ->
    let kill :=
      negb (Z.land (ia_valid attr) (Z.lor ATTR_KILL_SUID ATTR_KILL_SGID) =? 0) in
    exists calls : list (cred * call),
      trace w' = trace w ++ calls
      /\ forall (cr : cred) (i : ptr) (valid : Z),
           In (cr, c_notify_change i valid) calls ->
           cr = creator_cred (s_fs_info (d_sb d))
           /\ valid = ia_valid attr'
           /\ valid = (if kill then Z.land (ia_valid attr) (Z.lnot ATTR_MODE)
                       else ia_valid attr)
           /\ (kill = true -> Z.testbit valid 0 = false)
           /\ exists h u, od_inode d = Some h
                          /\ __upperdentry (nodes w' h) = Some u /\ d_inode u = i.
Proof.
  intros E d attr attr' w w' err H kill.
  assert (Hbit : forall v, Z.testbit (Z.land v (Z.lnot ATTR_MODE)) 0 = false).
  { intros v. rewrite Z.land_spec, Z.lnot_spec by lia. apply andb_false_r. }
  unfold ovl_setattr, setattr_prepare, ovl_want_write, ovl_copy_up, ovl_dentry_upper,
    inode_lock, inode_unlock, ovl_override_creds, ovl_revert_creds, notify_change,
    ovl_copyattr, ovl_drop_write in H.
  monad_unfold. run in H.
  repeat split_run H; injection H as <- <- <-; run;
    eexists; (split; [rewrite <- ?app_assoc; reflexivity|]);
    intros cr i valid Hin; cbn [In app] in Hin;
    repeat (destruct Hin as [Hin|Hin]; [try discriminate Hin|]); try contradiction;
    injection Hin as <- <- <-; subst kill;
    repeat match goal with H : _ = _ |- _ => rewrite H end; run;
    rewrite ?Z.eqb_refl, ?upd_eq;
    (repeat split; [try reflexivity; try discriminate; intros _; apply Hbit
                   | eexists _, _; rewrite ?upd_eq; repeat split;
                     try eassumption; try reflexivity]);
    repeat match goal with
           | H : context [upd _ ?k _ ?k] |- _ => rewrite upd_eq in H; run in H
           end;
    congruence.
Qed.

(** An instance: a change of mode together with [ATTR_KILL_SUID] reaches
    the writable object without [ATTR_MODE]. *)
Lemma ovl_setattr_kill_bits_witness :
  exists (attr' : iattr) (w' : world),
    ovl_setattr quiet_env (sample_dentry 1 10 false)
      (mkIattr (Z.lor ATTR_MODE ATTR_KILL_SUID) 0x180 0 0 0) sample_world
    = Some ((0, attr'), w')
    /\ In (mounter, c_notify_change 20 ATTR_KILL_SUID) (trace w')
    /\ ia_valid attr' = ATTR_KILL_SUID.
Proof.
  destruct (ovl_setattr quiet_env (sample_dentry 1 10 false)
              (mkIattr (Z.lor ATTR_MODE ATTR_KILL_SUID) 0x180 0 0 0) sample_world)
    as [[[err attr'] w']|] eqn:Hrun; [|vm_compute in Hrun; discriminate Hrun].
  assert (Herr : err = 0) by (vm_compute in Hrun; injection Hrun as <- _ _; reflexivity).
  subst err. exists attr', w'. split; [reflexivity|].
  destruct (ovl_setattr_kill_bits _ _ _ _ _ _ _ Hrun) as (calls & Htr & Hall).
  assert (Hin : In (mounter, c_notify_change 20 ATTR_KILL_SUID) (trace w')).
  { vm_compute in Hrun. injection Hrun as _ <-. vm_compute.
    do 5 right. left. reflexivity. }
  split; [exact Hin|].
  rewrite Htr in Hin. cbn [trace sample_world app] in Hin.
  destruct (Hall _ _ _ Hin) as (_ & Hv & _). symmetry. exact Hv.
Defined.

Ltac clean_upd :=
  repeat match goal with
         | H : context [upd _ ?k _ ?k] |- _ => rewrite upd_eq in H; run in H
         end;
  rewrite ?upd_eq.

(** X4.  [ovl_setattr] touches no node but its own, and on failure it
    leaves the cached attributes of that node as they were; if, moreover,
    the node's writable reference is the same as before, nothing was
    changed at all, in the nodes or in the underlying objects. *)
Theorem ovl_setattr_failure_keeps_metadata :
  forall (E : env) (d : ovl_dentry) (attr attr' : iattr) (w w' : world) (err : Z)
         (h : handle),
    od_inode d = Some h ->
    ovl_setattr E d attr w = Some ((err, attr'), w') ->
    (forall h', h' <> h -> nodes w' h' = nodes w h')
    /\ (err <> 0 ->
        vfs_inode (nodes w' h) = vfs_inode (nodes w h)
        /\ (__upperdentry (nodes w' h) = __upperdentry (nodes w h) ->
            real w' = real w /\ nodes w' = nodes w)).
Proof.
  intros E d attr attr' w w' err h Hd H.
  unfold ovl_setattr, setattr_prepare, ovl_want_write, ovl_copy_up, ovl_dentry_upper,
    inode_lock, inode_unlock, ovl_override_creds, ovl_revert_creds, notify_change,
    ovl_copyattr, ovl_drop_write in H.
  monad_unfold. rewrite Hd in H. run in H.
  repeat split_run H; injection H as <- <- <-; run;
    (split; [intros h' Hne; rewrite ?upd_neq by exact Hne; reflexivity|]);
    intros Herr; try contradiction; try zero_or_not; clean_upd; run;
    (split; [reflexivity|]); intros Hup; try (split; reflexivity);
    try congruence.
Qed.

(** An instance: when promotion fails for lack of space, the cached
    attributes of node 1 are as before. *)
Lemma ovl_setattr_failure_keeps_metadata_witness :
  exists (attr' : iattr) (w' : world),
    ovl_setattr full_env (sample_dentry 1 10 false) sample_attr sample_world
    = Some ((-28, attr'), w')
    /\ vfs_inode (nodes w' 1) = vfs_inode (nodes sample_world 1).
Proof.
  destruct (ovl_setattr full_env (sample_dentry 1 10 false) sample_attr sample_world)
    as [[[err attr'] w']|] eqn:Hrun; [|vm_compute in Hrun; discriminate Hrun].
  assert (Herr : err = -28) by (vm_compute in Hrun; injection Hrun as <- _ _; reflexivity).
  subst err. exists attr', w'. split; [reflexivity|].
  destruct (ovl_setattr_failure_keeps_metadata full_env (sample_dentry 1 10 false)
              sample_attr attr' sample_world w' (-28) 1 eq_refl Hrun) as (_ & Hf).
  exact (proj1 (Hf ltac:(discriminate))).
Defined.

(** ** Permission check: the cases without a downgrade *)

(** X5.  The cases of [ovl_permission] without a downgrade.  A node with
    neither object is answered [-ECHILD] without any check (with a warning
    unless the walk is non-blocking).  If [generic_permission] fails, its
    error is returned and nothing else is called.  Otherwise, when the node
    has a writable object, or the object is a special file, or write is
    not requested, the underlying object is checked under the mounter's
    credentials with the mask as it was passed in. *)
Theorem ovl_permission_mask_unchanged :
  forall (E : env) (sb : super_block) (inode : handle) (mask : Z) (w : world),
    let caller := current_cred w in
    let mounter := creator_cred (s_fs_info sb) in
    (ovl_inode_real (nodes w inode) = None ->
     ovl_permission E sb inode mask w
     = Some (- ECHILD,
             if Z.land mask MAY_NOT_BLOCK =? 0
             then set_trace (trace w ++ [(caller, c_warn)]) w
             else w))
    /\ (forall ri : ptr,
          ovl_inode_real (nodes w inode) = Some ri ->
          nonnull (ovl_inode_upper (nodes w inode))
          || special_file (i_mode (real w ri))
          || (Z.land mask MAY_WRITE =? 0) = true ->
          fault E w (c_generic_permission inode mask) = 0 ->
          exists (err : Z) (w' : world),
            ovl_permission E sb inode mask w = Some (err, w')
            /\ trace w' = trace w ++
                 [ (caller, c_generic_permission inode mask);
                   (caller, c_override_creds);
                   (mounter, c_inode_permission ri mask);
                   (mounter, c_revert_creds) ]
            /\ (exists w1, err = fault E w1 (c_inode_permission ri mask)
                           /\ current_cred w1 = mounter)
            /\ nodes w' = nodes w /\ real w' = real w)
    /\ (forall ri : ptr,
          ovl_inode_real (nodes w inode) = Some ri ->
          fault E w (c_generic_permission inode mask) <> 0 ->
          ovl_permission E sb inode mask w
          = Some (fault E w (c_generic_permission inode mask),
                  set_trace (trace w ++ [(caller, c_generic_permission inode mask)]) w)).
Proof.
  intros E sb inode mask w caller mounter.
  unfold ovl_inode_real, ovl_permission, generic_permission, inode_permission,
    ovl_override_creds, ovl_revert_creds.
  monad_unfold. run.
  destruct (ovl_inode_upper (nodes w inode)) as [u|] eqn:Hup; run.
  - split; [discriminate|]. split.
    + intros ri [= <-] _ Hgen. rewrite Hgen. run.
      eexists _, _. split; [reflexivity|]. run. rewrite <- !app_assoc.
      repeat split. eexists. split; reflexivity.
    + intros ri _ Hgen. apply Z.eqb_neq in Hgen. rewrite Hgen. reflexivity.
  - destruct (ovl_inode_lower (nodes w inode)) as [lo|] eqn:Hlo; run.
    + split; [discriminate|]. split.
      * intros ri [= <-] Hcase Hgen. rewrite Hgen. run.
        replace (negb (special_file (i_mode (real w lo)))
                 && negb (Z.land mask MAY_WRITE =? 0))
          with false
          by (destruct (special_file _), (Z.land mask MAY_WRITE =? 0); try reflexivity;
              discriminate Hcase).
        run. eexists _, _. split; [reflexivity|]. run. rewrite <- !app_assoc.
        repeat split. eexists. split; reflexivity.
      * intros ri _ Hgen. apply Z.eqb_neq in Hgen. rewrite Hgen. reflexivity.
    + split; [|split; discriminate]. intros _.
      destruct (Z.land mask MAY_NOT_BLOCK =? 0); reflexivity.
Qed.

(** An instance: a write check on node 2, which has the writable object
    20, is delegated to that object with the mask as it is. *)
Lemma ovl_permission_mask_unchanged_witness :
  exists (w' : world),
    ovl_permission quiet_env sample_sb 2 MAY_WRITE sample_world = Some (0, w')
    /\ trace w' = [ (plain_user, c_generic_permission 2 MAY_WRITE);
                    (plain_user, c_override_creds);
                    (mounter, c_inode_permission 20 MAY_WRITE);
                    (mounter, c_revert_creds) ].
Proof.
  destruct (proj1 (proj2 (ovl_permission_mask_unchanged quiet_env sample_sb 2 MAY_WRITE
                            sample_world)) 20 eq_refl eq_refl eq_refl)
    as (err & w' & Hrun & Htr & (w1 & Herr & _) & _).
  exists w'. rewrite Hrun, Herr. split; [reflexivity | exact Htr].
Defined.

(** ** Get attributes: the projection rules *)

Lemma ovl_path_lower_dentry (d : ovl_dentry) :
  p_dentry (ovl_path_lower d) = ovl_dentry_lower d.
Proof. unfold ovl_path_lower, ovl_dentry_lower. destruct (lowerstack d); reflexivity. Qed.

(** X6.  What a successful [ovl_getattr] (outside the
    [CONFIG_KSU_SUSFS_SUS_OVERLAYFS] branch) reports, relative to the
    attributes of the object it queried, the writable one if present, else
    the read-only one.  The link count is the overlay inode's for an
    indexed non-directory, 1 for a merged directory, the object's
    otherwise.  The device is the overlay's own when all layers are on one
    filesystem and for every directory, the object's otherwise.  Mode,
    owner, device number and times are the object's. *)
Theorem ovl_getattr_link_count_and_device :
  forall (cfg : bool) (E : env) (d : ovl_dentry) (stat st : kstat)
         (request_mask query_flags : Z) (w w' : world) (h : handle),
    od_inode d = Some h ->
    cfg && (nonnull (mnt (ovl_path_lowerdata E w d))
            && nonnull (p_dentry (ovl_path_lowerdata E w d))) = false ->
    ovl_getattr cfg E d stat request_mask query_flags w = Some ((0, st), w') ->
    let is_dir := S_ISDIR (i_mode (vfs_inode (nodes w h))) in
    let indexed := ovl_test_flag OVL_INDEX (nodes w h) in
    exists rd : dentry,
      ovl_dentry_real d w = Some (Some rd, w)
      /\ let rs := generic_fillattr (real w (d_inode rd)) in
         st_nlink st
         = (if negb is_dir && indexed then i_nlink (vfs_inode (nodes w h))
            else if is_dir && OVL_TYPE_MERGE (ovl_path_type E w d) then 1
            else st_nlink rs)
         /\ st_dev st
            = (if nonnull (ovl_same_sb (d_sb d)) || is_dir then s_dev (d_sb d)
               else st_dev rs)
         /\ (st_mode st, st_uid st, st_gid st, st_rdev st)
            = (st_mode rs, st_uid rs, st_gid rs, st_rdev rs)
         /\ (st_atime st, st_mtime st, st_ctime st)
            = (st_atime rs, st_mtime rs, st_ctime rs).
Proof.
  intros cfg E d stat st rm qf w w' h Hd Hcfg H is_dir indexed.
  unfold ovl_getattr, ovl_path_real, ovl_dentry_real, ovl_dentry_upper, vfs_getattr,
    ovl_override_creds, ovl_revert_creds, getattr_nlink in *.
  monad_unfold. rewrite Hd in *. run in H. rewrite Hcfg in H. run in H. run.
  rewrite ?ovl_path_lower_dentry in H.
  fold is_dir indexed in H.
  destruct (__upperdentry (nodes w h)) as [u|] eqn:Hu; run in H; run;
    rewrite ?ovl_path_lower_dentry in H.
  - repeat split_run H; injection H; clear H; intros; try failed_is_not_zero; subst st;
      eexists; (split; [reflexivity|]); run;
      destruct is_dir, indexed; run; repeat split.
  - repeat split_run H; injection H; clear H; intros; try failed_is_not_zero; subst st;
      eexists; (split; [reflexivity|]); run;
      destruct is_dir, indexed; run; repeat split.
Qed.

(** An instance: the merged directory node 3 on a same-storage mount is
    reported with link count 1 on the mount's own device. *)
Lemma ovl_getattr_link_count_and_device_witness :
  exists (st : kstat) (w' : world),
    ovl_getattr false susfs_env (sample_dentry 3 12 true) kstat_uninit 0x7ff 0
      sample_world = Some ((0, st), w')
    /\ st_nlink st = 1 /\ st_dev st = 40 /\ st_mode st = Z.lor S_IFDIR 0x1ED.
Proof.
  destruct (ovl_getattr false susfs_env (sample_dentry 3 12 true) kstat_uninit 0x7ff 0
              sample_world) as [[[err st] w']|] eqn:Hrun;
    [|vm_compute in Hrun; discriminate Hrun].
  assert (Herr : err = 0) by (vm_compute in Hrun; injection Hrun as <- _ _; reflexivity).
  subst err. exists st, w'. split; [reflexivity|].
  destruct (ovl_getattr_link_count_and_device false susfs_env (sample_dentry 3 12 true)
              kstat_uninit st 0x7ff 0 sample_world w' 3 eq_refl eq_refl Hrun)
    as (rd & Hrd & Hn & Hdev & Hm & _).
  vm_compute in Hrd. injection Hrd as <-.
  split; [exact Hn|]. split; [exact Hdev|].
  injection Hm as Hmode _ _ _. exact Hmode.
Defined.

(** X7.  The node number that a successful [ovl_getattr] reports.  When
    the layers are on different filesystems it is the overlay inode's for a
    directory and the queried object's otherwise.  When they are on one
    filesystem it is the origin's if the origin is tracked and the node is
    a directory, or the origin has one link, or the node is indexed; else
    it is the queried object's, so a hard-linked origin that is not indexed
    does not lend its number. *)
Theorem ovl_getattr_node_number :
  forall (cfg : bool) (E : env) (d : ovl_dentry) (stat st : kstat)
         (request_mask query_flags : Z) (w w' : world) (h : handle),
    od_inode d = Some h ->
    cfg && (nonnull (mnt (ovl_path_lowerdata E w d))
            && nonnull (p_dentry (ovl_path_lowerdata E w d))) = false ->
    ovl_getattr cfg E d stat request_mask query_flags w = Some ((0, st), w') ->
    let is_dir := S_ISDIR (i_mode (vfs_inode (nodes w h))) in
    let indexed := ovl_test_flag OVL_INDEX (nodes w h) in
    let same_storage := nonnull (ovl_same_sb (d_sb d)) in
    let tracked := OVL_TYPE_ORIGIN (ovl_path_type E w d) in
    exists rd : dentry,
      ovl_dentry_real d w = Some (Some rd, w)
      /\ (same_storage = false ->
          st_ino st = if is_dir then i_ino (vfs_inode (nodes w h))
                      else i_ino (real w (d_inode rd)))
      /\ (same_storage = true -> tracked = false ->
          st_ino st = i_ino (real w (d_inode rd)))
      /\ (same_storage = true -> tracked = true ->
          exists lo : dentry,
            ovl_dentry_lower d = Some lo
            /\ st_ino st
               = if is_dir || (i_nlink (real w (d_inode lo)) =? 1) || indexed
                 then i_ino (real w (d_inode lo))
                 else i_ino (real w (d_inode rd))).
Proof.
  intros cfg E d stat st rm qf w w' h Hd Hcfg H is_dir indexed same_storage tracked.
  unfold ovl_getattr, ovl_path_real, ovl_dentry_real, ovl_dentry_upper, vfs_getattr,
    ovl_override_creds, ovl_revert_creds in *.
  monad_unfold. rewrite Hd in *. run in H. rewrite Hcfg in H. run in H. run.
  rewrite ?ovl_path_lower_dentry in H.
  fold is_dir indexed same_storage tracked in H.
  destruct (__upperdentry (nodes w h)) as [u|] eqn:Hu; run in H; run;
    rewrite ?ovl_path_lower_dentry in H.
  - repeat split_run H; injection H; clear H; intros; try failed_is_not_zero; subst st;
      eexists; (split; [reflexivity|]); rewrite ?getattr_nlink_ino; run;
      (repeat split; try discriminate; try reflexivity); intros;
      try (eexists; split; [reflexivity|]);
      repeat match goal with
             | Hb : _ = true |- _ => rewrite Hb
             | Hb : _ = false |- _ => rewrite Hb
             end;
      try reflexivity.
  - repeat split_run H; injection H; clear H; intros; try failed_is_not_zero; subst st;
      eexists; (split; [reflexivity|]); rewrite ?getattr_nlink_ino; run;
      (repeat split; try discriminate; try reflexivity); intros;
      try (eexists; split; [reflexivity|]);
      repeat match goal with
             | Hb : _ = true |- _ => rewrite Hb
             | Hb : _ = false |- _ => rewrite Hb
             end;
      try reflexivity.
Qed.

(** An instance: the same directory reports the node number of its
    origin 12. *)
Lemma ovl_getattr_node_number_witness :
  exists (st : kstat) (w' : world),
    ovl_getattr false susfs_env (sample_dentry 3 12 true) kstat_uninit 0x7ff 0
      sample_world = Some ((0, st), w')
    /\ st_ino st = 112.
Proof.
  destruct (ovl_getattr false susfs_env (sample_dentry 3 12 true) kstat_uninit 0x7ff 0
              sample_world) as [[[err st] w']|] eqn:Hrun;
    [|vm_compute in Hrun; discriminate Hrun].
  assert (Herr : err = 0) by (vm_compute in Hrun; injection Hrun as <- _ _; reflexivity).
  subst err. exists st, w'. split; [reflexivity|].
  destruct (ovl_getattr_node_number false susfs_env (sample_dentry 3 12 true)
              kstat_uninit st 0x7ff 0 sample_world w' 3 eq_refl eq_refl Hrun)
    as (rd & _ & _ & _ & Hino).
  destruct (Hino eq_refl eq_refl) as (lo & Hlo & Hi).
  injection Hlo as <-. exact Hi.
Defined.

(** ** Extended attributes: what is set can be read back *)

(** X8.  An attribute set through [ovl_xattr_set] is stored on the node's
    writable object, which exists afterwards, and [ovl_xattr_get] on the
    same node reads the stored bytes back, given a buffer that holds them
    and an attribute store that answers. *)
Theorem ovl_xattr_set_then_get :
  forall (E : env) (d : ovl_dentry) (h : handle) (name : string) (v : list ascii)
         (size xflags gsize : Z) (w w1 : world),
    od_inode d = Some h ->
    ovl_xattr_set E d h name (Some v) size xflags w = Some (0, w1) ->
    let stored := firstn (Z.to_nat size) v in
    exists u : dentry,
      __upperdentry (nodes w1 h) = Some u
      /\ i_xattrs (real w1 (d_inode u)) !! name = Some stored
      /\ (0 <= fault E (under_mounter (d_sb d) w1) (c_getxattr (d_inode u) name gsize) ->
          gsize <> 0 ->
          Z.of_nat (length stored) <= gsize ->
          exists w2 : world,
            ovl_xattr_get E d h name gsize w1
            = Some ((Z.of_nat (length stored), stored), w2)).
Proof.
  intros E d h name v size xflags gsize w w1 Hd H stored.
  assert (Hget : forall u,
             __upperdentry (nodes w1 h) = Some u ->
             i_xattrs (real w1 (d_inode u)) !! name = Some stored ->
             0 <= fault E (under_mounter (d_sb d) w1) (c_getxattr (d_inode u) name gsize) ->
             gsize <> 0 ->
             Z.of_nat (length stored) <= gsize ->
             exists w2 : world,
               ovl_xattr_get E d h name gsize w1
               = Some ((Z.of_nat (length stored), stored), w2)).
  { intros u Hu Hx Hf Hg Hlen.
    unfold ovl_xattr_get, ovl_i_dentry_upper, vfs_getxattr, ovl_override_creds,
      ovl_revert_creds.
    monad_unfold. rewrite Hu. run. fold (under_mounter (d_sb d) w1).
    destruct (Z.ltb_spec (fault E (under_mounter (d_sb d) w1)
                            (c_getxattr (d_inode u) name gsize)) 0) as [Hlt|_]; [lia|].
    run. rewrite Hx. run.
    destruct (Z.eqb_spec gsize 0) as [Hz|_]; [contradiction|].
    destruct (Z.ltb_spec gsize (Z.of_nat (length stored))) as [Hlt|_]; [lia|].
    eexists. reflexivity. }
  assert (Hkey : exists u : dentry,
             __upperdentry (nodes w1 h) = Some u
             /\ i_xattrs (real w1 (d_inode u)) !! name = Some stored).
  { unfold ovl_xattr_set, ovl_i_dentry_upper, ovl_want_write, ovl_copy_up,
      ovl_dentry_upper, vfs_setxattr, ovl_override_creds, ovl_revert_creds,
      ovl_drop_write in H.
    monad_unfold. rewrite Hd in H. run in H.
    repeat split_run H; injection H; clear H; intros; try failed_is_not_zero; subst w1;
      clean_upd; run;
      match goal with
      | Hu : Some ?u = Some ?u' |- _ => injection Hu as -> | _ => idtac
      end;
      eexists; rewrite ?upd_eq; run;
      (split; [first [reflexivity | eassumption]|]);
      rewrite ?upd_eq; run; apply lookup_insert_eq. }
  destruct Hkey as (u & Hu & Hx). exists u.
  split; [exact Hu|]. split; [exact Hx|]. apply Hget; assumption.
Qed.

(** An instance: ["bar"] set as [user.foo] on node 2 is read back. *)
Lemma ovl_xattr_set_then_get_witness :
  exists (w1 w2 : world),
    ovl_xattr_set quiet_env (sample_dentry 2 11 false) 2 "user.foo"
      (Some (list_ascii_of_string "bar")) 3 0 sample_world = Some (0, w1)
    /\ ovl_xattr_get quiet_env (sample_dentry 2 11 false) 2 "user.foo" 16 w1
       = Some ((3, list_ascii_of_string "bar"), w2).
Proof.
  destruct (ovl_xattr_set quiet_env (sample_dentry 2 11 false) 2 "user.foo"
              (Some (list_ascii_of_string "bar")) 3 0 sample_world)
    as [[err w1]|] eqn:Hrun; [|vm_compute in Hrun; discriminate Hrun].
  assert (Herr : err = 0) by (vm_compute in Hrun; injection Hrun as <- _; reflexivity).
  subst err.
  destruct (ovl_xattr_set_then_get quiet_env (sample_dentry 2 11 false) 2 "user.foo"
              (list_ascii_of_string "bar") 3 0 16 sample_world w1 eq_refl Hrun)
    as (u & _ & _ & Hget).
  destruct Hget as (w2 & Hg);
    [vm_compute; discriminate | discriminate | vm_compute; discriminate |].
  exists w1, w2. split; [reflexivity | exact Hg].
Defined.

(** X9.  After a successful removal through [ovl_xattr_set] the attribute
    is absent from the node's writable object, and [ovl_xattr_get] on the
    same node answers [-ENODATA]. *)
Theorem ovl_xattr_remove_then_get :
  forall (E : env) (d : ovl_dentry) (h : handle) (name : string)
         (size xflags gsize : Z) (w w1 : world),
    od_inode d = Some h ->
    ovl_xattr_set E d h name None size xflags w = Some (0, w1) ->
    exists u : dentry,
      __upperdentry (nodes w1 h) = Some u
      /\ i_xattrs (real w1 (d_inode u)) !! name = None
      /\ (0 <= fault E (under_mounter (d_sb d) w1) (c_getxattr (d_inode u) name gsize) ->
          exists w2 : world,
            ovl_xattr_get E d h name gsize w1 = Some ((- ENODATA, []), w2)).
Proof.
  intros E d h name size xflags gsize w w1 Hd H.
  assert (Hkey : exists u : dentry,
             __upperdentry (nodes w1 h) = Some u
             /\ i_xattrs (real w1 (d_inode u)) !! name = None).
  { unfold ovl_xattr_set, ovl_i_dentry_upper, ovl_want_write, ovl_copy_up,
      ovl_dentry_upper, vfs_getxattr, vfs_removexattr, ovl_override_creds,
      ovl_revert_creds, ovl_drop_write in H.
    monad_unfold. rewrite Hd in H. run in H.
    repeat split_run H; injection H; clear H; intros; try failed_is_not_zero;
      try discriminate; subst w1;
      clean_upd; run;
      match goal with
      | Hu : Some ?u = Some ?u' |- _ => injection Hu as -> | _ => idtac
      end;
      eexists; rewrite ?upd_eq; run;
      (split; [first [reflexivity | eassumption]|]);
      rewrite ?upd_eq; run; apply lookup_delete_eq. }
  destruct Hkey as (u & Hu & Hx). exists u.
  split; [exact Hu|]. split; [exact Hx|]. intros Hf.
  unfold ovl_xattr_get, ovl_i_dentry_upper, vfs_getxattr, ovl_override_creds,
    ovl_revert_creds.
  monad_unfold. rewrite Hu. run. fold (under_mounter (d_sb d) w1).
  destruct (Z.ltb_spec (fault E (under_mounter (d_sb d) w1)
                          (c_getxattr (d_inode u) name gsize)) 0) as [Hlt|_]; [lia|].
  run. rewrite Hx. eexists. reflexivity.
Qed.

(** An instance: once the link-count record of node 6 is removed, reading
    it fails with [-ENODATA]. *)
Lemma ovl_xattr_remove_then_get_witness :
  exists (w1 w2 : world),
    ovl_xattr_set quiet_env (sample_dentry 6 31 false) 6 OVL_XATTR_NLINK None 0
      XATTR_REPLACE record_world = Some (0, w1)
    /\ ovl_xattr_get quiet_env (sample_dentry 6 31 false) 6 OVL_XATTR_NLINK 16 w1
       = Some ((- ENODATA, []), w2).
Proof.
  destruct (ovl_xattr_set quiet_env (sample_dentry 6 31 false) 6 OVL_XATTR_NLINK None 0
              XATTR_REPLACE record_world)
    as [[err w1]|] eqn:Hrun; [|vm_compute in Hrun; discriminate Hrun].
  assert (Herr : err = 0) by (vm_compute in Hrun; injection Hrun as <- _; reflexivity).
  subst err.
  destruct (ovl_xattr_remove_then_get quiet_env (sample_dentry 6 31 false) 6
              OVL_XATTR_NLINK 0 XATTR_REPLACE 16 record_world w1 eq_refl Hrun)
    as (u & _ & _ & Hget).
  destruct Hget as (w2 & Hg); [vm_compute; discriminate|].
  exists w1, w2. split; [reflexivity | exact Hg].
Defined.

(** ** Listing extended attributes: any answer of the underlying filesystem *)

(** The result of the filtering loop is [-EIO] or lies between the bytes
    already accepted and the length it started from. *)
Lemma listxattr_filter_bounds (fuel : nat) :
  forall (buf : list ascii) (s len : nat) (res : Z) (w w' : world) (r : Z)
         (buf' : list ascii),
    listxattr_filter fuel buf s len res w = Some ((r, buf'), w') ->
    r = - EIO \/ res - Z.of_nat len <= r <= res.
Proof.
  induction fuel as [|fuel IH]; intros buf s len res w w' r buf' H.
  - cbn [listxattr_filter] in H. monad_unfold.
    destruct (Nat.eqb_spec len 0) as [->|]; [|discriminate H].
    injection H as <- _ _. right. lia.
  - cbn [listxattr_filter] in H.
    destruct (Nat.eqb_spec len 0) as [->|Hpos].
    { monad_unfold. injection H as <- _ _. right. lia. }
    destruct (Nat.ltb_spec len (S (strnlen (skipn s buf) len))) as [Hbad|Hok].
    { monad_unfold. injection H as <- _ _. left. reflexivity. }
    unfold bind at 1 in H. rewrite ovl_can_list_spec in H.
    destruct (negb _); apply IH in H; destruct H as [H|H]; [left; exact H | right; lia
                                                            | left; exact H | right; lia].
Qed.

(** X10.  [ovl_listxattr] returns on every answer of the underlying
    filesystem.  An error, an empty list or a size query ([size = 0]) is
    passed on as it is, so a size query reports the length of the
    unfiltered list.  Otherwise the result is [-EIO] or a length between 0
    and the length of the underlying list.  No node and no underlying
    object changes. *)
Theorem ovl_listxattr_result_bounds :
  forall (E : env) (d : ovl_dentry) (size : Z) (w : world) (rd : dentry),
    ovl_dentry_real d w = Some (Some rd, w) ->
    let answer := listxattr_data E (under_mounter (d_sb d) w) rd size in
    exists (r : Z) (buf' : list ascii) (w' : world),
      ovl_listxattr E d size w = Some ((r, buf'), w')
      /\ (fst answer <= 0 \/ size = 0 -> (r, buf') = answer)
      /\ (0 < fst answer -> size <> 0 -> r = - EIO \/ 0 <= r <= fst answer)
      /\ nodes w' = nodes w /\ real w' = real w.
Proof.
  intros E d size w rd Hreal answer.
  unfold ovl_listxattr, ovl_override_creds, ovl_revert_creds, vfs_listxattr.
  monad_unfold. rewrite Hreal.
  cbn -[listxattr_filter listxattr_data Z.to_nat].
  fold (under_mounter (d_sb d) w). fold answer.
  destruct answer as [res buf]. cbn [fst].
  destruct (Z.leb_spec res 0) as [Hle|Hpos]; cbn [orb].
  { eexists _, _, _. split; [reflexivity|].
    split; [reflexivity|]. split; [lia|]. split; reflexivity. }
  destruct (Z.eqb_spec size 0) as [Hz|Hnz].
  { eexists _, _, _. split; [reflexivity|].
    split; [reflexivity|]. split; [contradiction|]. split; reflexivity. }
  match goal with |- context [listxattr_filter ?f ?b ?s ?l ?r0 ?w0] =>
    destruct (listxattr_filter_total f b s l r0 w0 (le_n _)) as ([r buf'] & w' & Hrun);
    pose proof (listxattr_filter_bounds _ _ _ _ _ _ _ _ _ Hrun) as Hb;
    pose proof (listxattr_filter_frame _ _ _ _ _ _ _ _ Hrun) as (_ & Hn & Hr & _)
  end.
  rewrite Hrun. eexists _, _, _. split; [reflexivity|].
  split; [intros [Hc|Hc]; [lia | contradiction]|].
  split; [|split; [exact Hn | exact Hr]].
  intros _ _. rewrite Z2Nat.id in Hb by lia. destruct Hb; [left; assumption | right; lia].
Qed.

(** An instance: for an ordinary user the list of the sample names shrinks
    from 48 bytes to at most 48. *)
Lemma ovl_listxattr_result_bounds_witness :
  exists (r : Z) (buf' : list ascii) (w' : world),
    ovl_listxattr xattr_env (sample_dentry 1 10 false) 64 sample_world
    = Some ((r, buf'), w')
    /\ (r = - EIO \/ 0 <= r <= 48).
Proof.
  destruct (ovl_listxattr_result_bounds xattr_env (sample_dentry 1 10 false) 64
              sample_world (mkDentry 10 false) eq_refl)
    as (r & buf' & w' & Hrun & _ & Hb & _).
  exists r, buf', w'. split; [exact Hrun|].
  apply Hb; [vm_compute; reflexivity | discriminate].
Defined.

Lemma strnlen_nul_free (l rest : list ascii) :
  Forall (fun c => c <> NUL) l -> strnlen (l ++ rest) (length l) = length l.
Proof.
  induction l as [|c l IH]; intros Hl; simpl; [destruct rest; reflexivity|].
  inversion Hl as [|? ? Hc Hl']; subst.
  destruct (Ascii.eqb_spec c NUL); [contradiction|].
  f_equal. apply IH. exact Hl'.
Qed.

(** The loop on a list whose last name has no terminator inside the
    length given: the names before it are filtered, then the loop gives
    up with [-EIO] and a warning. *)
Lemma listxattr_filter_broken (names : list string) :
  forall (fuel : nat) (kept tail junk : list ascii) (res : Z) (w : world),
    Forall nul_free names ->
    tail <> [] ->
    Forall (fun c => c <> NUL) tail ->
    (length (encode_names names) + length tail <= fuel)%nat ->
    exists buf',
      listxattr_filter fuel (kept ++ encode_names names ++ tail ++ junk) (length kept)
        (length (encode_names names) + length tail) res w
      = Some ((- EIO, buf'), set_trace (trace w ++ [(current_cred w, c_warn)]) w).
Proof.
  induction names as [|n names IH]; intros fuel kept tail junk res w Hall Hne Htail Hfuel.
  - cbn [encode_names map concat app length Nat.add] in *.
    destruct tail as [|c tail]; [contradiction|].
    destruct fuel as [|fuel]; [simpl in Hfuel; lia|].
    cbn [listxattr_filter]. cbn [length Nat.eqb].
    rewrite skipn_length_app0.
    change (S (length tail)) with (length (c :: tail)).
    rewrite strnlen_nul_free by assumption.
    destruct (Nat.ltb_spec (length (c :: tail)) (S (length (c :: tail)))) as [_|Hbad]; [|lia].
    monad_unfold. eexists. reflexivity.
  - inversion Hall as [|? ? Hn Hall']; subst.
    assert (Henc : encode_names (n :: names) = name_bytes n ++ encode_names names)
      by reflexivity.
    assert (Hlen : length (encode_names (n :: names))
                   = S (String.length n + length (encode_names names))).
    { rewrite Henc, length_app, length_name_bytes. lia. }
    rewrite Hlen in Hfuel |- *.
    destruct fuel as [|fuel]; [lia|].
    cbn [listxattr_filter Nat.eqb Nat.add].
    replace (kept ++ encode_names (n :: names) ++ tail ++ junk)
      with (kept ++ name_bytes n ++ (encode_names names ++ tail ++ junk))
      by (rewrite Henc, <- !app_assoc; reflexivity).
    rewrite !skipn_length_app0.
    rewrite strnlen_name by (try assumption; lia).
    rewrite cstring_name by assumption.
    destruct (Nat.ltb_spec (S (String.length n + length (encode_names names) + length tail))
                (S (String.length n))) as [Hbad|_]; [lia|].
    unfold bind at 1. rewrite ovl_can_list_spec.
    replace (S (String.length n + length (encode_names names) + length tail)
             - S (String.length n))%nat
      with (length (encode_names names) + length tail)%nat by lia.
    destruct (can_list (cap_sys_admin (current_cred w)) n) eqn:Hcan; cbn [negb].
    + replace (length kept + S (String.length n))%nat
        with (length (kept ++ name_bytes n))
        by (rewrite length_app, length_name_bytes; reflexivity).
      replace (kept ++ name_bytes n ++ encode_names names ++ tail ++ junk)
        with ((kept ++ name_bytes n) ++ encode_names names ++ tail ++ junk)
        by (rewrite <- !app_assoc; reflexivity).
      apply IH; try assumption. lia.
    + unfold memmove.
      rewrite firstn_length_app.
      replace (kept ++ name_bytes n ++ encode_names names ++ tail ++ junk)
        with ((kept ++ name_bytes n) ++ (encode_names names ++ tail) ++ junk)
        by (rewrite <- !app_assoc; reflexivity).
      replace (length kept + S (String.length n))%nat
        with (length (kept ++ name_bytes n))
        by (rewrite length_app, length_name_bytes; lia).
      rewrite skipn_length_app0.
      replace (length (encode_names names) + length tail)%nat
        with (length (encode_names names ++ tail)) by (rewrite length_app; reflexivity).
      rewrite firstn_length_app.
      rewrite length_app, <- app_assoc.
      apply IH; try assumption. lia.
Qed.

(** X11.  When the list of the underlying filesystem ends in a name
    without a terminator, [ovl_listxattr] gives up with [-EIO] and a
    warning, with the caller's credentials restored. *)
Theorem ovl_listxattr_broken_list :
  forall (E : env) (d : ovl_dentry) (size : Z) (w : world) (rd : dentry)
         (names : list string) (tail junk : list ascii),
    ovl_dentry_real d w = Some (Some rd, w) ->
    Forall nul_free names ->
    tail <> [] ->
    Forall (fun c => c <> NUL) tail ->
    listxattr_data E (under_mounter (d_sb d) w) rd size
    = (Z.of_nat (length (encode_names names ++ tail)), encode_names names ++ tail ++ junk) ->
    size <> 0 ->
    exists (buf' : list ascii) (w' : world),
      ovl_listxattr E d size w = Some ((- EIO, buf'), w')
      /\ In (current_cred w, c_warn) (trace w')
      /\ current_cred w' = current_cred w.
Proof.
  intros E d size w rd names tail junk Hreal Hall Hne Htail Hdata Hsize.
  assert (Hpos : 0 < Z.of_nat (length (encode_names names ++ tail))).
  { rewrite length_app. destruct tail; [contradiction|]. simpl. lia. }
  unfold ovl_listxattr, ovl_override_creds, ovl_revert_creds, vfs_listxattr.
  monad_unfold. rewrite Hreal.
  cbn -[listxattr_filter listxattr_data encode_names Z.of_nat Z.to_nat length].
  fold (under_mounter (d_sb d) w). rewrite Hdata.
  destruct (Z.leb_spec (Z.of_nat (length (encode_names names ++ tail))) 0) as [Hle|_]; [lia|].
  destruct (Z.eqb_spec size 0) as [Hz|_]; [contradiction|].
  cbn [orb]. rewrite Nat2Z.id, length_app.
  match goal with |- context [listxattr_filter _ _ _ _ _ ?w0] =>
    destruct (listxattr_filter_broken names (length (encode_names names) + length tail)
                [] tail junk (Z.of_nat (length (encode_names names) + length tail)) w0
                Hall Hne Htail (le_n _)) as (buf' & Hrun)
  end.
  cbn [app length] in Hrun. rewrite Hrun.
  eexists _, _. split; [reflexivity|].
  split; [|reflexivity].
  cbn [trace set_trace current_cred set_current_cred].
  apply in_or_app. right. left. reflexivity.
Qed.

(** An instance: a list of one name followed by two bytes without a
    terminator is refused with [-EIO]. *)
Lemma ovl_listxattr_broken_list_witness :
  exists (buf' : list ascii) (w' : world),
    ovl_listxattr broken_xattr_env (sample_dentry 1 10 false) 64 sample_world
    = Some ((- EIO, buf'), w')
    /\ In (plain_user, c_warn) (trace w').
Proof.
  destruct (ovl_listxattr_broken_list broken_xattr_env (sample_dentry 1 10 false) 64
              sample_world (mkDentry 10 false) ["user.a"%string]
              (list_ascii_of_string "xy") [])
    as (buf' & w' & Hrun & Hin & _).
  - reflexivity.
  - repeat constructor; discriminate.
  - discriminate.
  - repeat constructor; discriminate.
  - reflexivity.
  - discriminate.
  - exists buf', w'. split; [exact Hrun | exact Hin].
Defined.

(** ** Link-count record: the buffer and the result *)

(** X12.  The 13-byte buffer of [ovl_set_nlink_common] holds every record:
    a record has at most 12 bytes, so the [-EIO] exit is never taken, and
    [ovl_set_nlink_upper] and [ovl_set_nlink_lower] are one store of the
    whole record, the node's link count relative to the writable or to the
    read-only object, on the writable object. *)
Theorem ovl_set_nlink_record_fits :
  forall (E : env) (d : ovl_dentry) (w : world) (h : handle) (up : dentry),
    od_inode d = Some h ->
    __upperdentry (nodes w h) = Some up ->
    let delta_of (base : dentry) :=
      s32 (i_nlink (vfs_inode (nodes w h)) - i_nlink (real w (d_inode base))) in
    let store (record : list ascii) :=
      ovl_do_setxattr E up OVL_XATTR_NLINK record (Z.of_nat (length record)) 0 w in
    (forall (selector_lower : bool) (base : dentry),
        Z.of_nat (length (nlink_record selector_lower (delta_of base))) <= 12)
    /\ ovl_set_nlink_upper E d w = store (nlink_record false (delta_of up))
    /\ (forall lo : dentry,
          ovl_dentry_lower d = Some lo ->
          ovl_set_nlink_lower E d w = store (nlink_record true (delta_of lo))).
Proof.
  intros E d w h up Hd Hup delta_of store.
  assert (Hfit : forall (selector_lower : bool) (base : dentry),
             Z.of_nat (length (nlink_record selector_lower (delta_of base))) <= 12).
  { intros sl base. unfold nlink_record.
    destruct (fmt_plus_i_spec (delta_of base)) as (sign & ds & Heq & _ & _ & Hlen).
    { pose proof (s32_range (i_nlink (vfs_inode (nodes w h))
                             - i_nlink (real w (d_inode base)))) as Hr.
      unfold INT_MIN, INT_MAX. fold (delta_of base) in Hr. lia. }
    rewrite Heq. cbn [length] in *. lia. }
  assert (Hcommon : forall (sl : bool) (base : dentry),
             ovl_set_nlink_common E d (Some base) (if sl then "L%+i" else "U%+i") w
             = store (nlink_record sl (delta_of base))).
  { intros sl base. unfold ovl_set_nlink_common, ovl_dentry_upper, snprintf.
    monad_unfold. rewrite Hd.
    cbn -[format_int list_ascii_of_string Z.of_nat Z.to_nat firstn length ovl_do_setxattr
          Z.land Z.lor Z.lnot Z.testbit Z.shiftl Z.pow Z.modulo Z.div].
    rewrite format_int_nlink. fold (delta_of base).
    destruct (Z.leb_spec 13 (Z.of_nat (length (nlink_record sl (delta_of base)))))
      as [Hbad|_]; [specialize (Hfit sl base); lia|].
    rewrite Hup.
    cbn -[format_int list_ascii_of_string Z.of_nat Z.to_nat firstn length nlink_record
          ovl_do_setxattr Z.land Z.lor Z.lnot Z.testbit Z.shiftl Z.pow Z.modulo Z.div].
    unfold store. f_equal.
    apply firstn_all2. specialize (Hfit sl base). lia. }
  split; [exact Hfit|]. split.
  - unfold ovl_set_nlink_upper, ovl_dentry_upper. monad_unfold. rewrite Hd.
    cbn -[ovl_set_nlink_common nlink_record]. rewrite Hup. exact (Hcommon false up).
  - intros lo Hlo. unfold ovl_set_nlink_lower. rewrite Hlo. exact (Hcommon true lo).
Qed.

(** An instance: node 6 has five links and its writable object three, so
    the record relative to the writable object is ["U+2"]. *)
Lemma ovl_set_nlink_record_fits_witness :
  ovl_set_nlink_upper quiet_env (sample_dentry 6 31 false) nlink_world
  = ovl_do_setxattr quiet_env (mkDentry 30 false) OVL_XATTR_NLINK
      (list_ascii_of_string "U+2") 3 0 nlink_world.
Proof.
  destruct (ovl_set_nlink_record_fits quiet_env (sample_dentry 6 31 false) nlink_world 6
              (mkDentry 30 false) eq_refl eq_refl) as (_ & Hup & _).
  exact Hup.
Defined.

(** X13.  [ovl_get_nlink] always returns, with the fallback or with a
    count between 1 and [INT_MAX], and changes no node and no underlying
    object. *)
Theorem ovl_get_nlink_positive_or_fallback :
  forall (E : env) (lowerdentry upperdentry : option dentry) (fallback : Z) (w : world),
    exists (n : Z) (w' : world),
      ovl_get_nlink E lowerdentry upperdentry fallback w = Some (n, w')
      /\ (n = fallback \/ 0 < n <= INT_MAX)
      /\ real w' = real w /\ nodes w' = nodes w.
Proof.
  intros E [lo|] [up|] fallback w;
    try (eexists _, _; split; [reflexivity|]; split; [left; reflexivity|]; split; reflexivity).
  destruct (Z.eq_dec (i_nlink (real w (d_inode lo))) 1) as [H1|H1].
  - unfold ovl_get_nlink. monad_unfold. apply Z.eqb_eq in H1. rewrite H1.
    eexists _, _. split; [reflexivity|]. split; [left; reflexivity|]. split; reflexivity.
  - destruct (ovl_get_nlink_judged E lo up fallback w H1)
      as (read & w1 & w' & _ & _ & Hrun & Hr & Hn).
    rewrite Hrun. eexists _, _. split; [reflexivity|].
    split; [|split; assumption].
    destruct (judge_record read _ _) eqn:Hj; try (left; reflexivity).
    right. apply judge_record_well_formed in Hj. cbn [verdict_count].
    destruct Hj as (Hpos & Hc & _). split; [exact Hpos|].
    rewrite Hc. pose proof (s32_range ((if selector_lower
                                        then i_nlink (real w (d_inode lo))
                                        else i_nlink (real w (d_inode up))) + delta)).
    unfold INT_MAX. lia.
Qed.

(** ** Node identity resolver: the cache *)

(** Reading the link-count record and the impurity marker changes nothing
    but the trace. *)
Lemma ovl_get_nlink_trace_only (E : env) (lo up : option dentry) (fallback n : Z)
    (w w' : world) :
  ovl_get_nlink E lo up fallback w = Some (n, w') -> w' = set_trace (trace w') w.
Proof.
  intros H. destruct lo as [lo|], up as [up|];
    try (injection H as _ <-; destruct w; reflexivity).
  unfold ovl_get_nlink, ovl_vfs_getxattr, vfs_getxattr, get_nlink_fail in H.
  monad_unfold.
  cbn -[kstrtoint c_str firstn skipn nth Z.to_nat] in H.
  repeat match type of H with
         | context [match ?x with _ => _ end] =>
           lazymatch x with
           | context [match _ with _ => _ end] => fail
           | _ => destruct x; cbn -[kstrtoint c_str firstn skipn nth Z.to_nat] in H;
                  try discriminate H
           end
         end;
    injection H as _ <-; destruct w; reflexivity.
Qed.

Lemma ovl_is_impuredir_trace_only (E : env) (u : dentry) (b : bool) (w w' : world) :
  ovl_is_impuredir E u w = Some (b, w') -> w' = set_trace (trace w') w.
Proof.
  intros H. unfold ovl_is_impuredir, vfs_getxattr in H. monad_unfold. run in H.
  repeat match type of H with
         | context [match ?x with _ => _ end] =>
           lazymatch x with
           | context [match _ with _ => _ end] => fail
           | _ => destruct x; run in H; try discriminate H
           end
         end;
    injection H as _ <-; destruct w; reflexivity.
Qed.

(** A run of an opaque step becomes a statement about its outcome. *)
Ltac name_outcome :=
  repeat match goal with
         | Hp : ?p = (_, _) |- _ => is_var p; subst p
         end.

Ltac only_trace lemma :=
  match goal with
  | Hx : _ = Some (_, ?w1) |- _ =>
    is_var w1;
    let Hw := fresh "Hw" in
    pose proof Hx as Hw; apply lemma in Hw;
    let t := fresh "t" in
    set (t := trace w1) in Hw; clearbody t; subst w1
  end.

Lemma land_clear_I_NEW (s : Z) : Z.land (Z.land s (Z.lnot I_NEW)) I_NEW = 0.
Proof. rewrite <- Z.land_assoc. change (Z.land (Z.lnot I_NEW) I_NEW) with 0. apply Z.land_0_r. Qed.

Local Opaque ovl_is_impuredir.

(** The tail of [ovl_get_inode]: what it makes of node [h]. *)
Lemma ovl_get_inode_fill_outcome (E : env) (h : handle) (ri : ptr)
    (upper lowerd : option dentry) (w w' : world) (r : Z + handle) :
  ovl_get_inode_fill E h ri upper lowerd w = Some (r, w') ->
  r = inr h
  /\ real w' = real w /\ icache w' = icache w /\ next_handle w' = next_handle w
  /\ (forall h', h' <> h -> nodes w' h' = nodes w h')
  /\ i_private (vfs_inode (nodes w' h)) = i_private (vfs_inode (nodes w h))
  /\ i_nlink (vfs_inode (nodes w' h)) = i_nlink (vfs_inode (nodes w h))
  /\ Z.land (i_state (vfs_inode (nodes w' h))) I_NEW = 0
  /\ __upperdentry (nodes w' h)
     = match upper with Some _ => upper | None => __upperdentry (nodes w h) end
  /\ lower (nodes w' h)
     = match lowerd with Some lo => Some (d_inode lo) | None => lower (nodes w h) end
  /\ i_ino (vfs_inode (nodes w' h)) = next_ino w
  /\ i_op (vfs_inode (nodes w' h)) = Some (ovl_inode_ops (i_mode (real w ri)))
  /\ exists rd, match upper with Some _ => upper | None => lowerd end = Some rd
                /\ i_mode (vfs_inode (nodes w' h)) = i_mode (real w (d_inode rd)).
Proof.
  intros H.
  unfold ovl_get_inode_fill, ovl_fill_inode, get_next_ino, ovl_inode_init, ovl_copyattr,
    unlock_new_inode in H.
  monad_unfold. run in H. unfold ovl_inode_ops.
  destruct upper as [u|], lowerd as [lo|]; run in H; try discriminate H;
    repeat (first [ progress name_outcome
                  | only_trace ovl_is_impuredir_trace_only; run in H
                  | split_run H ]);
    injection H; clear H; intros; subst r w'; run; clean_upd; run;
    rewrite ?upd_eq; run.
  all: repeat apply conj; try reflexivity;
    try (intros h' Hne; rewrite !upd_neq by exact Hne; reflexivity);
    try apply land_clear_I_NEW;
    try (apply Z.eqb_eq; assumption);
    try (eexists; split; reflexivity);
    unfold init_special_inode;
    repeat match goal with
           | Hk : (Z.land _ S_IFMT =? _) = _ |- _ =>
             first [rewrite Hk | apply Z.eqb_eq in Hk; rewrite Hk]; clear Hk
           end;
    try reflexivity;
    try (destruct (S_ISCHR _ || S_ISBLK _); reflexivity).
Qed.

Lemma ovl_hash_bylower_no_lower (h : ptr -> inode) (sb : super_block)
    (upper index : option dentry) :
  ovl_hash_bylower h sb upper None index = false.
Proof. reflexivity. Qed.

Local Opaque ovl_get_nlink ovl_get_inode_fill ovl_hash_bylower.

Ltac use_fill H :=
  apply ovl_get_inode_fill_outcome in H; run in H; rewrite ?upd_eq in H; run in H;
  let rd := fresh "rd" in
  destruct H as (Hr & Hreal & Hic & Hnh & Hoth & Hpriv & Hnl & Hst & Hup & Hlow & Hino
                 & Hop & rd & Hrd & Hmode);
  injection Hrd as <-.

(** What a resolution does, by the key it uses and what the cache holds
    for it. *)
Lemma ovl_get_inode_outcome (E : env) (d : ovl_dentry) (upperdentry index : option dentry)
    (w w' : world) (r : Z + handle) :
  ovl_get_inode E d upperdentry index w = Some (r, w') ->
  real w' = real w
  /\ match ovl_cache_key w d upperdentry index with
     | Some key =>
       match cache_lookup w key with
       | Some h =>
         if Z.land (i_state (vfs_inode (nodes w h))) I_NEW =? 0 then
           nodes w' = nodes w /\ icache w' = icache w /\ next_handle w' = next_handle w
           /\ r = if ovl_verify_inode (nodes w h) (ovl_dentry_lower d) upperdentry
                  then inr h else inl (- ESTALE)
         else r = inr h /\ icache w' = icache w /\ next_handle w' = next_handle w
       | None =>
         (r = inl (- ENOMEM)
          /\ nodes w' = nodes w /\ icache w' = icache w /\ next_handle w' = next_handle w)
         \/ (r = inr (next_handle w)
             /\ icache w' = next_handle w :: icache w
             /\ next_handle w' = next_handle w + 1
             /\ (forall h', h' <> next_handle w -> nodes w' h' = nodes w h')
             /\ exists nlink ri,
                  ovl_realinode d upperdentry = Some ri
                  /\ set_up w w' (next_handle w) d upperdentry (Some key) nlink
                  /\ if S_ISDIR (i_mode (real w ri)) then nlink = 1
                     else exists w1 w2,
                         real w1 = real w
                         /\ ovl_get_nlink E (ovl_dentry_lower d) upperdentry
                              (i_nlink (real w ri)) w1 = Some (nlink, w2))
       end
     | None =>
       (r = inl (- ENOMEM)
        /\ nodes w' = nodes w /\ icache w' = icache w /\ next_handle w' = next_handle w)
       \/ (r = inr (next_handle w)
           /\ icache w' = icache w
           /\ next_handle w' = next_handle w + 1
           /\ (forall h', h' <> next_handle w -> nodes w' h' = nodes w h')
           /\ set_up w w' (next_handle w) d upperdentry None 1)
     end.
Proof.
  intros H.
  unfold ovl_get_inode, iget5_locked, new_inode, set_nlink, iput, dput in H.
  unfold ovl_cache_key, cache_lookup, ovl_realinode, set_up.
  monad_unfold.
  destruct upperdentry as [u|], (ovl_dentry_lower d) as [lo|] eqn:Hlo;
    rewrite ?ovl_hash_bylower_no_lower in *;
    run in H; run; try discriminate H;
    repeat (first [ progress name_outcome
                  | rewrite upd_eq in H; run in H
                  | only_trace ovl_get_nlink_trace_only; run in H; run
                  | split_run H; run ]);
    try (injection H; clear H; intros; subst r w'; run;
         first [ repeat split; reflexivity
               | split; [reflexivity|]; left; repeat split; reflexivity ]).
  all: use_fill H; rewrite ?Hlo.
  all: (split; [assumption|]).
  all: try (repeat split; assumption).
  all: right; repeat (split; [assumption|]);
    (split; [intros h' Hne; rewrite Hoth by exact Hne;
             rewrite ?upd_neq by exact Hne; reflexivity|]).
  all: try (repeat split; try assumption; eexists; repeat split; eassumption).
  all: do 2 eexists; (split; [reflexivity|]);
    (split; [repeat split; try eassumption; eexists; repeat split; eassumption|]);
    match goal with Hd : S_ISDIR _ = _ |- _ => rewrite Hd end;
    first [assumption | rewrite Hnl; do 2 eexists; split; [|eassumption]; reflexivity].
Qed.

Lemma ovl_cache_key_real (w w' : world) (d : ovl_dentry) (upperdentry index : option dentry) :
  real w' = real w ->
  ovl_cache_key w' d upperdentry index = ovl_cache_key w d upperdentry index.
Proof. intros H. unfold ovl_cache_key. rewrite H. reflexivity. Qed.

(** The key is the inode of one of the two objects of the lookup. *)
Lemma ovl_cache_key_is_reference (w : world) (d : ovl_dentry)
    (upperdentry index : option dentry) (key : ptr) :
  ovl_cache_key w d upperdentry index = Some key ->
  (exists u, upperdentry = Some u /\ d_inode u = key)
  \/ (exists lo, ovl_dentry_lower d = Some lo /\ d_inode lo = key).
Proof.
  unfold ovl_cache_key. intros H.
  destruct (nonnull upperdentry || _); [|discriminate H].
  destruct (ovl_hash_bylower _ _ _ _ _).
  - destruct (ovl_dentry_lower d) as [lo|]; [|discriminate H].
    injection H as <-. right. eauto.
  - destruct upperdentry as [u|]; [|discriminate H].
    injection H as <-. left. eauto.
Qed.

Lemma cache_lookup_found (w : world) (key : ptr) (h : handle) :
  cache_lookup w key = Some h ->
  In h (icache w) /\ i_private (vfs_inode (nodes w h)) = Some key.
Proof.
  unfold cache_lookup. intros H. apply find_some in H. destruct H as [Hin Ht].
  split; [exact Hin|]. unfold ovl_inode_test in Ht. apply ptr_eqb_eq in Ht. exact Ht.
Qed.

Lemma cache_lookup_missing (w : world) (key : ptr) (h : handle) :
  cache_lookup w key = None ->
  In h (icache w) -> i_private (vfs_inode (nodes w h)) <> Some key.
Proof.
  unfold cache_lookup. intros H Hin.
  pose proof (find_none _ _ H h Hin) as Ht. unfold ovl_inode_test in Ht.
  apply ptr_eqb_neq in Ht. exact Ht.
Qed.

(** A node that [ovl_get_inode] has set up passes the verification
    against the objects it was set up from. *)
Lemma set_up_verifies (w w' : world) (h : handle) (d : ovl_dentry)
    (upperdentry : option dentry) (key : option ptr) (nlink : Z) :
  set_up w w' h d upperdentry key nlink ->
  ovl_verify_inode (nodes w' h) (ovl_dentry_lower d) upperdentry = true.
Proof.
  unfold set_up. intros (_ & _ & _ & Hup & Hlow & _).
  unfold ovl_verify_inode, ovl_inode_lower, ovl_inode_upper. rewrite Hup, Hlow.
  destruct (ovl_dentry_lower d) as [lo|], upperdentry as [u|];
    cbn [nonnull negb andb ptr_eqb]; rewrite ?andb_false_r, ?Z.eqb_refl; reflexivity.
Qed.

Lemma set_up_keyed (w w' : world) (h : handle) (d : ovl_dentry)
    (upperdentry index : option dentry) (key : ptr) (nlink : Z) :
  ovl_cache_key w d upperdentry index = Some key ->
  set_up w w' h d upperdentry (Some key) nlink ->
  keyed (nodes w' h).
Proof.
  intros Hkey (Hpriv & _ & _ & Hup & Hlow & _).
  exists key. split; [exact Hpriv|].
  unfold ovl_inode_upper, ovl_inode_lower. rewrite Hup, Hlow.
  destruct (ovl_cache_key_is_reference _ _ _ _ _ Hkey) as [(u & -> & <-)|(lo & -> & <-)];
    [left | right]; reflexivity.
Qed.

(** X14.  [ovl_get_inode] keeps the identity cache in order: if every
    cached node was allocated, is keyed by one of its own references and
    is not marked new, and no two cached nodes have the same key, the same
    holds after the call, whatever it returns. *)
Theorem ovl_get_inode_keeps_cache :
  forall (E : env) (d : ovl_dentry) (upperdentry index : option dentry) (w w' : world)
         (r : Z + handle),
    cache_ok w ->
    ovl_get_inode E d upperdentry index w = Some (r, w') ->
    cache_ok w'.
Proof.
  intros E d upperdentry index w w' r [Hall Huniq] H.
  apply ovl_get_inode_outcome in H. destruct H as [_ H].
  assert (Hsame : nodes w' = nodes w -> icache w' = icache w ->
                  next_handle w' = next_handle w -> cache_ok w').
  { intros Hn Hi Hh. unfold cache_ok. rewrite Hn, Hi, Hh. split; assumption. }
  destruct (ovl_cache_key w d upperdentry index) as [key|] eqn:Hkey.
  - destruct (cache_lookup w key) as [h|] eqn:Hfind.
    + destruct (cache_lookup_found _ _ _ Hfind) as [Hin _].
      destruct (Hall h Hin) as (_ & _ & Hst). apply Z.eqb_eq in Hst. rewrite Hst in H.
      destruct H as (Hn & Hi & Hh & _). auto.
    + destruct H as [(_ & Hn & Hi & Hh)|(_ & Hi & Hh & Hoth & nlink & ri & _ & Hset & _)];
        [auto|].
      assert (Hold : forall h, In h (icache w) -> nodes w' h = nodes w h).
      { intros h Hin. apply Hoth. destruct (Hall h Hin) as [Hlt _]. lia. }
      split.
      * intros h Hin. rewrite Hi in Hin. rewrite Hh.
        destruct Hin as [<-|Hin].
        -- split; [lia|]. split; [eapply set_up_keyed; eassumption|].
           destruct Hset as (_ & _ & Hst & _). exact Hst.
        -- rewrite (Hold h Hin). destruct (Hall h Hin) as (Hlt & Hk & Hst).
           split; [lia|]. split; assumption.
      * intros h1 h2 Hin1 Hin2. rewrite Hi in Hin1, Hin2.
        destruct Hset as (Hpriv & _).
        destruct Hin1 as [<-|Hin1], Hin2 as [<-|Hin2]; [reflexivity| | |].
        -- rewrite Hpriv, (Hold h2 Hin2). intros Heq. symmetry in Heq.
           exfalso. exact (cache_lookup_missing _ _ _ Hfind Hin2 Heq).
        -- rewrite Hpriv, (Hold h1 Hin1). intros Heq.
           exfalso. exact (cache_lookup_missing _ _ _ Hfind Hin1 Heq).
        -- rewrite (Hold h1 Hin1), (Hold h2 Hin2). apply Huniq; assumption.
  - destruct H as [(_ & Hn & Hi & Hh)|(_ & Hi & Hh & Hoth & _)]; [auto|].
    assert (Hold : forall h, In h (icache w) -> nodes w' h = nodes w h).
    { intros h Hin. apply Hoth. destruct (Hall h Hin) as [Hlt _]. lia. }
    split.
    + intros h Hin. rewrite Hi in Hin. rewrite Hh, (Hold h Hin).
      destruct (Hall h Hin) as (Hlt & Hk & Hst). split; [lia|]. split; assumption.
    + intros h1 h2 Hin1 Hin2. rewrite Hi in Hin1, Hin2.
      rewrite (Hold h1 Hin1), (Hold h2 Hin2). apply Huniq; assumption.
Qed.

(** A lookup that finds a node which is not marked new returns it, or
    [-ESTALE] if it fails the verification, and changes no node. *)
Lemma ovl_get_inode_hit (E : env) (d : ovl_dentry) (upperdentry index : option dentry)
    (w : world) (key : ptr) (h : handle) :
  ovl_cache_key w d upperdentry index = Some key ->
  cache_lookup w key = Some h ->
  Z.land (i_state (vfs_inode (nodes w h))) I_NEW = 0 ->
  exists w' : world,
    ovl_get_inode E d upperdentry index w
    = Some (if ovl_verify_inode (nodes w h) (ovl_dentry_lower d) upperdentry
            then inr h else inl (- ESTALE), w')
    /\ nodes w' = nodes w /\ icache w' = icache w /\ real w' = real w
    /\ next_handle w' = next_handle w.
Proof.
  unfold ovl_cache_key, cache_lookup. intros Hkey Hfind Hst.
  apply Z.eqb_eq in Hst.
  unfold ovl_get_inode, iget5_locked, iput, dput. monad_unfold.
  destruct (nonnull upperdentry || _) eqn:Hhashed; [|discriminate Hkey].
  destruct upperdentry as [u|], (ovl_dentry_lower d) as [lo|] eqn:Hlo;
    rewrite ?ovl_hash_bylower_no_lower in *; run; run in Hkey; run in Hhashed;
    try discriminate Hkey; try discriminate Hhashed;
    try match goal with
        | |- context [ovl_hash_bylower ?a ?b ?c ?e ?f] =>
          destruct (ovl_hash_bylower a b c e f)
        end;
    run; run in Hkey; try discriminate Hkey; try discriminate Hhashed;
    injection Hkey as <-; rewrite Hfind; run; rewrite Hst; run;
    destruct (ovl_verify_inode _ _ _); run; eexists; repeat split.
Qed.

(** X15.  With the cache in order, a lookup that uses a key and returns a
    node leaves that node in the cache under the key, and the same lookup
    made again returns the same node and changes no node. *)
Theorem ovl_get_inode_again :
  forall (E : env) (d : ovl_dentry) (upperdentry index : option dentry) (w w1 : world)
         (key : ptr) (h : handle),
    cache_ok w ->
    ovl_cache_key w d upperdentry index = Some key ->
    ovl_get_inode E d upperdentry index w = Some (inr h, w1) ->
    cache_lookup w1 key = Some h
    /\ exists w2 : world,
         ovl_get_inode E d upperdentry index w1 = Some (inr h, w2)
         /\ nodes w2 = nodes w1 /\ icache w2 = icache w1.
Proof.
  intros E d upperdentry index w w1 key h [Hall _] Hkey H.
  apply ovl_get_inode_outcome in H. destruct H as [Hreal H]. rewrite Hkey in H.
  assert (Hkey1 : ovl_cache_key w1 d upperdentry index = Some key)
    by (rewrite (ovl_cache_key_real _ _ _ _ _ Hreal); exact Hkey).
  assert (Hgoal : cache_lookup w1 key = Some h ->
                  Z.land (i_state (vfs_inode (nodes w1 h))) I_NEW = 0 ->
                  ovl_verify_inode (nodes w1 h) (ovl_dentry_lower d) upperdentry = true ->
                  cache_lookup w1 key = Some h
                  /\ exists w2 : world,
                       ovl_get_inode E d upperdentry index w1 = Some (inr h, w2)
                       /\ nodes w2 = nodes w1 /\ icache w2 = icache w1).
  { intros Hfind Hst Hver. split; [exact Hfind|].
    destruct (ovl_get_inode_hit E d upperdentry index w1 key h Hkey1 Hfind Hst)
      as (w2 & Hrun & Hn & Hi & _).
    rewrite Hver in Hrun. exists w2. auto. }
  destruct (cache_lookup w key) as [h0|] eqn:Hfind.
  - destruct (cache_lookup_found _ _ _ Hfind) as [Hin _].
    destruct (Hall h0 Hin) as (_ & _ & Hst).
    pose proof Hst as Hst'. apply Z.eqb_eq in Hst'. rewrite Hst' in H.
    destruct H as (Hn & Hi & _ & Hr).
    destruct (ovl_verify_inode (nodes w h0) _ _) eqn:Hver; [|discriminate Hr].
    injection Hr as Hr; subst h.
    apply Hgoal.
    + unfold cache_lookup in *. rewrite Hn, Hi. exact Hfind.
    + rewrite Hn. exact Hst.
    + rewrite Hn. exact Hver.
  - destruct H as [(Hr & _)|(Hr & Hi & _ & _ & nlink & ri & _ & Hset & _)];
      [discriminate Hr|].
    injection Hr as Hr; subst h.
    apply Hgoal.
    + unfold cache_lookup, ovl_inode_test. rewrite Hi. cbn [find].
      destruct Hset as (Hpriv & _). rewrite Hpriv. cbn [ptr_eqb].
      rewrite Z.eqb_refl. reflexivity.
    + destruct Hset as (_ & _ & Hst & _). exact Hst.
    + eapply set_up_verifies. exact Hset.
Qed.

(** X16.  A lookup that fails changes no node, no underlying object and
    not the cache.  The error is [-ENOMEM], or [-ESTALE] when the cached
    node found under the key fails the verification. *)
Theorem ovl_get_inode_error :
  forall (E : env) (d : ovl_dentry) (upperdentry index : option dentry) (w w' : world)
         (e : Z),
    ovl_get_inode E d upperdentry index w = Some (inl e, w') ->
    nodes w' = nodes w /\ icache w' = icache w /\ real w' = real w
    /\ next_handle w' = next_handle w
    /\ (e = - ENOMEM
        \/ e = - ESTALE
           /\ exists (key : ptr) (h : handle),
                ovl_cache_key w d upperdentry index = Some key
                /\ cache_lookup w key = Some h
                /\ ovl_verify_inode (nodes w h) (ovl_dentry_lower d) upperdentry = false).
Proof.
  intros E d upperdentry index w w' e H.
  apply ovl_get_inode_outcome in H. destruct H as [Hreal H].
  destruct (ovl_cache_key w d upperdentry index) as [key|] eqn:Hkey.
  - destruct (cache_lookup w key) as [h|] eqn:Hfind.
    + destruct (Z.land (i_state (vfs_inode (nodes w h))) I_NEW =? 0).
      * destruct H as (Hn & Hi & Hh & Hr).
        destruct (ovl_verify_inode (nodes w h) _ _) eqn:Hver; [discriminate Hr|].
        injection Hr as ->. repeat (split; [assumption|]).
        right. split; [reflexivity|]. exists key, h. auto.
      * destruct H as (Hr & _). discriminate Hr.
    + destruct H as [(Hr & Hn & Hi & Hh)|(Hr & _)]; [|discriminate Hr].
      injection Hr as ->. repeat (split; [assumption|]). left. reflexivity.
  - destruct H as [(Hr & Hn & Hi & Hh)|(Hr & _)]; [|discriminate Hr].
    injection Hr as ->. repeat (split; [assumption|]). left. reflexivity.
Qed.

(** X17.  When the lookup uses no key (no writable object, and the
    read-only one is not to be hashed), the node it returns is new, is not
    entered into the cache, has no key and the link count 1 of a new inode;
    the same lookup made again returns another new node. *)
Theorem ovl_get_inode_unhashed :
  forall (E : env) (d : ovl_dentry) (upperdentry index : option dentry) (w w' : world)
         (h : handle),
    ovl_cache_key w d upperdentry index = None ->
    ovl_get_inode E d upperdentry index w = Some (inr h, w') ->
    h = next_handle w
    /\ icache w' = icache w
    /\ i_private (vfs_inode (nodes w' h)) = None
    /\ i_nlink (vfs_inode (nodes w' h)) = 1
    /\ (forall h', h' <> h -> nodes w' h' = nodes w h')
    /\ (forall (h2 : handle) (w2 : world),
          ovl_get_inode E d upperdentry index w' = Some (inr h2, w2) -> h2 = h + 1).
Proof.
  intros E d upperdentry index w w' h Hkey H.
  apply ovl_get_inode_outcome in H. destruct H as [Hreal H]. rewrite Hkey in H.
  destruct H as [(Hr & _)|(Hr & Hi & Hh & Hoth & Hset)]; [discriminate Hr|].
  injection Hr as ->.
  destruct Hset as (Hpriv & Hnl & _).
  repeat (split; [assumption || reflexivity|]).
  intros h2 w2 H2.
  apply ovl_get_inode_outcome in H2. destruct H2 as [_ H2].
  rewrite (ovl_cache_key_real _ _ _ _ _ Hreal), Hkey in H2.
  destruct H2 as [(Hr & _)|(Hr & _)]; [discriminate Hr|].
  injection Hr as ->. exact Hh.
Qed.

(** X18.  The node that a lookup makes on a cache miss: it is entered
    into the cache under the key, refers to the objects of the lookup, has
    the mode of the underlying inode and the operation table of its kind,
    and is no longer marked new.  A directory gets link count 1, any other
    node the count that [ovl_get_nlink] gives with the underlying count as
    fallback. *)
Theorem ovl_get_inode_new_node :
  forall (E : env) (d : ovl_dentry) (upperdentry index : option dentry) (w w' : world)
         (key : ptr) (h : handle),
    ovl_cache_key w d upperdentry index = Some key ->
    cache_lookup w key = None ->
    ovl_get_inode E d upperdentry index w = Some (inr h, w') ->
    exists ri : ptr,
      ovl_realinode d upperdentry = Some ri
      /\ h = next_handle w
      /\ icache w' = h :: icache w
      /\ i_private (vfs_inode (nodes w' h)) = Some key
      /\ __upperdentry (nodes w' h) = upperdentry
      /\ ovl_inode_lower (nodes w' h)
         = match ovl_dentry_lower d with Some lo => Some (d_inode lo) | None => None end
      /\ i_mode (vfs_inode (nodes w' h)) = i_mode (real w ri)
      /\ i_op (vfs_inode (nodes w' h)) = Some (ovl_inode_ops (i_mode (real w ri)))
      /\ Z.land (i_state (vfs_inode (nodes w' h))) I_NEW = 0
      /\ (S_ISDIR (i_mode (real w ri)) = true -> i_nlink (vfs_inode (nodes w' h)) = 1)
      /\ (S_ISDIR (i_mode (real w ri)) = false ->
          exists w1 w2 : world,
            real w1 = real w
            /\ ovl_get_nlink E (ovl_dentry_lower d) upperdentry (i_nlink (real w ri)) w1
               = Some (i_nlink (vfs_inode (nodes w' h)), w2)).
Proof.
  intros E d upperdentry index w w' key h Hkey Hfind H.
  apply ovl_get_inode_outcome in H. destruct H as [Hreal H]. rewrite Hkey, Hfind in H.
  destruct H as [(Hr & _)|(Hr & Hi & Hh & Hoth & nlink & ri & Hri & Hset & Hnl)];
    [discriminate Hr|].
  injection Hr as ->.
  destruct Hset as (Hpriv & Hn & Hst & Hup & Hlow & Hino & ri' & Hri' & Hmode & Hop).
  rewrite Hri in Hri'. injection Hri' as <-.
  exists ri. repeat (split; [assumption || reflexivity|]).
  split.
  - intros Hdir. rewrite Hdir in Hnl. rewrite Hn. exact Hnl.
  - intros Hdir. rewrite Hdir in Hnl. rewrite Hn. exact Hnl.
Qed.

Local Transparent ovl_get_nlink ovl_get_inode_fill ovl_hash_bylower ovl_is_impuredir.

(** The two sample caches are in order. *)
Lemma cache_ok_cached_world : cache_ok cached_world.
Proof.
  split.
  - intros h Hin. cbn [icache cached_world In] in Hin.
    destruct Hin as [<-|[<-|[]]];
      (split; [reflexivity|]); (split; [|reflexivity]);
      eexists; (split; [reflexivity|]); left; reflexivity.
  - intros h1 h2 Hin1 Hin2. cbn [icache cached_world In] in Hin1, Hin2.
    destruct Hin1 as [<-|[<-|[]]], Hin2 as [<-|[<-|[]]];
      intros Hk; try reflexivity; vm_compute in Hk; discriminate Hk.
Qed.

Lemma cache_ok_sample_world : cache_ok sample_world.
Proof. split; [intros h []|intros h1 h2 []]. Qed.

(** An instance: after a lookup that adds a node for the origin 10 to a
    cache of two nodes, the cache is in order. *)
Lemma ovl_get_inode_keeps_cache_witness :
  exists (r : Z + handle) (w' : world),
    ovl_get_inode quiet_env (sample_dentry 1 10 false) None None cached_world
    = Some (r, w')
    /\ cache_ok w'.
Proof.
  destruct (ovl_get_inode quiet_env (sample_dentry 1 10 false) None None cached_world)
    as [[r w']|] eqn:Hrun; [|vm_compute in Hrun; discriminate Hrun].
  exists r, w'. split; [reflexivity|].
  exact (ovl_get_inode_keeps_cache _ _ _ _ _ _ _ cache_ok_cached_world Hrun).
Defined.

(** An instance: the origin 10 is resolved to node 100, and again to node
    100. *)
Lemma ovl_get_inode_again_witness :
  exists (w1 w2 : world),
    ovl_get_inode quiet_env (sample_dentry 1 10 false) None None sample_world
    = Some (inr 100, w1)
    /\ ovl_get_inode quiet_env (sample_dentry 1 10 false) None None w1
       = Some (inr 100, w2).
Proof.
  destruct (ovl_get_inode quiet_env (sample_dentry 1 10 false) None None sample_world)
    as [[r w1]|] eqn:Hrun; [|vm_compute in Hrun; discriminate Hrun].
  assert (Hr : r = inr 100) by (vm_compute in Hrun; injection Hrun as <- _; reflexivity).
  subst r.
  destruct (ovl_get_inode_again quiet_env (sample_dentry 1 10 false) None None
              sample_world w1 10 100 cache_ok_sample_world eq_refl Hrun)
    as (_ & w2 & Hrun2 & _).
  exists w1, w2. split; [reflexivity | exact Hrun2].
Defined.

(** An instance: the cached directory node 3 is looked up without its
    origin; the lookup is stale and the cache is as before. *)
Lemma ovl_get_inode_error_witness :
  exists (w' : world),
    ovl_get_inode quiet_env (mkOvlDentry sample_sb None [])
      (Some (mkDentry 22 true)) None cached_world = Some (inl (- ESTALE), w')
    /\ nodes w' = nodes cached_world /\ icache w' = [3; 4].
Proof.
  destruct (ovl_get_inode quiet_env (mkOvlDentry sample_sb None [])
              (Some (mkDentry 22 true)) None cached_world)
    as [[r w']|] eqn:Hrun; [|vm_compute in Hrun; discriminate Hrun].
  assert (Hr : r = inl (- ESTALE))
    by (vm_compute in Hrun; injection Hrun as <- _; reflexivity).
  subst r. exists w'. split; [reflexivity|].
  destruct (ovl_get_inode_error _ _ _ _ _ _ _ Hrun) as (Hn & Hi & _).
  split; [exact Hn | exact Hi].
Defined.

(** An instance: on a mount without an index area the hard-linked origin
    10 gets a node of its own at every lookup: node 100, then node 101. *)
Lemma ovl_get_inode_unhashed_witness :
  exists (w1 w2 : world),
    ovl_get_inode quiet_env
      (mkOvlDentry noindex_sb None [mkPath (Some 2) (Some (mkDentry 10 false))])
      None None sample_world = Some (inr 100, w1)
    /\ icache w1 = []
    /\ ovl_get_inode quiet_env
         (mkOvlDentry noindex_sb None [mkPath (Some 2) (Some (mkDentry 10 false))])
         None None w1 = Some (inr 101, w2).
Proof.
  destruct (ovl_get_inode quiet_env
              (mkOvlDentry noindex_sb None [mkPath (Some 2) (Some (mkDentry 10 false))])
              None None sample_world)
    as [[r w1]|] eqn:Hrun; [|vm_compute in Hrun; discriminate Hrun].
  assert (Hr : r = inr 100) by (vm_compute in Hrun; injection Hrun as <- _; reflexivity).
  subst r.
  destruct (ovl_get_inode_unhashed quiet_env
              (mkOvlDentry noindex_sb None [mkPath (Some 2) (Some (mkDentry 10 false))])
              None None sample_world w1 100 eq_refl Hrun)
    as (_ & Hi & _ & _ & _ & Hnext).
  assert (Hex : exists r2 w2,
             ovl_get_inode quiet_env
               (mkOvlDentry noindex_sb None [mkPath (Some 2) (Some (mkDentry 10 false))])
               None None w1 = Some (r2, w2)).
  { pose proof Hrun as Hc. vm_compute in Hc. injection Hc as <-.
    eexists _, _. vm_compute. reflexivity. }
  destruct Hex as (r2 & w2 & Hrun2).
  destruct r2 as [e|h2].
  - exfalso. vm_compute in Hrun. injection Hrun as <-.
    vm_compute in Hrun2. discriminate Hrun2.
  - pose proof (Hnext h2 w2 Hrun2) as Hh. subst h2.
    exists w1, w2. split; [reflexivity|]. split; [exact Hi | exact Hrun2].
Defined.

(** An instance: the node made for the origin 10 is a regular file keyed
    by 10, with the two links of its origin. *)
Lemma ovl_get_inode_new_node_witness :
  exists (w' : world),
    ovl_get_inode quiet_env (sample_dentry 1 10 false) None None sample_world
    = Some (inr 100, w')
    /\ i_private (vfs_inode (nodes w' 100)) = Some 10
    /\ i_op (vfs_inode (nodes w' 100)) = Some ovl_file_inode_operations
    /\ ovl_inode_lower (nodes w' 100) = Some 10.
Proof.
  destruct (ovl_get_inode quiet_env (sample_dentry 1 10 false) None None sample_world)
    as [[r w']|] eqn:Hrun; [|vm_compute in Hrun; discriminate Hrun].
  assert (Hr : r = inr 100) by (vm_compute in Hrun; injection Hrun as <- _; reflexivity).
  subst r.
  destruct (ovl_get_inode_new_node quiet_env (sample_dentry 1 10 false) None None
              sample_world w' 10 100 eq_refl eq_refl Hrun)
    as (ri & Hri & _ & _ & Hpriv & _ & Hlow & _ & Hop & _).
  injection Hri as <-.
  exists w'. split; [reflexivity|]. split; [exact Hpriv|]. split; [exact Hop | exact Hlow].
Defined.

(** ** Node identity resolver and link-count record together *)

(** Decoding a record that the encoder can have written. *)
Lemma ovl_get_nlink_of_record (E : env) (lo up : dentry) (selector_lower : bool)
    (delta fallback : Z) (w : world) :
  i_nlink (real w (d_inode lo)) <> 1 ->
  i_xattrs (real w (d_inode up)) !! OVL_XATTR_NLINK
  = Some (nlink_record selector_lower delta) ->
  INT_MIN <= delta <= INT_MAX ->
  ~ fault E w (c_getxattr (d_inode up) OVL_XATTR_NLINK 12) < 0 ->
  let count := s32 ((if selector_lower then i_nlink (real w (d_inode lo))
                     else i_nlink (real w (d_inode up))) + delta) in
  exists w' : world,
    ovl_get_nlink E (Some lo) (Some up) fallback w
    = Some (if count <=? 0 then fallback else count, w').
Proof.
  intros Hguard Hstored Hdelta Hread count.
  destruct (judge_record_encoded selector_lower delta
              (i_nlink (real w (d_inode lo))) (i_nlink (real w (d_inode up))) Hdelta)
    as [Hlen Hjudge].
  destruct (ovl_get_nlink_judged E lo up fallback w Hguard)
    as (read & wr & w3 & Hget & _ & Hrun & _ & _).
  assert (Hreadv : read = (Z.of_nat (length (nlink_record selector_lower delta)),
                           nlink_record selector_lower delta)).
  { unfold ovl_vfs_getxattr, vfs_getxattr in Hget. monad_unfold.
    cbn -[nlink_record Z.of_nat length
          Z.land Z.lor Z.lnot Z.testbit Z.shiftl Z.pow Z.modulo Z.div] in Hget.
    destruct (Z.ltb_spec (fault E w (c_getxattr (d_inode up) OVL_XATTR_NLINK 12)) 0)
      as [Hneg|_]; [contradiction|].
    cbn -[nlink_record Z.of_nat length
          Z.land Z.lor Z.lnot Z.testbit Z.shiftl Z.pow Z.modulo Z.div] in Hget.
    rewrite Hstored in Hget.
    destruct (Z.ltb_spec 12 (Z.of_nat (length (nlink_record selector_lower delta))))
      as [Hbig|_]; [lia|].
    injection Hget as <- _. reflexivity. }
  exists w3. rewrite Hrun, Hreadv, Hjudge. fold count.
  destruct (count <=? 0); reflexivity.
Qed.

(** X19.  The link count survives the cache: once [ovl_set_nlink_upper]
    has stored the record of a node with a count between 1 and [INT_MAX],
    a lookup of the same objects that misses the cache makes a node with
    that count (for a non-directory whose origin has more than one link,
    when the attribute store answers). *)
Theorem ovl_get_inode_restores_nlink :
  forall (E : env) (d : ovl_dentry) (index : option dentry) (w0 w w' : world)
         (h0 h : handle) (u lo : dentry) (key : ptr),
    od_inode d = Some h0 ->
    __upperdentry (nodes w0 h0) = Some u ->
    ovl_dentry_lower d = Some lo ->
    ovl_set_nlink_upper E d w0 = Some (0, w) ->
    0 < i_nlink (vfs_inode (nodes w0 h0)) <= INT_MAX ->
    i_nlink (real w (d_inode lo)) <> 1 ->
    S_ISDIR (i_mode (real w (d_inode u))) = false ->
    (forall wx, ~ fault E wx (c_getxattr (d_inode u) OVL_XATTR_NLINK 12) < 0) ->
    ovl_cache_key w d (Some u) index = Some key ->
    cache_lookup w key = None ->
    ovl_get_inode E d (Some u) index w = Some (inr h, w') ->
    i_nlink (vfs_inode (nodes w' h)) = i_nlink (vfs_inode (nodes w0 h0)).
Proof.
  intros E d index w0 w w' h0 h u lo key Hd Hup Hlo Henc Hcount Hguard Hdir Hread
    Hkey Hfind Hrun.
  set (N := i_nlink (vfs_inode (nodes w0 h0))) in *.
  set (B := i_nlink (real w0 (d_inode u))) in *.
  assert (Hst : i_xattrs (real w (d_inode u)) !! OVL_XATTR_NLINK
                = Some (nlink_record false (s32 (N - B)))
                /\ forall p, i_nlink (real w p) = i_nlink (real w0 p)).
  { unfold ovl_set_nlink_upper, ovl_dentry_upper in Henc. monad_unfold.
    rewrite Hd in Henc. cbn -[ovl_set_nlink_common] in Henc. rewrite Hup in Henc.
    destruct (ovl_set_nlink_common_stores E d u false w0 w h0 u Hd Hup Henc)
      as (Hx & Hn & _).
    split; assumption. }
  destruct Hst as [Hstored Hnl].
  apply ovl_get_inode_outcome in Hrun. destruct Hrun as [_ Hrun].
  rewrite Hkey, Hfind in Hrun.
  destruct Hrun as [(Hr & _)|(Hr & _ & _ & _ & nlink & ri & Hri & Hset & Hn)];
    [discriminate Hr|].
  injection Hr as Hr. subst h.
  injection Hri as <-. rewrite Hdir, Hlo in Hn.
  destruct Hn as (w1 & w2 & Hreal & Hdec).
  destruct Hset as (_ & Hnode & _). rewrite Hnode.
  assert (Hdelta : INT_MIN <= s32 (N - B) <= INT_MAX).
  { pose proof (s32_range (N - B)). unfold INT_MIN, INT_MAX. lia. }
  destruct (ovl_get_nlink_of_record E lo u false (s32 (N - B))
              (i_nlink (real w (d_inode u))) w1) as (w3 & Hdec').
  - rewrite Hreal. exact Hguard.
  - rewrite Hreal. exact Hstored.
  - exact Hdelta.
  - apply Hread.
  - rewrite Hdec' in Hdec. injection Hdec as Hv _. rewrite <- Hv.
    rewrite Hreal, Hnl. fold B. rewrite s32_add_r.
    replace (B + (N - B)) with N by lia.
    rewrite s32_small by (unfold INT_MAX in Hcount; lia).
    destruct (Z.leb_spec N 0) as [Hle|_]; [lia | reflexivity].
Qed.

(** An instance: node 6, with five links, writes its record; a lookup in
    an empty cache makes node 100 with five links. *)
Lemma ovl_get_inode_restores_nlink_witness :
  exists (w w' : world),
    ovl_set_nlink_upper quiet_env (sample_dentry 6 31 false) nlink_world = Some (0, w)
    /\ ovl_get_inode quiet_env (sample_dentry 6 31 false) (Some (mkDentry 30 false)) None w
       = Some (inr 100, w')
    /\ i_nlink (vfs_inode (nodes w' 100)) = 5.
Proof.
  destruct (ovl_set_nlink_upper quiet_env (sample_dentry 6 31 false) nlink_world)
    as [[err w]|] eqn:Henc; [|vm_compute in Henc; discriminate Henc].
  assert (Herr : err = 0) by (vm_compute in Henc; injection Henc as <- _; reflexivity).
  subst err.
  assert (Hw : exists r w',
             ovl_get_inode quiet_env (sample_dentry 6 31 false) (Some (mkDentry 30 false))
               None w = Some (r, w') /\ r = inr 100).
  { pose proof Henc as Hc. vm_compute in Hc. injection Hc as <-.
    eexists _, _. split; [vm_compute; reflexivity | reflexivity]. }
  destruct Hw as (r & w' & Hrun & ->).
  exists w, w'. split; [reflexivity|]. split; [exact Hrun|].
  refine (ovl_get_inode_restores_nlink quiet_env (sample_dentry 6 31 false) None
            nlink_world w w' 6 100 (mkDentry 30 false) (mkDentry 31 false) 30
            eq_refl eq_refl eq_refl Henc _ _ _ _ _ _ Hrun).
  - vm_compute. split; [reflexivity | discriminate].
  - pose proof Henc as Hc. vm_compute in Hc. injection Hc as <-. vm_compute. discriminate.
  - pose proof Henc as Hc. vm_compute in Hc. injection Hc as <-. reflexivity.
  - intros wx H. vm_compute in H. discriminate H.
  - pose proof Henc as Hc. vm_compute in Hc. injection Hc as <-. reflexivity.
  - pose proof Henc as Hc. vm_compute in Hc. injection Hc as <-. reflexivity.
Defined.

(** ** Open, access time, links and ACLs *)

(** [OPEN_FMODE] turns the access mode into [FMODE_WRITE] exactly for
    [O_WRONLY] and [O_RDWR]. *)
Lemma OPEN_FMODE_write (oflags : Z) :
  (Z.land (OPEN_FMODE oflags) FMODE_WRITE =? 0)
  = negb ((Z.land oflags O_ACCMODE =? O_WRONLY) || (Z.land oflags O_ACCMODE =? O_RDWR)).
Proof.
  unfold OPEN_FMODE, FMODE_WRITE, O_ACCMODE, O_WRONLY, O_RDWR, __FMODE_NONOTIFY.
  rewrite Z.land_lor_distr_l, <- (Z.land_assoc oflags).
  change (Z.land 67108864 2) with 0. rewrite Z.land_0_r, Z.lor_0_r.
  change 3 with (Z.ones 2). rewrite !Z.land_ones by lia.
  change (2 ^ 2) with 4.
  rewrite Zplus_mod.
  assert (Hm : 0 <= oflags mod 4 < 4) by (apply Z.mod_pos_bound; lia).
  assert (Hc : oflags mod 4 = 0 \/ oflags mod 4 = 1 \/ oflags mod 4 = 2 \/ oflags mod 4 = 3)
    by lia.
  destruct Hc as [->|[->|[->| ->]]]; reflexivity.
Qed.

(** The three tests of [ovl_open_need_copy_up] as one boolean. *)
Lemma ovl_open_need_copy_up_value (V : vfs) (d : ovl_dentry) (oflags : Z) (w : world)
    (h : handle) :
  od_inode d = Some h ->
  ovl_open_need_copy_up V d oflags w
  = Some (negb (nonnull (__upperdentry (nodes w h)) && has_upper_alias V d)
          && negb (special_file (i_mode (vfs_inode (nodes w h))))
          && open_for_write oflags, w).
Proof.
  intros Hd.
  unfold ovl_open_need_copy_up, ovl_dentry_upper, open_for_write. monad_unfold.
  rewrite Hd. run. rewrite OPEN_FMODE_write.
  destruct (nonnull (__upperdentry (nodes w h)) && has_upper_alias V d); [reflexivity|].
  destruct (special_file _); [reflexivity|]. run.
  destruct ((Z.land oflags O_ACCMODE =? O_WRONLY) || (Z.land oflags O_ACCMODE =? O_RDWR));
    run; [reflexivity|].
  destruct (Z.land oflags O_TRUNC =? 0); reflexivity.
Qed.

(** X20.  [ovl_open_need_copy_up] asks for promotion exactly when the
    dentry has no writable object with an alias in the writable layer, the
    node is not a special file, and the open is for writing: access mode
    [O_WRONLY] or [O_RDWR], or [O_TRUNC]. *)
Theorem ovl_open_need_copy_up_spec :
  forall (V : vfs) (d : ovl_dentry) (oflags : Z) (w : world) (h : handle),
    od_inode d = Some h ->
    ovl_open_need_copy_up V d oflags w
    = Some (negb (nonnull (__upperdentry (nodes w h)) && has_upper_alias V d)
            && negb (special_file (i_mode (vfs_inode (nodes w h))))
            && open_for_write oflags, w).
Proof. intros V d oflags w h Hd. exact (ovl_open_need_copy_up_value V d oflags w h Hd). Qed.

(** An instance: opening node 1 for reading needs no promotion, opening
    it for writing does. *)
Lemma ovl_open_need_copy_up_spec_witness :
  ovl_open_need_copy_up sample_vfs (sample_dentry 1 10 false) O_RDONLY sample_world
  = Some (false, sample_world)
  /\ ovl_open_need_copy_up sample_vfs (sample_dentry 1 10 false) O_WRONLY sample_world
     = Some (true, sample_world).
Proof.
  split.
  - rewrite (ovl_open_need_copy_up_spec sample_vfs (sample_dentry 1 10 false) O_RDONLY
               sample_world 1 eq_refl). reflexivity.
  - rewrite (ovl_open_need_copy_up_spec sample_vfs (sample_dentry 1 10 false) O_WRONLY
               sample_world 1 eq_refl). reflexivity.
Defined.

(** X21.  [ovl_open_maybe_copy_up] does nothing at all and returns 0 when
    no promotion is needed.  When one is needed, success leaves the node
    with a writable object, and failure leaves the nodes and the
    underlying objects as they were.  The node's cached attributes and all
    other nodes are never touched. *)
Theorem ovl_open_maybe_copy_up_outcome :
  forall (E : env) (V : vfs) (d : ovl_dentry) (file_flags : Z) (w w' : world)
         (h : handle) (err : Z),
    od_inode d = Some h ->
    ovl_open_maybe_copy_up E V d file_flags w = Some (err, w') ->
    let need :=
      negb (nonnull (__upperdentry (nodes w h)) && has_upper_alias V d)
      && negb (special_file (i_mode (vfs_inode (nodes w h))))
      && open_for_write file_flags in
    (need = false -> err = 0 /\ w' = w)
    /\ (need = true -> err = 0 -> exists u, __upperdentry (nodes w' h) = Some u)
    /\ (need = true -> err <> 0 -> nodes w' = nodes w /\ real w' = real w)
    /\ (forall h', h' <> h -> nodes w' h' = nodes w h')
    /\ vfs_inode (nodes w' h) = vfs_inode (nodes w h).
Proof.
  intros E V d file_flags w w' h err Hd H need.
  unfold ovl_open_maybe_copy_up in H. unfold bind at 1 in H.
  rewrite (ovl_open_need_copy_up_value V d file_flags w h Hd) in H. fold need in H.
  destruct need.
  - unfold ovl_copy_up_flags, ovl_want_write, ovl_copy_up, ovl_drop_write in H.
    monad_unfold. rewrite Hd in H. run in H.
    repeat split_run H; injection H; clear H; intros; subst w' err;
      (split; [discriminate|]); run; clean_upd;
      (split; [intros _ He; try failed_is_not_zero; try discriminate He;
               eexists; first [eassumption | reflexivity]|]);
      (split; [intros _ He; try (exfalso; apply He; reflexivity); split; reflexivity|]);
      (split; [intros h' Hne; rewrite ?upd_neq by exact Hne; reflexivity|]);
      reflexivity.
  - injection H as <- <-.
    split; [intros _; split; reflexivity|].
    split; [discriminate|]. split; [discriminate|].
    split; reflexivity.
Qed.

(** An instance: opening node 1 for writing promotes it. *)
Lemma ovl_open_maybe_copy_up_outcome_witness :
  exists (w' : world) (u : dentry),
    ovl_open_maybe_copy_up quiet_env sample_vfs (sample_dentry 1 10 false) O_WRONLY
      sample_world = Some (0, w')
    /\ __upperdentry (nodes w' 1) = Some u.
Proof.
  destruct (ovl_open_maybe_copy_up quiet_env sample_vfs (sample_dentry 1 10 false)
              O_WRONLY sample_world)
    as [[err w']|] eqn:Hrun; [|vm_compute in Hrun; discriminate Hrun].
  assert (Herr : err = 0) by (vm_compute in Hrun; injection Hrun as <- _; reflexivity).
  subst err.
  destruct (ovl_open_maybe_copy_up_outcome quiet_env sample_vfs
              (sample_dentry 1 10 false) O_WRONLY sample_world w' 1 0 eq_refl Hrun)
    as (_ & Hup & _).
  destruct (Hup eq_refl eq_refl) as (u & Hu).
  exists w', u. split; [reflexivity | exact Hu].
Defined.

(** X22.  [ovl_update_time] always returns 0 and ignores the time it is
    given.  Without [S_ATIME], without an alias or without a writable
    object it changes nothing; otherwise the writable object is touched
    and the node's access time becomes that object's, the rest of the node
    staying as it was. *)
Theorem ovl_update_time_from_upper :
  forall (V : vfs) (inode : handle) (ts uflags : Z) (w w' : world) (r : Z),
    ovl_update_time V inode ts uflags w = Some (r, w') ->
    r = 0
    /\ (forall h', h' <> inode -> nodes w' h' = nodes w h')
    /\ (Z.land uflags S_ATIME = 0 \/ find_any_alias V w inode = None -> w' = w)
    /\ (forall (alias : ovl_dentry) (ha : handle),
          Z.land uflags S_ATIME <> 0 ->
          find_any_alias V w inode = Some alias ->
          od_inode alias = Some ha ->
          match __upperdentry (nodes w ha) with
          | None => w' = w
          | Some u =>
            real w' = touch_atime_real V w u
            /\ vfs_inode (nodes w' inode)
               = set_i_atime (i_atime (real w' (d_inode u))) (vfs_inode (nodes w inode))
            /\ __upperdentry (nodes w' inode) = __upperdentry (nodes w inode)
            /\ lower (nodes w' inode) = lower (nodes w inode)
          end).
Proof.
  intros V inode ts uflags w w' r H.
  unfold ovl_update_time, ovl_path_upper, ovl_dentry_upper, touch_atime in H.
  monad_unfold.
  destruct (Z.eqb_spec (Z.land uflags S_ATIME) 0) as [Hz|Hnz].
  { injection H as <- <-. split; [reflexivity|]. split; [reflexivity|].
    split; [reflexivity|]. intros alias ha Hne. contradiction. }
  destruct (find_any_alias V w inode) as [alias|] eqn:Halias.
  2:{ injection H as <- <-. split; [reflexivity|]. split; [reflexivity|].
      split; [reflexivity|]. intros alias ha _ Hc. discriminate Hc. }
  run in H.
  destruct (od_inode alias) as [ha|] eqn:Hha; [|discriminate H]. run in H.
  destruct (__upperdentry (nodes w ha)) as [u|] eqn:Hu; run in H;
    injection H as <- <-; run;
    (split; [reflexivity|]);
    (split; [intros h' Hne; rewrite ?upd_neq by exact Hne; reflexivity|]);
    (split; [intros [Hc|Hc]; [contradiction | discriminate Hc]|]);
    intros alias' ha' _ Ha Hh; injection Ha as <-; rewrite Hha in Hh;
    injection Hh as <-; rewrite Hu; rewrite ?upd_eq; repeat split.
Qed.

(** An instance: an access-time update of node 2 takes the time 99 that
    the writable object 20 got. *)
Lemma ovl_update_time_from_upper_witness :
  exists (w' : world),
    ovl_update_time sample_vfs 2 5 S_ATIME sample_world = Some (0, w')
    /\ i_atime (vfs_inode (nodes w' 2)) = 99.
Proof.
  destruct (ovl_update_time sample_vfs 2 5 S_ATIME sample_world)
    as [[r w']|] eqn:Hrun; [|vm_compute in Hrun; discriminate Hrun].
  destruct (ovl_update_time_from_upper sample_vfs 2 5 S_ATIME sample_world w' r Hrun)
    as (-> & _ & _ & Hup).
  exists w'. split; [reflexivity|].
  pose proof (Hup (sample_dentry 2 10 false) 2 ltac:(discriminate) eq_refl eq_refl) as H.
  cbn -[set_i_atime] in H. destruct H as (Hreal & Hv & _).
  rewrite Hv, Hreal. reflexivity.
Defined.

(** X23.  [ovl_get_link] answers [-ECHILD] to an RCU walk without any
    call; otherwise the link is the one the underlying filesystem gives
    for the node's object (writable if present, else read-only) under the
    mounter's credentials, and the caller's credentials are restored. *)
Theorem ovl_get_link_delegates :
  forall (V : vfs) (w : world),
    ovl_get_link V None w = Some (inl (- ECHILD), w)
    /\ forall (d : ovl_dentry) (rd : dentry),
         ovl_dentry_real d w = Some (Some rd, w) ->
         exists w' : world,
           ovl_get_link V (Some d) w
           = Some (get_link_data V (under_mounter (d_sb d) w) rd, w')
           /\ trace w' = trace w ++ [ (current_cred w, c_override_creds);
                                      (creator_cred (s_fs_info (d_sb d)), c_revert_creds) ]
           /\ current_cred w' = current_cred w
           /\ nodes w' = nodes w /\ real w' = real w.
Proof.
  intros V w. split; [reflexivity|].
  intros d rd Hreal.
  unfold ovl_get_link, vfs_get_link, ovl_override_creds, ovl_revert_creds.
  unfold ovl_dentry_real, ovl_dentry_upper in *. monad_unfold.
  run. run in Hreal.
  destruct (od_inode d) as [h|]; [|discriminate Hreal]. run in Hreal. run.
  destruct (__upperdentry (nodes w h)) as [u|]; run in Hreal; run;
    injection Hreal as ->; run;
    eexists; (split; [reflexivity|]); run; rewrite <- ?app_assoc; repeat split.
Qed.

(** An instance: the link of node 1 is read from the read-only object
    10. *)
Lemma ovl_get_link_delegates_witness :
  exists (w' : world),
    ovl_get_link sample_vfs (Some (sample_dentry 1 10 false)) sample_world
    = Some (inr "target"%string, w')
    /\ current_cred w' = plain_user.
Proof.
  destruct (proj2 (ovl_get_link_delegates sample_vfs sample_world)
              (sample_dentry 1 10 false) (mkDentry 10 false) eq_refl)
    as (w' & Hrun & _ & Hc & _).
  exists w'. split; [exact Hrun | exact Hc].
Defined.

(** X24.  [ovl_get_acl] yields no ACL, and swaps no credentials, in a
    build without [CONFIG_FS_POSIX_ACL] or on an underlying filesystem
    without ACL support; otherwise the ACL is the one the underlying inode
    has for the mounter, and the caller's credentials are restored. *)
Theorem ovl_get_acl_delegates :
  forall (cfg : bool) (V : vfs) (sb : super_block) (inode : handle) (type : Z)
         (w : world) (ri : ptr),
    ovl_inode_real (nodes w inode) = Some ri ->
    (cfg && IS_POSIXACL V ri = false ->
     ovl_get_acl cfg V sb inode type w = Some (None, w))
    /\ (cfg && IS_POSIXACL V ri = true ->
        exists w' : world,
          ovl_get_acl cfg V sb inode type w
          = Some (get_acl_data V (under_mounter sb w) ri type, w')
          /\ trace w' = trace w ++ [ (current_cred w, c_override_creds);
                                     (creator_cred (s_fs_info sb), c_revert_creds) ]
          /\ current_cred w' = current_cred w
          /\ nodes w' = nodes w /\ real w' = real w).
Proof.
  intros cfg V sb inode type w ri Hri.
  unfold ovl_get_acl, get_acl, ovl_override_creds, ovl_revert_creds. monad_unfold.
  rewrite Hri. run.
  destruct cfg; run; [|split; [reflexivity | discriminate]].
  destruct (IS_POSIXACL V ri); run; split; try discriminate; try reflexivity.
  intros _. eexists. split; [reflexivity|]. run. rewrite <- ?app_assoc. repeat split.
Qed.

(** An instance: with ACL support the ACL of node 1 is that of the
    read-only object 10; in a build without it there is none. *)
Lemma ovl_get_acl_delegates_witness :
  (exists (w' : world),
      ovl_get_acl true sample_vfs sample_sb 1 0 sample_world = Some (Some 7, w'))
  /\ ovl_get_acl false sample_vfs sample_sb 1 0 sample_world = Some (None, sample_world).
Proof.
  split.
  - destruct (proj2 (ovl_get_acl_delegates true sample_vfs sample_sb 1 0 sample_world 10
                       eq_refl) eq_refl) as (w' & Hrun & _).
    exists w'. exact Hrun.
  - exact (proj1 (ovl_get_acl_delegates false sample_vfs sample_sb 1 0 sample_world 10
                    eq_refl) eq_refl).
Defined.

(** X25.  [ovl_new_inode] never enters a node into the cache.  When the
    allocation fails it changes no node; otherwise the new node has a fresh
    node number, the mode given, the operation table of its kind, no key
    and no references, [S_NOCMTIME] set, and the device number given only
    for a character or block device. *)
Theorem ovl_new_inode_outcome :
  forall (E : env) (sb : super_block) (mode rdev : Z) (w w' : world) (r : option handle),
    ovl_new_inode E sb mode rdev w = Some (r, w') ->
    icache w' = icache w /\ real w' = real w
    /\ match r with
       | None => nodes w' = nodes w /\ next_handle w' = next_handle w
                 /\ next_ino w' = next_ino w
       | Some h =>
         h = next_handle w
         /\ next_handle w' = h + 1
         /\ next_ino w' = next_ino w + 1
         /\ (forall h', h' <> h -> nodes w' h' = nodes w h')
         /\ __upperdentry (nodes w' h) = None /\ lower (nodes w' h) = None
         /\ let i := vfs_inode (nodes w' h) in
            i_ino i = next_ino w
            /\ i_mode i = mode
            /\ i_op i = Some (ovl_inode_ops mode)
            /\ i_rdev i = (if S_ISCHR mode || S_ISBLK mode then rdev else 0)
            /\ Z.land (i_flags i) S_NOCMTIME = S_NOCMTIME
            /\ i_private i = None
       end.
Proof.
  intros E sb mode rdev w w' r H.
  unfold ovl_new_inode, new_inode, ovl_fill_inode, get_next_ino, ovl_inode_ops,
    init_special_inode in H |- *.
  monad_unfold. run in H.
  destruct (alloc_ok E w); run in H; injection H as <- <-; run;
    [|repeat split].
  rewrite !upd_eq. run.
  repeat (split; [reflexivity|]).
  split; [intros h' Hne; rewrite !upd_neq by exact Hne; reflexivity|].
  repeat (split; [reflexivity|]).
  unfold S_ISCHR, S_ISBLK.
  destruct (Z.eqb_spec (Z.land mode S_IFMT) S_IFREG) as [Hk|_];
    [rewrite Hk; repeat split|].
  destruct (Z.eqb_spec (Z.land mode S_IFMT) S_IFDIR) as [Hk|_];
    [rewrite Hk; repeat split|].
  destruct (Z.eqb_spec (Z.land mode S_IFMT) S_IFLNK) as [Hk|_];
    [rewrite Hk; repeat split|].
  destruct ((Z.land mode S_IFMT =? S_IFCHR) || (Z.land mode S_IFMT =? S_IFBLK));
    repeat split.
Qed.

(** An instance: a new character device node gets the file operations and
    its device number. *)
Lemma ovl_new_inode_outcome_witness :
  exists (w' : world),
    ovl_new_inode quiet_env sample_sb (Z.lor S_IFCHR 0x1A4) 5 sample_world
    = Some (Some 100, w')
    /\ i_op (vfs_inode (nodes w' 100)) = Some ovl_file_inode_operations
    /\ i_rdev (vfs_inode (nodes w' 100)) = 5.
Proof.
  destruct (ovl_new_inode quiet_env sample_sb (Z.lor S_IFCHR 0x1A4) 5 sample_world)
    as [[r w']|] eqn:Hrun; [|vm_compute in Hrun; discriminate Hrun].
  assert (Hr : r = Some 100) by (vm_compute in Hrun; injection Hrun as <- _; reflexivity).
  subst r.
  destruct (ovl_new_inode_outcome _ _ _ _ _ _ _ Hrun)
    as (_ & _ & _ & _ & _ & _ & _ & _ & _ & _ & Hop & Hrdev & _).
  exists w'. split; [reflexivity|]. split; [exact Hop | exact Hrdev].
Defined.

(** X26.  [ovl_is_private_xattr] holds exactly of the names that begin
    with [trusted.overlay.], and such a name is never listed, whatever the
    caller's capabilities. *)
Theorem ovl_is_private_xattr_prefix :
  forall (name : string),
    ovl_is_private_xattr name = String.prefix OVL_XATTR_PREFIX name
    /\ (ovl_is_private_xattr name = true ->
        forall w : world, ovl_can_list name w = Some (false, w)).
Proof.
  intros name.
  assert (H : ovl_is_private_xattr name = String.prefix OVL_XATTR_PREFIX name).
  { unfold ovl_is_private_xattr. apply strncmp_prefix. exact nul_free_overlay. }
  split; [exact H|].
  intros Hp w. rewrite ovl_can_list_spec, can_list_internal; [reflexivity|].
  rewrite <- H. exact Hp.
Qed.

(** An instance: [trusted.overlay.origin] is private and is not listed. *)
Lemma ovl_is_private_xattr_prefix_witness :
  ovl_can_list "trusted.overlay.origin" (set_current_cred mounter sample_world)
  = Some (false, set_current_cred mounter sample_world).
Proof.
  exact (proj2 (ovl_is_private_xattr_prefix "trusted.overlay.origin") eq_refl
           (set_current_cred mounter sample_world)).
Defined.
